(** * BloomWell analytics engine: a shallow embedding of [analyser.js]

    The class [WellnessAnalyzer] of [analyser.js] turns three series of
    records (mood, habits, study sessions) into a report with derived
    metrics and textual recommendations, and exports the report as JSON
    and as CSV.  This file embeds the computation of that class and
    proves the properties its specification states about it.

    Conventions of the embedding.
    - Integer inputs (mood levels, counts, minutes, epoch milliseconds)
      are [Z].  Derived JavaScript numbers are exact rationals [Q]: the
      rounding of IEEE-754 doubles is idealised away, which is exact
      as long as the integers the code forms stay below [2^53].  The
      doubles show through in one place, [Math.round(x * scale)] for a
      value [x] whose exact product with [scale] lies halfway between
      two integers: the double product can fall on either side.
      There the embedding follows the doubles, computing that product
      in binary64, see [Math_round_times] and [Math_round_surd]; what
      is proved of a rounded figure in general allows both neighbours
      at such a tie, see [rounds_near].  The doubles that are no
      rationals ([NaN], the infinities, the negative zero) are kept,
      see [jsnum].  A square root stays symbolic until it is rounded,
      see [surd]; the real numbers serve only to relate that rounding
      to the square root of the reals.
    - A JavaScript object used as a dictionary is an association list in
      the order in which [Object.keys] enumerates it, see [obj_set].
    - An exception is a [Throw] of the [result] monad.
    - The host's time zone enters through one function, [tz], the offset
      of local time from UTC at a given instant. *)

From Stdlib Require Import Reals Qreals.
From Stdlib Require Import ZArith QArith Qround Qabs String Ascii Bool.
From Stdlib Require Import Lia Lqa DecimalString DecimalN.
From Stdlib Require PrimFloat Uint63.
From Stdlib Require Import List Permutation Sorted.
Import ListNotations.

Local Open Scope Z_scope.

#[local] Set Warnings "-register-all".

Notation "a +++ b" := (String.append a b) (at level 60, right associativity).

(** ** Part I: definitions *)

(** *** Exceptions *)

Inductive result (A : Type) : Type :=
| Ok (a : A)
| Throw (msg : string).
Arguments Ok {A} a.
Arguments Throw {A} msg.

Definition bind {A B} (r : result A) (k : A -> result B) : result B :=
  match r with
  | Ok a => k a
  | Throw m => Throw m
  end.

Notation "x <- c ;; k" := (bind c (fun x => k))
  (at level 61, c at next level, right associativity).

(** *** JavaScript numbers *)

Module JsNum.

(** A double is a finite value, [NaN], an infinity, or the negative
    zero; [Fin q] with [q == 0] is the positive zero. *)
Inductive jsnum : Type :=
| Fin (q : Q)
| NaN
| PosInf
| NegInf
| NegZero.

Definition Qsgn (q : Q) : Z := Z.sgn (Qnum q).

Definition inf_of_sign (s : Z) : jsnum :=
  if s <? 0 then NegInf else PosInf.

(** [x / y] on doubles.  A zero quotient is negative when exactly one
    operand has the negative sign. *)
Definition js_div (x y : jsnum) : jsnum :=
  match x, y with
  | NaN, _ | _, NaN => NaN
  | Fin a, Fin b =>
      if Qeq_bool b 0 then
        (if Qeq_bool a 0 then NaN else inf_of_sign (Qsgn a))
      else if Qeq_bool a 0 && (Qsgn b <? 0) then NegZero
      else Fin (a / b)
  | Fin a, NegZero =>
      if Qeq_bool a 0 then NaN else inf_of_sign (- Qsgn a)
  | NegZero, Fin b =>
      if Qeq_bool b 0 then NaN
      else if Qsgn b <? 0 then Fin 0 else NegZero
  | NegZero, NegZero => NaN
  | Fin a, PosInf => if Qsgn a <? 0 then NegZero else Fin 0
  | Fin a, NegInf => if Qsgn a <? 0 then Fin 0 else NegZero
  | NegZero, PosInf => NegZero
  | NegZero, NegInf => Fin 0
  | PosInf, Fin b => inf_of_sign (if Qsgn b <? 0 then -1 else 1)
  | NegInf, Fin b => inf_of_sign (if Qsgn b <? 0 then 1 else -1)
  | PosInf, NegZero => NegInf
  | NegInf, NegZero => PosInf
  | (PosInf | NegInf), (PosInf | NegInf) => NaN
  end.

(** [x > y] and [x < y]: false as soon as one side is [NaN]; the two
    zeros compare as equal. *)
Definition js_gt (x y : jsnum) : bool :=
  match x, y with
  | NaN, _ | _, NaN => false
  | Fin a, Fin b => negb (Qle_bool a b)
  | Fin a, NegZero => negb (Qle_bool a 0)
  | NegZero, Fin b => negb (Qle_bool 0 b)
  | NegZero, NegZero => false
  | PosInf, (Fin _ | NegInf | NegZero) => true
  | (Fin _ | NegZero), NegInf => true
  | _, _ => false
  end.

Definition js_lt (x y : jsnum) : bool := js_gt y x.

(** [Math.round] on an exact value: the nearest integer, a tie going
    towards plus infinity. *)
Definition Qround_half_up (q : Q) : Z := Qfloor (q + (1 # 2)).

(** An integer as a double; exact up to [2^53] in magnitude. *)
Definition double_of_Z (z : Z) : PrimFloat.float :=
  if z <? 0 then PrimFloat.opp (PrimFloat.of_uint63 (Uint63.of_Z (- z)))
  else PrimFloat.of_uint63 (Uint63.of_Z z).

Definition is_double_int (z : Z) : bool := Z.abs z <=? 9007199254740992.

(** The double product [x * scale], for the double [x] nearest to the
    quotient [q], lies below [k + 1/2].  The quotient of two integers
    that are doubles is the double nearest to the exact quotient,
    whether or not the fraction is in lowest terms. *)
Definition double_product_below_half (q : Q) (scale k : Z) : bool :=
  let r := Qred q in
  PrimFloat.ltb
    (PrimFloat.mul
       (PrimFloat.div (double_of_Z (Qnum r)) (double_of_Z (Zpos (Qden r))))
       (double_of_Z scale))
    (PrimFloat.div (double_of_Z (2 * k + 1)) (double_of_Z 2)).

(** [Math.round(x * scale)] for the quotient [x = q].  The code forms
    the product in doubles, off the exact product by a relative error
    of [2^-52] at most.  Where the exact product is no tie, that error
    is too small to change the nearest integer (for integers of the
    sizes the program is run on: the distance of the exact product
    from a tie is at least one half of the reciprocal of the
    denominator of [q]).  Where the exact product is a tie
    [k + 1/2], the double product decides: below [k + 1/2] the result
    is [k], otherwise [k + 1]. *)
Definition Math_round_times (q : Q) (scale : Z) : Z :=
  let product := (q * inject_Z scale)%Q in
  let k := Qfloor product in
  if Qeq_bool (product - inject_Z k)%Q (1 # 2)
     && is_double_int (Qnum (Qred q))
     && is_double_int (Zpos (Qden (Qred q)))
     && is_double_int scale
     && is_double_int (2 * k + 1)
     && double_product_below_half q scale k
  then k
  else Qround_half_up product.

(** [Math.round(x * 10^k) / 10^k] for the quotient [x], as a rational
    (the negative zero that a small negative [x] yields is the
    rational 0, see [js_round_to] for the double). *)
Definition round_to (scale : Z) (q : Q) : Q :=
  inject_Z (Math_round_times q scale) / inject_Z scale.

(** [Math.round(x * 10^k) / 10^k] on a double [x]: [NaN], the
    infinities and the zeros are returned as they are; a negative [x]
    whose product rounds to 0 gives the negative zero ([Math.round]
    returns [-0] from [-0.5] up to, but not including, 0). *)
Definition js_round_to (scale : Z) (x : jsnum) : jsnum :=
  match x with
  | Fin q =>
      if (Math_round_times q scale =? 0) && (Qsgn q <? 0) then NegZero
      else Fin (round_to scale q)
  | other => other
  end.

(** [Math.pow(x, 2)] on a double: the engines return the double
    product [x * x] for the exponent 2. *)
Definition Math_pow_2 (x : PrimFloat.float) : PrimFloat.float :=
  PrimFloat.mul x x.

(** A non-negative rational as a double. *)
Definition double_of_Q (c : Q) : PrimFloat.float :=
  PrimFloat.div (double_of_Z (Qnum c)) (double_of_Z (Zpos (Qden c))).

(** [Math.sqrt(v)] is kept symbolic, so that what is computed from it
    stays exact: the only use the code makes of a square root is
    [Math.round(Math.sqrt(v) * 100) / 100].  Next to the exact
    radicand stands the double that the code holds for the square
    root; it decides the rounding where the exact square root is a
    tie. *)
Inductive surd : Type :=
| Sqrt (radicand : Q) (held : PrimFloat.float).

(** [Math.sqrt(v)], for the exact value [v] and the double [d] that the
    code holds for it. *)
Definition Math_sqrt (v : Q) (d : PrimFloat.float) : surd :=
  Sqrt v (PrimFloat.sqrt d).

(** [s * c] for a non-negative rational [c]. *)
Definition surd_scale (s : surd) (c : Q) : surd :=
  match s with
  | Sqrt v d => Sqrt (v * (c * c)) (PrimFloat.mul d (double_of_Q c))
  end.

(** The nearest integer to [sqrt v], a tie going upwards: with [s] the
    integer part of [sqrt (4 v)], it is [(s + 1) / 2]. *)
Definition Qsqrt_half_up (v : Q) : Z := (Z.sqrt (Qfloor (v * 4)) + 1) / 2.

(** [Math.round] of a square root.  Where the exact square root is the
    tie [j - 1/2], the double decides: below [j - 1/2] the result is
    [j - 1], otherwise [j].  Off a tie the double is too close to the
    exact square root to change the nearest integer, for series of the
    sizes the program is run on. *)
Definition Math_round_surd (s : surd) : Z :=
  match s with
  | Sqrt v d =>
      let j := Qsqrt_half_up v in
      if Qeq_bool (v * 4) (inject_Z ((2 * j - 1) * (2 * j - 1)))
         && (0 <? j)
         && is_double_int (2 * j - 1)
         && PrimFloat.ltb d (PrimFloat.div (double_of_Z (2 * j - 1))
                                           (double_of_Z 2))
      then j - 1
      else j
  end.

End JsNum.
Import JsNum.

(** *** Strings and the conversion of numbers to strings *)

Definition dquote : string := String "034"%char EmptyString.
Definition newline : string := String "010"%char EmptyString.

Definition digit_char (d : Z) : ascii := ascii_of_nat (48 + Z.to_nat d).

(** Decimal digits of a natural number, as [String(n)] prints them. *)
Definition N_toString (n : N) : string :=
  NilZero.string_of_uint (N.to_uint n).

Definition Z_toString (z : Z) : string :=
  if z <? 0 then "-" +++ N_toString (Z.to_N (- z)) else N_toString (Z.to_N z).

(** Digits after the decimal point of [r / d], for [0 <= r < d]. *)
Fixpoint frac_digits (fuel : nat) (r d : Z) : string :=
  match fuel with
  | O => EmptyString
  | S fuel' =>
      if r =? 0 then EmptyString
      else String (digit_char (r * 10 / d)) (frac_digits fuel' (r * 10 mod d) d)
  end.

(** [String(x)] for a finite number in the range where JavaScript prints
    plain decimal notation.  The values the exports print are integers
    or were rounded to at most four decimals; a value whose expansion
    does not end is cut after 17 digits. *)
Definition Q_toString (q : Q) : string :=
  let n := Z.abs (Qnum q) in
  let d := Zpos (Qden q) in
  let ip := N_toString (Z.to_N (n / d)) in
  let fp := frac_digits 17 (n mod d) d in
  let body := match fp with
              | EmptyString => ip
              | _ => ip +++ "." +++ fp
              end in
  if (Qnum q <? 0) && negb (n =? 0) then "-" +++ body else body.

Definition jsnum_toString (x : jsnum) : string :=
  match x with
  | Fin q => Q_toString q
  | NaN => "NaN"
  | PosInf => "Infinity"
  | NegInf => "-Infinity"
  | NegZero => "0"
  end.

(** [parseInt(s)] on a string of decimal digits; [NaN] when [s] is no
    number. *)
Definition parseInt (s : string) : jsnum :=
  match NilZero.uint_of_string s with
  | Some d => Fin (inject_Z (Z.of_N (N.of_uint d)))
  | None => NaN
  end.

(** *** Objects used as dictionaries *)

Module JsObj.

(** The property names an object literal inherits from
    [Object.prototype]: reading one of them from [{}] yields a function
    (or, for [__proto__], the prototype itself), which is truthy. *)
Definition prototype_keys : list string :=
  [ "constructor"; "__defineGetter__"; "__defineSetter__"; "hasOwnProperty";
    "__lookupGetter__"; "__lookupSetter__"; "isPrototypeOf";
    "propertyIsEnumerable"; "toString"; "valueOf"; "__proto__";
    "toLocaleString" ]%string.

Definition inherited (k : string) : bool :=
  existsb (String.eqb k) prototype_keys.

(** A key is an array index when it is the canonical decimal form of an
    integer below [2^32 - 1]; such keys are enumerated first, in
    ascending numeric order, the other keys follow in creation order. *)
Definition array_index (k : string) : option N :=
  match NilZero.uint_of_string k with
  | Some d =>
      let n := N.of_uint d in
      if String.eqb (N_toString n) k && (n <? 4294967295)%N
      then Some n else None
  | None => None
  end.

(** Own properties, listed in enumeration order. *)
Definition obj (V : Type) : Type := list (string * V).

Fixpoint obj_get {V} (o : obj V) (k : string) : option V :=
  match o with
  | [] => None
  | (k', v) :: o' => if String.eqb k k' then Some v else obj_get o' k
  end.

Fixpoint obj_replace {V} (o : obj V) (k : string) (v : V) : obj V :=
  match o with
  | [] => []
  | (k', v') :: o' =>
      if String.eqb k k' then (k', v) :: o' else (k', v') :: obj_replace o' k v
  end.

Fixpoint insert_index {V} (n : N) (k : string) (v : V) (o : obj V) : obj V :=
  match o with
  | [] => [(k, v)]
  | (k', v') :: o' =>
      match array_index k' with
      | Some n' =>
          if (n <? n')%N then (k, v) :: o else (k', v') :: insert_index n k v o'
      | None => (k, v) :: o
      end
  end.

(** [o[k] = v]. *)
Definition obj_set {V} (o : obj V) (k : string) (v : V) : obj V :=
  match obj_get o k with
  | Some _ => obj_replace o k v
  | None =>
      match array_index k with
      | Some n => insert_index n k v o
      | None => o ++ [(k, v)]
      end
  end.

Definition Object_keys {V} (o : obj V) : list string := map fst o.

(** The properties [props] defined on [o], one after the other. *)
Definition define_all {V} (props : list (string * V)) (o : obj V) : obj V :=
  fold_left (fun o kv => obj_set o (fst kv) (snd kv)) props o.

End JsObj.
Import JsObj.

(** [array.reduce(f)] without an initial value. *)
Definition reduce1 {A} (f : A -> A -> A) (l : list A) : result A :=
  match l with
  | [] => Throw "TypeError: Reduce of empty array with no initial value"
  | a :: rest => Ok (fold_left f rest a)
  end.

(** [array.map((entry, index) => ...)]. *)
Fixpoint mapi_from {A B} (f : A -> Z -> B) (i : Z) (l : list A) : list B :=
  match l with
  | [] => []
  | a :: rest => f a i :: mapi_from f (i + 1) rest
  end.

Definition mapi {A B} (f : A -> Z -> B) (l : list A) : list B := mapi_from f 0 l.

(** A number read from a dictionary, in a comparison: a missing property
    is [undefined], which compares as [NaN]. *)
Definition num_of (o : option Q) : jsnum :=
  match o with
  | Some q => Fin q
  | None => NaN
  end.

(** *** Input records *)

(** [date] fields hold a [Date]; the embedding keeps its instant, in
    milliseconds since the epoch. *)
Record MoodEntry : Type := mkMoodEntry {
  m_date : Z;
  mood_level : Z;
  energy_level : Z;
  notes : string
}.

Record HabitEntry : Type := mkHabitEntry {
  name : string;
  h_date : Z;
  completed : Z;
  target : Z
}.

Record StudySession : Type := mkStudySession {
  subject : string;
  s_date : Z;
  duration_minutes : Z;
  s_completed : bool;
  timestamp : Z
}.

(** What [loadUserData] hands over; [period] entries carry nothing the
    analyzer reads. *)
Record UserData : Type := mkUserData {
  mood_data : list MoodEntry;
  habit_data : list HabitEntry;
  study_data : list StudySession;
  period_data : list unit
}.

(** *** Insight objects

    Each calculator has two [return] statements, one for an empty
    series and one for the general case; the two object shapes are the
    two constructors. *)

Inductive MoodInsights : Type :=
| MoodBasic (average : Q) (trend : string) (volatility : Q)
| MoodFull (average : Q) (trend : string) (trend_slope : jsnum)
           (volatility : Q) (best_weekday worst_weekday : string)
           (weekday_patterns : obj Q).

Inductive HabitInsights : Type :=
| HabitBasic (completion_rate : Q) (streaks : obj Z) (patterns : obj Z)
| HabitFull (overall_completion_rate : Q)
            (individual_completion_rates : obj Q)
            (current_streaks : obj Z)
            (most_consistent_habit needs_attention : string).

Record HourBucket : Type := mkHourBucket {
  hb_sessions : Z;
  hb_completed : Z;
  hb_totalDuration : Z
}.

Record SubjectBucket : Type := mkSubjectBucket {
  sb_sessions : Z;
  sb_totalDuration : Z;
  sb_completed : Z
}.

(** [best_study_hour] is [null] ([None]) or a number. *)
Inductive StudyInsights : Type :=
| StudyBasic (total_sessions : Z) (avg_duration : Q) (efficiency : Z)
| StudyFull (total_sessions total_minutes : Z) (avg_duration : Q)
            (completion_rate : Q) (best_study_hour : option jsnum)
            (hourly_patterns : obj HourBucket)
            (subject_performance : obj SubjectBucket).

(** The object passed to [generateRecommendations]; a section may be
    [null]. *)
Record Insights : Type := mkInsights {
  mood : option MoodInsights;
  habits : option HabitInsights;
  study : option StudyInsights
}.

(** Property reads.  A property the shape does not have reads as
    [undefined], here [None]. *)
Definition mood_average (m : MoodInsights) : Q :=
  match m with
  | MoodBasic a _ _ => a
  | MoodFull a _ _ _ _ _ _ => a
  end.

Definition mood_trend (m : MoodInsights) : string :=
  match m with
  | MoodBasic _ t _ => t
  | MoodFull _ t _ _ _ _ _ => t
  end.

Definition mood_volatility (m : MoodInsights) : Q :=
  match m with
  | MoodBasic _ _ v => v
  | MoodFull _ _ _ v _ _ _ => v
  end.

Definition mood_trend_slope (m : MoodInsights) : option jsnum :=
  match m with
  | MoodBasic _ _ _ => None
  | MoodFull _ _ s _ _ _ _ => Some s
  end.

Definition habits_overall_completion_rate (h : HabitInsights) : option Q :=
  match h with
  | HabitBasic _ _ _ => None
  | HabitFull r _ _ _ _ => Some r
  end.

Definition habits_current_streaks (h : HabitInsights) : option (obj Z) :=
  match h with
  | HabitBasic _ _ _ => None
  | HabitFull _ _ s _ _ => Some s
  end.

Definition habits_most_consistent_habit (h : HabitInsights) : option string :=
  match h with
  | HabitBasic _ _ _ => None
  | HabitFull _ _ _ m _ => Some m
  end.

Definition habits_needs_attention (h : HabitInsights) : option string :=
  match h with
  | HabitBasic _ _ _ => None
  | HabitFull _ _ _ _ n => Some n
  end.

Definition study_avg_duration (s : StudyInsights) : Q :=
  match s with
  | StudyBasic _ a _ => a
  | StudyFull _ _ a _ _ _ _ => a
  end.

Definition study_completion_rate (s : StudyInsights) : option Q :=
  match s with
  | StudyBasic _ _ _ => None
  | StudyFull _ _ _ r _ _ _ => Some r
  end.

(** The three outcomes of reading [best_study_hour]. *)
Inductive hour_read : Type :=
| HourUndefined
| HourNull
| HourNumber (h : jsnum).

Definition study_best_study_hour (s : StudyInsights) : hour_read :=
  match s with
  | StudyBasic _ _ _ => HourUndefined
  | StudyFull _ _ _ _ None _ _ => HourNull
  | StudyFull _ _ _ _ (Some h) _ _ => HourNumber h
  end.

(** [x == null]: no value, be it [null] or [undefined]. *)
Definition nullish (h : hour_read) : bool :=
  match h with
  | HourUndefined | HourNull => true
  | HourNumber _ => false
  end.

(** *** Dates in the host's time zone *)

Section HostDates.

(** Offset of local time from UTC, in milliseconds, at an instant. *)
Variable tz : Z -> Z.

Definition weekday_names : list string :=
  [ "Sunday"; "Monday"; "Tuesday"; "Wednesday"; "Thursday"; "Friday";
    "Saturday" ]%string.

(** [date.toLocaleDateString('en', { weekday: 'long' })]; the epoch was a
    Thursday. *)
Definition toLocaleDateString_weekday (t : Z) : string :=
  nth (Z.to_nat (((t + tz t) / 86400000 + 4) mod 7)) weekday_names
      "Invalid Date"%string.

(** [date.getHours()]. *)
Definition getHours (t : Z) : Z := ((t + tz t) / 3600000) mod 24.

(** *** Mood *)

Record Point : Type := mkPoint { x : Z; y : Z }.

(** Simple linear regression for trend calculation.  The sums and
    products are those of the integers; the doubles of the code hold
    the same values as long as these stay below [2^53], see
    [exact_trend]. *)
Definition calculateTrend (data : list Point) : jsnum :=
  let n := Z.of_nat (length data) in
  let sumX := fold_left (fun sum point => sum + x point) data 0 in
  let sumY := fold_left (fun sum point => sum + y point) data 0 in
  let sumXY := fold_left (fun sum point => sum + x point * y point) data 0 in
  let sumXX := fold_left (fun sum point => sum + x point * x point) data 0 in
  let slope := js_div (Fin (inject_Z (n * sumXY - sumX * sumY)))
                      (Fin (inject_Z (n * sumXX - sumX * sumX))) in
  slope.

(** [weekdayMoods[weekday].push(level)], after creating the array when
    the key is new. *)
Definition push_weekday (weekdayMoods : obj (list Z)) (entry : MoodEntry)
  : obj (list Z) :=
  let weekday := toLocaleDateString_weekday (m_date entry) in
  let weekdayMoods :=
    match obj_get weekdayMoods weekday with
    | None => obj_set weekdayMoods weekday []
    | Some _ => weekdayMoods
    end in
  match obj_get weekdayMoods weekday with
  | Some moods => obj_set weekdayMoods weekday (moods ++ [mood_level entry])
  | None => weekdayMoods
  end.

Definition mean_of (moods : list Z) : Q :=
  inject_Z (fold_left (fun sum mood => sum + mood) moods 0)
  / inject_Z (Z.of_nat (length moods)).

Definition trend_label (trend : jsnum) : string :=
  if js_gt trend (Fin (5 # 100)) then "improving"
  else if js_lt trend (Fin (- (5 # 100))) then "declining"
  else "stable".

(** The double that the code holds for the variance: the mean, the
    deviations, their squares and the sum of these are formed in
    doubles, in the order of the entries. *)
Definition double_variance (moodData : list MoodEntry) : PrimFloat.float :=
  let len := double_of_Z (Z.of_nat (length moodData)) in
  let avgMood :=
    PrimFloat.div
      (double_of_Z
         (fold_left (fun sum entry => sum + mood_level entry) moodData 0))
      len in
  PrimFloat.div
    (fold_left
       (fun sum entry =>
          PrimFloat.add sum
            (Math_pow_2 (PrimFloat.sub (double_of_Z (mood_level entry)) avgMood)))
       moodData PrimFloat.zero)
    len.

(** In the general case the divisor [moodData.length] is positive. *)
Definition calculateMoodInsights (moodData : list MoodEntry)
  : result MoodInsights :=
  if (length moodData =? 0)%nat then Ok (MoodBasic 0 "no_data" 0) else
  let len := inject_Z (Z.of_nat (length moodData)) in
  let avgMood :=
    (inject_Z
       (fold_left (fun sum entry => (sum + mood_level entry)%Z) moodData 0%Z)
     / len)%Q in
  let trend :=
    calculateTrend
      (mapi (fun entry index => {| x := index; y := mood_level entry |})
            moodData) in
  let variance :=
    (fold_left
       (fun sum entry => sum + (inject_Z (mood_level entry) - avgMood) ^ 2)
       moodData 0 / len)%Q in
  let volatility := Math_sqrt variance (double_variance moodData) in
  let weekdayMoods := fold_left push_weekday moodData [] in
  let weekdayAverages :=
    fold_left
      (fun weekdayAverages day =>
         match obj_get weekdayMoods day with
         | Some moods => obj_set weekdayAverages day (mean_of moods)
         | None => weekdayAverages
         end)
      (Object_keys weekdayMoods) [] in
  bestDay <- reduce1
    (fun a b => if js_gt (num_of (obj_get weekdayAverages a))
                         (num_of (obj_get weekdayAverages b))
                then a else b)
    (Object_keys weekdayAverages) ;;
  worstDay <- reduce1
    (fun a b => if js_lt (num_of (obj_get weekdayAverages a))
                         (num_of (obj_get weekdayAverages b))
                then a else b)
    (Object_keys weekdayAverages) ;;
  Ok (MoodFull
        (round_to 100 avgMood)
        (trend_label trend)
        (js_round_to 10000 trend)
        (inject_Z (Math_round_surd (surd_scale volatility 100)) / 100)
        bestDay
        worstDay
        weekdayAverages).

End HostDates.
(** *** Habits *)

(** An entry counts when [completed >= target]. *)
Definition qualifies (h : HabitEntry) : bool := target h <=? completed h.

(** [habits.sort((a, b) => a.date - b.date)]: ascending by date, entries
    of equal date keeping their order ([Array.prototype.sort] is
    stable). *)
Fixpoint insert_by_date (e : HabitEntry) (l : list HabitEntry)
  : list HabitEntry :=
  match l with
  | [] => [e]
  | h :: t =>
      if h_date e <=? h_date h then e :: l else h :: insert_by_date e t
  end.

Definition sort_by_date (l : list HabitEntry) : list HabitEntry :=
  fold_right insert_by_date [] l.

(** The loop [for (let i = habits.length - 1; i >= 0; i--)]: [k] is
    [i + 1], the number of indices still to visit; [break] returns the
    count reached. *)
Fixpoint streak_loop (habits : list HabitEntry) (k : nat) (currentStreak : Z)
  : Z :=
  match k with
  | O => currentStreak
  | S i =>
      match nth_error habits i with
      | Some h =>
          if qualifies h then streak_loop habits i (currentStreak + 1)
          else currentStreak
      | None => currentStreak
      end
  end.

Definition current_streak (habits : list HabitEntry) : Z :=
  streak_loop habits (length habits) 0.

(** One step of the grouping loop.  For a name that [{}] inherits, the
    test [!habitGroups[entry.name]] finds a truthy value that is no
    array, and the [push] that follows throws. *)
Definition push_habit (habitGroups : obj (list HabitEntry)) (entry : HabitEntry)
  : result (obj (list HabitEntry)) :=
  if inherited (name entry) then
    Throw "TypeError: habitGroups[entry.name].push is not a function"
  else
    let habitGroups :=
      match obj_get habitGroups (name entry) with
      | None => obj_set habitGroups (name entry) []
      | Some _ => habitGroups
      end in
    match obj_get habitGroups (name entry) with
    | Some group => Ok (obj_set habitGroups (name entry) (group ++ [entry]))
    | None => Ok habitGroups
    end.

Fixpoint group_habits (habitGroups : obj (list HabitEntry))
  (habitData : list HabitEntry) : result (obj (list HabitEntry)) :=
  match habitData with
  | [] => Ok habitGroups
  | entry :: rest =>
      habitGroups' <- push_habit habitGroups entry ;;
      group_habits habitGroups' rest
  end.

(** The body of [Object.keys(habitGroups).forEach]: the state is the
    pair of dictionaries [completionRates] and [streaks]. *)
Definition habit_step (habitGroups : obj (list HabitEntry))
  (st : obj Q * obj Z) (habitName : string) : obj Q * obj Z :=
  let (completionRates, streaks) := st in
  match obj_get habitGroups habitName with
  | None => st
  | Some group =>
      let habits := sort_by_date group in
      let completed := Z.of_nat (length (filter qualifies habits)) in
      let completionRates :=
        obj_set completionRates habitName
          (round_to 1000
             (inject_Z completed / inject_Z (Z.of_nat (length habits)))) in
      let streaks := obj_set streaks habitName (current_streak habits) in
      (completionRates, streaks)
  end.

Definition analyzeHabitPatterns (habitData : list HabitEntry)
  : result HabitInsights :=
  if (length habitData =? 0)%nat then Ok (HabitBasic 0 [] []) else
  habitGroups <- group_habits [] habitData ;;
  let (completionRates, streaks) :=
    fold_left (habit_step habitGroups) (Object_keys habitGroups) ([], []) in
  let totalCompleted := fold_left (fun sum h => sum + completed h) habitData 0 in
  let totalTarget := fold_left (fun sum h => sum + target h) habitData 0 in
  let overallCompletion :=
    if 0 <? totalTarget
    then (inject_Z totalCompleted / inject_Z totalTarget)%Q
    else 0%Q in
  mostConsistent <- reduce1
    (fun a b => if js_gt (num_of (obj_get completionRates a))
                         (num_of (obj_get completionRates b))
                then a else b)
    (Object_keys completionRates) ;;
  needsAttention <- reduce1
    (fun a b => if js_lt (num_of (obj_get completionRates a))
                         (num_of (obj_get completionRates b))
                then a else b)
    (Object_keys completionRates) ;;
  Ok (HabitFull
        (round_to 1000 overallCompletion)
        completionRates
        streaks
        mostConsistent
        needsAttention).

(** *** Study *)

Section HostStudy.

Variable tz : Z -> Z.

(** One step of the hour analysis; the key is [String(hour)]. *)
Definition push_hour (hourlyData : obj HourBucket) (session : StudySession)
  : obj HourBucket :=
  let hour := Z_toString (getHours tz (timestamp session)) in
  let hourlyData :=
    match obj_get hourlyData hour with
    | None => obj_set hourlyData hour (mkHourBucket 0 0 0)
    | Some _ => hourlyData
    end in
  match obj_get hourlyData hour with
  | Some b =>
      obj_set hourlyData hour
        (mkHourBucket
           (hb_sessions b + 1)
           (if s_completed session then hb_completed b + 1 else hb_completed b)
           (hb_totalDuration b + duration_minutes session))
  | None => hourlyData
  end.

(** The body of [Object.keys(hourlyData).forEach]; the state is the pair
    [(bestHour, bestCompletionRate)].  A bucket has at least one
    session. *)
Definition best_hour_step (hourlyData : obj HourBucket)
  (st : option jsnum * Q) (hour : string) : option jsnum * Q :=
  let (bestHour, bestCompletionRate) := st in
  match obj_get hourlyData hour with
  | Some data =>
      let rate := (inject_Z (hb_completed data) / inject_Z (hb_sessions data))%Q in
      if negb (Qle_bool rate bestCompletionRate)
      then (Some (parseInt hour), rate)
      else st
  | None => st
  end.

(** One step of the subject analysis.  For a subject that [{}] inherits
    the test [!subjectData[session.subject]] fails, and the updates
    land on the inherited object: [subjectData] gets no property. *)
Definition push_subject (subjectData : obj SubjectBucket)
  (session : StudySession) : obj SubjectBucket :=
  if inherited (subject session) then subjectData else
  let subjectData :=
    match obj_get subjectData (subject session) with
    | None => obj_set subjectData (subject session) (mkSubjectBucket 0 0 0)
    | Some _ => subjectData
    end in
  match obj_get subjectData (subject session) with
  | Some b =>
      obj_set subjectData (subject session)
        (mkSubjectBucket
           (sb_sessions b + 1)
           (sb_totalDuration b + duration_minutes session)
           (if s_completed session then sb_completed b + 1 else sb_completed b))
  | None => subjectData
  end.

(** In the general case the divisor [totalSessions] is positive. *)
Definition analyzeStudyPerformance (studyData : list StudySession)
  : StudyInsights :=
  if (length studyData =? 0)%nat then StudyBasic 0 0 0 else
  let totalSessions := Z.of_nat (length studyData) in
  let totalMinutes :=
    fold_left (fun sum s => sum + duration_minutes s) studyData 0 in
  let avgDuration := (inject_Z totalMinutes / inject_Z totalSessions)%Q in
  let completedSessions :=
    Z.of_nat (length (filter (fun s => s_completed s) studyData)) in
  let completionRate :=
    (inject_Z completedSessions / inject_Z totalSessions)%Q in
  let hourlyData := fold_left push_hour studyData [] in
  let (bestHour, _) :=
    fold_left (best_hour_step hourlyData) (Object_keys hourlyData)
              (None, 0%Q) in
  let subjectData := fold_left push_subject studyData [] in
  StudyFull
    totalSessions
    totalMinutes
    (round_to 10 avgDuration)
    (round_to 1000 completionRate)
    bestHour
    hourlyData
    subjectData.

End HostStudy.

(** *** Recommendations *)

Definition push {A} (arr : list A) (a : A) : list A := arr ++ [a].

(** Truthiness of a string property that may be missing. *)
Definition truthy_string (s : option string) : bool :=
  match s with
  | Some EmptyString => false
  | Some _ => true
  | None => false
  end.

(** Truthiness of [best_study_hour]: [undefined], [null], the two
    zeros and [NaN] are falsy. *)
Definition truthy_hour (h : hour_read) : bool :=
  match h with
  | HourNumber (Fin q) => negb (Qeq_bool q 0)
  | HourNumber (NaN | NegZero) => false
  | HourNumber _ => true
  | HourUndefined | HourNull => false
  end.

Definition hour_toString (h : hour_read) : string :=
  match h with
  | HourUndefined => "undefined"
  | HourNull => "null"
  | HourNumber n => jsnum_toString n
  end.

Definition rec_mood_declining : string :=
  "Your mood has been declining recently. Consider incorporating more mindfulness practices or reaching out for support.".

Definition rec_mood_volatile : string :=
  "Your mood shows high variability. Maintaining consistent sleep and exercise routines may help stabilize your emotional well-being.".

Definition rec_habit_rate : string :=
  "Your habit completion rate is below 70%. Consider reducing the number of habits or making them smaller and more achievable.".

Definition rec_habit_attention (habit : string) : string :=
  "Your '" +++ habit +++
  "' habit needs attention. Consider pairing it with an existing strong habit or adjusting the difficulty.".

Definition rec_study_hour (hour : string) : string :=
  "You perform best during " +++ hour +++
  ":00. Try scheduling more important study sessions during this time.".

Definition string_or_undefined (s : option string) : string :=
  match s with
  | Some s => s
  | None => "undefined"
  end.

Definition generateRecommendations (insights : Insights) : list string :=
  let recommendations : list string := [] in
  let recommendations :=
    match mood insights with
    | Some m =>
        let recommendations :=
          if String.eqb (mood_trend m) "declining"
          then push recommendations rec_mood_declining
          else recommendations in
        if js_gt (Fin (mood_volatility m)) (Fin (15 # 10))
        then push recommendations rec_mood_volatile
        else recommendations
    | None => recommendations
    end in
  let recommendations :=
    match habits insights with
    | Some h =>
        let recommendations :=
          if js_lt (num_of (habits_overall_completion_rate h)) (Fin (7 # 10))
          then push recommendations rec_habit_rate
          else recommendations in
        if truthy_string (habits_needs_attention h)
        then push recommendations
               (rec_habit_attention
                  (string_or_undefined (habits_needs_attention h)))
        else recommendations
    | None => recommendations
    end in
  let recommendations :=
    match study insights with
    | Some s =>
        if truthy_hour (study_best_study_hour s)
           && js_lt (num_of (study_completion_rate s)) (Fin (8 # 10))
        then push recommendations
               (rec_study_hour (hour_toString (study_best_study_hour s)))
        else recommendations
    | None => recommendations
    end in
  recommendations.

(** *** The report *)

Record AnalysisPeriod : Type := mkAnalysisPeriod {
  days : Z;
  start_date : string;
  end_date : string
}.

Record DataQuality : Type := mkDataQuality {
  mood_entries : Z;
  habit_entries : Z;
  study_entries : Z;
  period_entries : Z
}.

Record Report : Type := mkReport {
  user_id : string;
  analysis_period : AnalysisPeriod;
  insights : Insights;
  recommendations : list string;
  generated_at : string;
  data_quality : DataQuality
}.

(** The instants at which the clock is read while the report is built. *)
Record Clock : Type := mkClock {
  at_start_date : Z;
  at_end_date : Z;
  at_generated : Z
}.

(** [s.split('T')[0]]. *)
Fixpoint before_T (s : string) : string :=
  match s with
  | EmptyString => EmptyString
  | String c rest =>
      if Ascii.eqb c "T" then EmptyString else String c (before_T rest)
  end.

Section HostReport.

Variable tz : Z -> Z.

(** [new Date(t).toISOString()], for an instant [t] that a [Date] can
    hold.  For any other instant [toISOString] throws a [RangeError];
    the embedding does not follow that path, and what is proved of a
    report that is built is proved for instants a [Date] can hold, see
    [report_times_valid]. *)
Variable toISOString : Z -> string.

(** [createWellnessReport], from the data [loadUserData] returned on. *)
Definition createWellnessReport (clock : Clock) (userId : string) (days : Z)
  (data : UserData) : result Report :=
  moodInsights <- calculateMoodInsights tz (mood_data data) ;;
  habitInsights <- analyzeHabitPatterns (habit_data data) ;;
  let studyInsights := analyzeStudyPerformance tz (study_data data) in
  let allInsights :=
    {| mood := Some moodInsights;
       habits := Some habitInsights;
       study := Some studyInsights |} in
  let recommendations := generateRecommendations allInsights in
  let report :=
    {| user_id := userId;
       analysis_period :=
         {| days := days;
            start_date :=
              before_T
                (toISOString (at_start_date clock - days * 24 * 60 * 60 * 1000));
            end_date := before_T (toISOString (at_end_date clock)) |};
       insights := allInsights;
       recommendations := recommendations;
       generated_at := toISOString (at_generated clock);
       data_quality :=
         {| mood_entries := Z.of_nat (length (mood_data data));
            habit_entries := Z.of_nat (length (habit_data data));
            study_entries := Z.of_nat (length (study_data data));
            period_entries := Z.of_nat (length (period_data data)) |} |} in
  Ok report.

End HostReport.

(** *** CSV export *)

Definition number_or_undefined (o : option Q) : string :=
  match o with
  | Some q => Q_toString q
  | None => "undefined"
  end.

Definition csv_recommendation_row (index : Z) (recommendation : string)
  : string :=
  "recommendation_" +++ Z_toString (index + 1) +++ "," +++ dquote
  +++ recommendation +++ dquote +++ ",recommendations".

(** [report.recommendations.forEach((rec, index) => rows.push(...))]. *)
Fixpoint forEach_recommendation (rows : list string) (index : Z)
  (recs : list string) : list string :=
  match recs with
  | [] => rows
  | recommendation :: rest =>
      forEach_recommendation
        (push rows (csv_recommendation_row index recommendation))
        (index + 1) rest
  end.

Definition csv_mood_rows (rows : list string) (report : Report) : list string :=
  match mood (insights report) with
  | Some m =>
      let rows :=
        push rows ("mood_average," +++ Q_toString (mood_average m) +++ ",mood") in
      let rows := push rows ("mood_trend," +++ mood_trend m +++ ",mood") in
      push rows
        ("mood_volatility," +++ Q_toString (mood_volatility m) +++ ",mood")
  | None => rows
  end.

Definition csv_habit_rows (rows : list string) (report : Report) : list string :=
  match habits (insights report) with
  | Some h =>
      let rows :=
        push rows
          ("habit_completion_rate,"
           +++ number_or_undefined (habits_overall_completion_rate h)
           +++ ",habits") in
      push rows
        ("most_consistent_habit,"
         +++ string_or_undefined (habits_most_consistent_habit h)
         +++ ",habits")
  | None => rows
  end.

Definition csv_study_rows (rows : list string) (report : Report) : list string :=
  match study (insights report) with
  | Some s =>
      let rows :=
        push rows
          ("study_completion_rate,"
           +++ number_or_undefined (study_completion_rate s) +++ ",study") in
      let rows :=
        push rows
          ("avg_study_duration," +++ Q_toString (study_avg_duration s)
           +++ ",study") in
      push rows
        ("best_study_hour," +++ hour_toString (study_best_study_hour s)
         +++ ",study")
  | None => rows
  end.

(** The array [rows] just before [rows.join]. *)
Definition csv_rows (report : Report) : list string :=
  let rows : list string := [] in
  let rows := push rows "metric,value,category"%string in
  let rows := csv_mood_rows rows report in
  let rows := csv_habit_rows rows report in
  let rows := csv_study_rows rows report in
  forEach_recommendation rows 0 (recommendations report).

(** [!outputPath]. *)
Definition falsy_path (outputPath : option string) : bool :=
  match outputPath with
  | None | Some EmptyString => true
  | Some _ => false
  end.

Definition default_path (today : string) (report : Report) (ext : string)
  : string :=
  "wellness_report_" +++ user_id report +++ "_" +++ today +++ ext.

(** [exportReportCSV]: the path written to and the text written.  A
    failure of [fs.writeFile] is the host's and is not modelled. *)
Definition exportReportCSV (today : string) (report : Report)
  (outputPath : option string) : string * string :=
  let outputPath :=
    if falsy_path outputPath then default_path today report ".csv"
    else string_or_undefined outputPath in
  let csvContent := String.concat newline (csv_rows report) in
  (outputPath, csvContent).

(** *** JSON export *)

(** JavaScript values, as far as a report contains them. *)
Inductive jsval : Type :=
| JUndefined
| JNull
| JBool (b : bool)
| JNumber (n : jsnum)
| JString (s : string)
| JArray (items : list jsval)
| JObject (props : list (string * jsval)).

(** A JSON text, up to white space: the tree its grammar denotes. *)
Inductive json : Type :=
| J_null
| J_bool (b : bool)
| J_number (q : Q)
| J_string (s : string)
| J_array (items : list json)
| J_object (members : list (string * json)).

(** [JSON.stringify]: [None] is [undefined].  A property whose value is
    [undefined] is left out, an array element that is [undefined] and a
    number that is not finite are written as [null], and the negative
    zero is written as [0]. *)
Fixpoint JSON_stringify (v : jsval) : option json :=
  match v with
  | JUndefined => None
  | JNull => Some J_null
  | JBool b => Some (J_bool b)
  | JNumber (Fin q) => Some (J_number q)
  | JNumber NegZero => Some (J_number 0)
  | JNumber _ => Some J_null
  | JString s => Some (J_string s)
  | JArray items =>
      Some (J_array
              (map (fun item =>
                      match JSON_stringify item with
                      | Some j => j
                      | None => J_null
                      end) items))
  | JObject props =>
      Some (J_object
              ((fix members (props : list (string * jsval)) :=
                  match props with
                  | [] => []
                  | (k, v') :: rest =>
                      match JSON_stringify v' with
                      | Some j => (k, j) :: members rest
                      | None => members rest
                      end
                  end) props))
  end.

(** [JSON.parse]: the members of an object are defined one after the
    other, a repeated key overwriting the earlier value. *)
Fixpoint JSON_parse (j : json) : jsval :=
  match j with
  | J_null => JNull
  | J_bool b => JBool b
  | J_number q => JNumber (Fin q)
  | J_string s => JString s
  | J_array items => JArray (map JSON_parse items)
  | J_object members =>
      JObject
        (define_all (map (fun kv => (fst kv, JSON_parse (snd kv))) members) [])
  end.

(** The report as the value [JSON.stringify] walks: each object literal
    with its properties in source order, each dictionary with its own. *)
Definition js_of_Q (q : Q) : jsval := JNumber (Fin q).
Definition js_of_Z (z : Z) : jsval := JNumber (Fin (inject_Z z)).

Definition js_of_obj {V} (f : V -> jsval) (o : obj V) : jsval :=
  JObject (map (fun kv => (fst kv, f (snd kv))) o).

Definition js_of_mood (m : MoodInsights) : jsval :=
  match m with
  | MoodBasic average trend volatility =>
      JObject [ ("average", js_of_Q average);
                ("trend", JString trend);
                ("volatility", js_of_Q volatility) ]%string
  | MoodFull average trend trend_slope volatility best worst patterns =>
      JObject [ ("average", js_of_Q average);
                ("trend", JString trend);
                ("trend_slope", JNumber trend_slope);
                ("volatility", js_of_Q volatility);
                ("best_weekday", JString best);
                ("worst_weekday", JString worst);
                ("weekday_patterns", js_of_obj js_of_Q patterns) ]%string
  end.

Definition js_of_habits (h : HabitInsights) : jsval :=
  match h with
  | HabitBasic completion_rate streaks patterns =>
      JObject [ ("completion_rate", js_of_Q completion_rate);
                ("streaks", js_of_obj js_of_Z streaks);
                ("patterns", js_of_obj js_of_Z patterns) ]%string
  | HabitFull overall rates streaks most_consistent needs =>
      JObject [ ("overall_completion_rate", js_of_Q overall);
                ("individual_completion_rates", js_of_obj js_of_Q rates);
                ("current_streaks", js_of_obj js_of_Z streaks);
                ("most_consistent_habit", JString most_consistent);
                ("needs_attention", JString needs) ]%string
  end.

Definition js_of_hour_bucket (b : HourBucket) : jsval :=
  JObject [ ("sessions", js_of_Z (hb_sessions b));
            ("completed", js_of_Z (hb_completed b));
            ("totalDuration", js_of_Z (hb_totalDuration b)) ]%string.

Definition js_of_subject_bucket (b : SubjectBucket) : jsval :=
  JObject [ ("sessions", js_of_Z (sb_sessions b));
            ("totalDuration", js_of_Z (sb_totalDuration b));
            ("completed", js_of_Z (sb_completed b)) ]%string.

Definition js_of_study (s : StudyInsights) : jsval :=
  match s with
  | StudyBasic total_sessions avg_duration efficiency =>
      JObject [ ("total_sessions", js_of_Z total_sessions);
                ("avg_duration", js_of_Q avg_duration);
                ("efficiency", js_of_Z efficiency) ]%string
  | StudyFull total_sessions total_minutes avg_duration completion_rate
              best_study_hour hourly subjects =>
      JObject [ ("total_sessions", js_of_Z total_sessions);
                ("total_minutes", js_of_Z total_minutes);
                ("avg_duration", js_of_Q avg_duration);
                ("completion_rate", js_of_Q completion_rate);
                ("best_study_hour",
                 match best_study_hour with
                 | Some h => JNumber h
                 | None => JNull
                 end);
                ("hourly_patterns", js_of_obj js_of_hour_bucket hourly);
                ("subject_performance",
                 js_of_obj js_of_subject_bucket subjects) ]%string
  end.

Definition js_of_option {A} (f : A -> jsval) (o : option A) : jsval :=
  match o with
  | Some a => f a
  | None => JNull
  end.

Definition js_of_insights (i : Insights) : jsval :=
  JObject [ ("mood", js_of_option js_of_mood (mood i));
            ("habits", js_of_option js_of_habits (habits i));
            ("study", js_of_option js_of_study (study i)) ]%string.

Definition js_of_report (r : Report) : jsval :=
  JObject
    [ ("user_id", JString (user_id r));
      ("analysis_period",
       JObject [ ("days", js_of_Z (days (analysis_period r)));
                 ("start_date", JString (start_date (analysis_period r)));
                 ("end_date", JString (end_date (analysis_period r))) ]);
      ("insights", js_of_insights (insights r));
      ("recommendations", JArray (map JString (recommendations r)));
      ("generated_at", JString (generated_at r));
      ("data_quality",
       JObject
         [ ("mood_entries", js_of_Z (mood_entries (data_quality r)));
           ("habit_entries", js_of_Z (habit_entries (data_quality r)));
           ("study_entries", js_of_Z (study_entries (data_quality r)));
           ("period_entries", js_of_Z (period_entries (data_quality r))) ])
    ]%string.

(** [exportReportJSON]: the path written to and the document written,
    [JSON.stringify(report, null, 2)]. *)
Definition exportReportJSON (today : string) (report : Report)
  (outputPath : option string) : string * option json :=
  let outputPath :=
    if falsy_path outputPath then default_path today report ".json"
    else string_or_undefined outputPath in
  (outputPath, JSON_stringify (js_of_report report)).


(** *** Fixtures and reference definitions used by the statements *)

(** Two sessions on 1970-01-01 at 00:01 and 00:02 UTC, the first one
    completed. *)
Definition midnight_sessions : list StudySession :=
  [ mkStudySession "Mathematics" 0 45 true 60000;
    mkStudySession "Mathematics" 0 30 false 120000 ].

(** The CSV row of the [number]-th recommendation, as the specification
    writes it. *)
Definition numbered_row (numbered : Z * string) : string :=
  "recommendation_" +++ Z_toString (fst numbered) +++ "," +++ dquote
  +++ snd numbered +++ dquote +++ ",recommendations".

(** The recommendations, numbered from [first] on. *)
Definition number_from (first : nat) (recs : list string) : list (Z * string) :=
  combine (map Z.of_nat (seq first (length recs))) recs.

(** Sums, as the formulas of the specification use them. *)
Definition sumZ (l : list Z) : Z := fold_right Z.add 0 l.
Definition sumQ (l : list Q) : Q := fold_right Qplus 0%Q l.

(** The mood levels of a series, in input order, and the 0-based
    positions [0, ..., n-1]. *)
Definition levels (moodData : list MoodEntry) : list Z :=
  map mood_level moodData.

Definition indices (n : nat) : list Z := map Z.of_nat (seq 0 n).

(** Arithmetic mean and population variance (the squared deviations are
    divided by [n]). *)
Definition mean (ys : list Z) : Q :=
  (inject_Z (sumZ ys) / inject_Z (Z.of_nat (length ys)))%Q.

Definition population_variance (ys : list Z) : Q :=
  (sumQ (map (fun y => (inject_Z y - mean ys) ^ 2) ys)
   / inject_Z (Z.of_nat (length ys)))%Q.

(** Least squares against the position: numerator
    [n * Sxy - Sx * Sy], denominator [n * Sxx - Sx^2]. *)
Definition ols_num (ys : list Z) : Z :=
  let xs := indices (length ys) in
  Z.of_nat (length ys) * sumZ (map (fun p => fst p * snd p) (combine xs ys))
  - sumZ xs * sumZ ys.

Definition ols_den (n : nat) : Z :=
  let xs := indices n in
  Z.of_nat n * sumZ (map (fun x => x * x) xs) - sumZ xs * sumZ xs.

Definition ols_slope (ys : list Z) : Q :=
  (inject_Z (ols_num ys) / inject_Z (ols_den (length ys)))%Q.

(** A mood series with one entry a day from the epoch on. *)
Definition daily_moods (ys : list Z) : list MoodEntry :=
  mapi (fun level day => mkMoodEntry (day * 86400000) level 50
                           "Feeling good today") ys.

(** Five days at mood level 1, then one day at level 2. *)
Definition late_rise : list MoodEntry := daily_moods [1; 1; 1; 1; 1; 2].

(** Date order on habit entries. *)
Definition date_le (a b : HabitEntry) : Prop := h_date a <= h_date b.

(** The entries of one habit, in input order, and in the order in which
    the streak loop walks them. *)
Definition entries_of (habitName : string) (habitData : list HabitEntry)
  : list HabitEntry :=
  filter (fun e => String.eqb (name e) habitName) habitData.

(** [k] is the length of the maximal trailing run of qualifying entries
    of [l]: the last [k] entries qualify, and the entry before them, if
    there is one, does not. *)
Definition is_trailing_run (l : list HabitEntry) (k : nat) : Prop :=
  (k <= length l)%nat
  /\ (forall i h, (length l - k <= i)%nat -> nth_error l i = Some h ->
                  qualifies h = true)
  /\ ((k < length l)%nat ->
      exists h, nth_error l (length l - k - 1) = Some h /\ qualifies h = false).

(** The quantity-weighted completion of a habit series, before
    rounding. *)
Definition overall_completion (habitData : list HabitEntry) : Q :=
  if 0 <? sumZ (map target habitData)
  then (inject_Z (sumZ (map completed habitData))
        / inject_Z (sumZ (map target habitData)))%Q
  else 0%Q.

(** No entry bears a name that an object literal inherits. *)
Definition plain_names (habitData : list HabitEntry) : Prop :=
  forall e, In e habitData -> inherited (name e) = false.

(** One hydration entry: one glass out of three. *)
Definition one_of_three : list HabitEntry := [mkHabitEntry "Hydration" 0 1 3].

(** Six daily entries of one habit, the third one missed. *)
Definition six_days (habitName : string) : list HabitEntry :=
  mapi (fun done day => mkHabitEntry habitName (day * 86400000) done 1)
       [1; 1; 0; 1; 1; 1].

(** The order of the own keys of an object: [k0] may precede [k] when
    both are array indices and [k0] is the smaller one, when [k0] is an
    array index and [k] is not, or when neither is an array index and
    the two differ. *)
Definition before_ok (k0 k : string) : Prop :=
  match array_index k0 with
  | Some n0 =>
      match array_index k with
      | Some n => (n0 < n)%N
      | None => True
      end
  | None => array_index k = None /\ k <> k0
  end.

(** A list of keys as [Object.keys] can return it. *)
Fixpoint wf_keys (ks : list string) : Prop :=
  match ks with
  | [] => True
  | k :: rest => Forall (before_ok k) rest /\ wf_keys rest
  end.

Definition before_okb (k0 k : string) : bool :=
  match array_index k0 with
  | Some n0 =>
      match array_index k with
      | Some n => (n0 <? n)%N
      | None => true
      end
  | None =>
      match array_index k with
      | Some _ => false
      | None => negb (String.eqb k k0)
      end
  end.

Fixpoint wf_keysb (ks : list string) : bool :=
  match ks with
  | [] => true
  | k :: rest => forallb (before_okb k) rest && wf_keysb rest
  end.

(** The values [JSON.stringify] writes without loss: no [undefined], no
    number that is not finite, and objects whose keys are in
    enumeration order. *)
Inductive json_safe : jsval -> Prop :=
| safe_null : json_safe JNull
| safe_bool (b : bool) : json_safe (JBool b)
| safe_number (q : Q) : json_safe (JNumber (Fin q))
| safe_string (s : string) : json_safe (JString s)
| safe_array (items : list jsval) :
    Forall json_safe items -> json_safe (JArray items)
| safe_object (props : list (string * jsval)) :
    wf_keys (map fst props) ->
    Forall (fun kv => json_safe (snd kv)) props ->
    json_safe (JObject props).

(** A host at UTC whose clock stands at the epoch. *)
Definition utc : Z -> Z := fun _ => 0.
Definition epoch_iso : Z -> string := fun _ => "1970-01-01T00:00:00.000Z"%string.
Definition epoch_clock : Clock := mkClock 0 0 0.

(** The data of a window that holds a single mood entry. *)
Definition single_day : UserData :=
  mkUserData [mkMoodEntry 0 3 50 "Feeling good today"] [] [] [].

(** The data of a three-day window. *)
Definition three_days : UserData :=
  mkUserData
    (daily_moods [2; 4; 3])
    (six_days "Hydration" ++ six_days "Rest")
    midnight_sessions
    [].

(** The dictionary of hour buckets holds no completed session. *)
Definition no_completed (o : obj HourBucket) : Prop :=
  forall k b, obj_get o k = Some b -> hb_completed b = 0.


(** What each section of the insights contributes to the recommendations. *)
Definition mood_rules (m : MoodInsights) : list string :=
  (if String.eqb (mood_trend m) "declining" then [rec_mood_declining] else [])
  ++ (if js_gt (Fin (mood_volatility m)) (Fin (15 # 10))
      then [rec_mood_volatile] else []).

Definition habit_rules (h : HabitInsights) : list string :=
  (if js_lt (num_of (habits_overall_completion_rate h)) (Fin (7 # 10))
   then [rec_habit_rate] else [])
  ++ (if truthy_string (habits_needs_attention h)
      then [rec_habit_attention (string_or_undefined (habits_needs_attention h))]
      else []).

Definition study_rules (s : StudyInsights) : list string :=
  if truthy_hour (study_best_study_hour s)
     && js_lt (num_of (study_completion_rate s)) (Fin (8 # 10))
  then [rec_study_hour (hour_toString (study_best_study_hour s))]
  else [].

Definition section_rules {A} (rules : A -> list string) (o : option A)
  : list string :=
  match o with
  | Some a => rules a
  | None => []
  end.


(** The point [calculateMoodInsights] makes of an entry. *)
Definition point_of (entry : MoodEntry) (index : Z) : Point :=
  {| x := index; y := mood_level entry |}.

(** The completion rate of one habit, as the per-habit loop computes it. *)
Definition rate_of (group : list HabitEntry) : Q :=
  let habits := sort_by_date group in
  round_to 1000
    (inject_Z (Z.of_nat (length (filter qualifies habits)))
     / inject_Z (Z.of_nat (length habits))).


(** A key that [parseInt] reads as a number. *)
Definition hour_key (k : string) : Prop := exists q, parseInt k = Fin q.

(** [bestHour] is [null] or a finite number. *)
Definition finite_hour (bestHour : option jsnum) : Prop :=
  bestHour = None \/ exists q, bestHour = Some (Fin q).


(** The value found in [v] by following a path of property names. *)
Fixpoint js_path (path : list string) (v : jsval) : option jsval :=
  match path with
  | [] => Some v
  | k :: rest =>
      match v with
      | JObject props =>
          match obj_get props k with
          | Some v' => js_path rest v'
          | None => None
          end
      | _ => None
      end
  end.

(** [rounded] is a multiple of [1 / scale] nearest to [exact]: when
    [exact] lies halfway between two of them, either one.  This is
    what the doubles of the code grant of
    [Math.round(exact * scale) / scale]. *)
Definition rounds_near (scale : Z) (exact rounded : Q) : Prop :=
  exists k : Z,
    (rounded == inject_Z k / inject_Z scale)%Q
    /\ (inject_Z k - (1 # 2) <= exact * inject_Z scale)%Q
    /\ (exact * inject_Z scale <= inject_Z k + (1 # 2))%Q.

(** The same for the square root of [radicand], the bounds being
    compared after squaring. *)
Definition sqrt_rounds_near (scale : Z) (radicand rounded : Q) : Prop :=
  exists j : Z,
    (rounded == inject_Z j / inject_Z scale)%Q
    /\ 0 <= j
    /\ (radicand * (inject_Z scale * inject_Z scale)
        <= (inject_Z j + (1 # 2)) ^ 2)%Q
    /\ (j = 0
        \/ ((inject_Z j - (1 # 2)) ^ 2
            <= radicand * (inject_Z scale * inject_Z scale))%Q).

(** The rational a double stands for, if it is finite. *)
Definition js_value (x : jsnum) : option Q :=
  match x with
  | Fin q => Some q
  | NegZero => Some 0%Q
  | NaN | PosInf | NegInf => None
  end.

(** The instants a [Date] can hold, in milliseconds since the epoch. *)
Definition valid_time (t : Z) : Prop :=
  - 8640000000000000 <= t <= 8640000000000000.

(** The three instants [createWellnessReport] prints are instants a
    [Date] can hold: only then does [toISOString] return. *)
Definition report_times_valid (clock : Clock) (days : Z) : Prop :=
  valid_time (at_start_date clock - days * 24 * 60 * 60 * 1000)
  /\ valid_time (at_end_date clock)
  /\ valid_time (at_generated clock).

(** Data as the application records them: no mood level, count of
    completions or duration is negative. *)
Definition natural_data (data : UserData) : Prop :=
  (forall e, In e (mood_data data) -> 0 <= mood_level e)
  /\ (forall e, In e (habit_data data) -> 0 <= completed e)
  /\ (forall s, In s (study_data data) -> 0 <= duration_minutes s).

(** [2^53]: up to this bound every integer is a double, and sums,
    differences and products of integers are exact in doubles when
    their result keeps to it. *)
Definition max_exact : Z := 9007199254740992.

(** Fifty days at level 3 but for one day at level 4, just before the
    middle: the least-squares slope is -1/20825. *)
Definition slow_decline : list MoodEntry :=
  daily_moods (repeat 3 24 ++ [4] ++ repeat 3 25).

(** A window that holds the series [slow_decline]. *)
Definition fifty_days : UserData := mkUserData slow_decline [] [] [].

(** Thirty-nine days at level 1, then one day at level 2: the mean is
    1.025, halfway between 1.02 and 1.03. *)
Definition steady_then_up : list MoodEntry :=
  daily_moods (repeat 1 39 ++ [2]).

(** 86 days at level 4, 136 days at level 3, 227 days at level 1: the
    least-squares slope is -7/800, halfway between -0.0088 and
    -0.0087. *)
Definition long_decline : list MoodEntry :=
  daily_moods (repeat 4 86 ++ repeat 3 136 ++ repeat 1 227).

(** One entry with 201 completions out of 400: the quotient is 0.5025,
    halfway between 0.502 and 0.503. *)
Definition bulk_habit : list HabitEntry := [mkHabitEntry "Hydration" 0 201 400].

(** *** Reference definitions for the properties beyond the specification *)

(** The four sums of [calculateTrend], over all points. *)
Definition Sx (data : list Point) : Z := sumZ (map x data).
Definition Sy (data : list Point) : Z := sumZ (map y data).
Definition Sxy (data : list Point) : Z := sumZ (map (fun p => x p * y p) data).
Definition Sxx (data : list Point) : Z := sumZ (map (fun p => x p * x p) data).

Definition trend_num (data : list Point) : Z :=
  Z.of_nat (length data) * Sxy data - Sx data * Sy data.

Definition trend_den (data : list Point) : Z :=
  Z.of_nat (length data) * Sxx data - Sx data * Sx data.

(** The sum of the absolute values of [f] over the points. *)
Definition Sabs (f : Point -> Z) (data : list Point) : Z :=
  sumZ (map (fun p => Z.abs (f p)) data).

(** The integers [calculateTrend] forms on [data] keep to [2^53]: its
    sums, the two products and the two differences are then exact in
    doubles. *)
Definition exact_trend (data : list Point) : Prop :=
  let n := Z.of_nat (length data) in
  n * Sabs (fun p => x p * y p) data + Sabs x data * Sabs y data <= max_exact
  /\ n * Sxx data <= max_exact
  /\ Sabs y data <= max_exact.

(** All points lie over one abscissa. *)
Definition same_x (data : list Point) : Prop :=
  forall p q, In p data -> In q data -> x p = x q.

(** The remaining property reads of a mood insight. *)
Definition mood_best_weekday (m : MoodInsights) : option string :=
  match m with
  | MoodBasic _ _ _ => None
  | MoodFull _ _ _ _ best _ _ => Some best
  end.

Definition mood_worst_weekday (m : MoodInsights) : option string :=
  match m with
  | MoodBasic _ _ _ => None
  | MoodFull _ _ _ _ _ worst _ => Some worst
  end.

Definition mood_weekday_patterns (m : MoodInsights) : option (obj Q) :=
  match m with
  | MoodBasic _ _ _ => None
  | MoodFull _ _ _ _ _ _ patterns => Some patterns
  end.

(** The weekday of an entry, and the mood levels recorded on a weekday,
    in input order. *)
Definition weekday_of (tz : Z -> Z) (e : MoodEntry) : string :=
  toLocaleDateString_weekday tz (m_date e).

Definition levels_on (tz : Z -> Z) (weekday : string)
  (moodData : list MoodEntry) : list Z :=
  map mood_level
    (filter (fun e => String.eqb (weekday_of tz e) weekday) moodData).

(** The two dictionaries [weekdayMoods] and [weekdayAverages] of
    [calculateMoodInsights]. *)
Definition weekdayMoods_of (tz : Z -> Z) (moodData : list MoodEntry)
  : obj (list Z) :=
  fold_left (push_weekday tz) moodData [].

Definition weekdayAverages_of (tz : Z -> Z) (moodData : list MoodEntry)
  : obj Q :=
  fold_left
    (fun weekdayAverages day =>
       match obj_get (weekdayMoods_of tz moodData) day with
       | Some moods => obj_set weekdayAverages day (mean_of moods)
       | None => weekdayAverages
       end)
    (Object_keys (weekdayMoods_of tz moodData)) [].

(** The callbacks of the two [reduce] calls over the keys of a
    dictionary of numbers. *)
Definition pick_greater (o : obj Q) (a b : string) : string :=
  if js_gt (num_of (obj_get o a)) (num_of (obj_get o b)) then a else b.

Definition pick_smaller (o : obj Q) (a b : string) : string :=
  if js_lt (num_of (obj_get o a)) (num_of (obj_get o b)) then a else b.

(** The remaining property read of a habit insight. *)
Definition habits_individual_completion_rates (h : HabitInsights)
  : option (obj Q) :=
  match h with
  | HabitBasic _ _ _ => None
  | HabitFull _ rates _ _ _ => Some rates
  end.

(** The message of the error the grouping loop throws. *)
Definition push_TypeError : string :=
  "TypeError: habitGroups[entry.name].push is not a function".

(** The number of entries of a list that meet their target. *)
Definition qualifying (l : list HabitEntry) : Z :=
  Z.of_nat (length (filter qualifies l)).

(** *** Study: the remaining property reads, and the sessions a bucket
    stands for *)



Definition study_hourly_patterns (s : StudyInsights) : option (obj HourBucket) :=
  match s with
  | StudyBasic _ _ _ => None
  | StudyFull _ _ _ _ _ hourly _ => Some hourly
  end.

Definition study_subject_performance (s : StudyInsights)
  : option (obj SubjectBucket) :=
  match s with
  | StudyBasic _ _ _ => None
  | StudyFull _ _ _ _ _ _ subjects => Some subjects
  end.

(** The sessions that started in the local hour [h], and those on a
    subject, in the order of the series. *)
Definition started_at (tz : Z -> Z) (h : Z) (studyData : list StudySession)
  : list StudySession :=
  filter (fun s => getHours tz (timestamp s) =? h) studyData.

Definition sessions_on (subj : string) (studyData : list StudySession)
  : list StudySession :=
  filter (fun s => String.eqb (subject s) subj) studyData.

Definition completed_count (l : list StudySession) : Z :=
  Z.of_nat (length (filter s_completed l)).

Definition minutes (l : list StudySession) : Z :=
  sumZ (map duration_minutes l).

Definition hour_bucket_of (l : list StudySession) : HourBucket :=
  mkHourBucket (Z.of_nat (length l)) (completed_count l) (minutes l).

Definition subject_bucket_of (l : list StudySession) : SubjectBucket :=
  mkSubjectBucket (Z.of_nat (length l)) (minutes l) (completed_count l).

(** The share of completed sessions of a list that is not empty. *)
Definition completion_of (l : list StudySession) : Q :=
  (inject_Z (completed_count l) / inject_Z (Z.of_nat (length l)))%Q.

(** What one session does to the bucket under its key, if there is one. *)
Definition hour_bump (b : option HourBucket) (s : StudySession)
  : option HourBucket :=
  let b0 := match b with Some b => b | None => mkHourBucket 0 0 0 end in
  Some (mkHourBucket
          (hb_sessions b0 + 1)
          (if s_completed s then hb_completed b0 + 1 else hb_completed b0)
          (hb_totalDuration b0 + duration_minutes s)).

Definition subject_bump (b : option SubjectBucket) (s : StudySession)
  : option SubjectBucket :=
  let b0 := match b with Some b => b | None => mkSubjectBucket 0 0 0 end in
  Some (mkSubjectBucket
          (sb_sessions b0 + 1)
          (sb_totalDuration b0 + duration_minutes s)
          (if s_completed s then sb_completed b0 + 1 else sb_completed b0)).

(** The rate the search for the best hour computes for a key. *)
Definition rate_at (hourlyData : obj HourBucket) (hour : string) : Q :=
  match obj_get hourlyData hour with
  | Some data => (inject_Z (hb_completed data) / inject_Z (hb_sessions data))%Q
  | None => 0%Q
  end.

(** Two sessions at nine, one of them completed, and one completed
    session at fourteen, on two subjects. *)
Definition three_sessions : list StudySession :=
  [ mkStudySession "Mathematics" 0 45 true (9 * 3600000);
    mkStudySession "Physics" 0 30 false (9 * 3600000 + 60000);
    mkStudySession "constructor" 0 60 true (14 * 3600000) ].

(** Series with a habit named like a member of [Object.prototype]. *)
Definition inherited_habit : UserData :=
  mkUserData [] [mkHabitEntry "Rest" 0 1 1; mkHabitEntry "constructor" 0 1 1]
             [] [].

(** Two habits, both always met. *)
Definition perfect_habits : UserData :=
  mkUserData []
    [mkHabitEntry "Rest" 0 1 1; mkHabitEntry "Movement" 0 1 1;
     mkHabitEntry "Rest" 86400000 1 1]
    [] [].

(** *** JSON: values with numbers that are not finite *)

(** What reading back makes of a written value: a number that is not
    finite has become [null], and the negative zero the positive one. *)
Fixpoint nulled (v : jsval) : jsval :=
  match v with
  | JNumber (Fin q) => JNumber (Fin q)
  | JNumber NegZero => JNumber (Fin 0)
  | JNumber _ => JNull
  | JArray items => JArray (map nulled items)
  | JObject props =>
      JObject
        ((fix members (props : list (string * jsval)) :=
            match props with
            | [] => []
            | (k, v') :: rest => (k, nulled v') :: members rest
            end) props)
  | other => other
  end.

(** The values [JSON.stringify] writes with their structure: no
    [undefined], and objects whose keys are in enumeration order. *)
Inductive json_writable : jsval -> Prop :=
| writable_null : json_writable JNull
| writable_bool (b : bool) : json_writable (JBool b)
| writable_number (n : jsnum) : json_writable (JNumber n)
| writable_string (s : string) : json_writable (JString s)
| writable_array (items : list jsval) :
    Forall json_writable items -> json_writable (JArray items)
| writable_object (props : list (string * jsval)) :
    wf_keys (map fst props) ->
    Forall (fun kv => json_writable (snd kv)) props ->
    json_writable (JObject props).

(** *** Mock data

    [loadUserData] fills the four series from [Math.random] and the
    calendar of the host.  The host enters through [getDate] and
    [setDate], the two methods of [Date] the code calls, taken on
    instants, and through [random], the value of the [k]-th call of
    [Math.random]; the number of calls made so far is part of the
    state.  A loop over the days is run with fuel. *)

Section HostMock.

Variable getDate : Z -> Z.
Variable setDate : Z -> Z -> Z.
Variable random : nat -> Q.

Definition Math_floor (q : Q) : Z := Qfloor q.

(** [arr[i]]: [undefined] outside the array. *)
Definition array_get {A} (arr : list A) (i : Z) : option A :=
  if i <? 0 then None else nth_error arr (Z.to_nat i).

(** [currentDate.setDate(currentDate.getDate() + 1)]. *)
Definition next_day (currentDate : Z) : Z :=
  setDate currentDate (getDate currentDate + 1).

(** [while (currentDate <= endDate) { body; next day }]; [None] when
    the fuel is used up. *)
Fixpoint while_days {St : Type} (fuel : nat) (body : Z -> St -> St)
  (endDate currentDate : Z) (st : St) : option St :=
  match fuel with
  | O => None
  | S fuel' =>
      if currentDate <=? endDate
      then while_days fuel' body endDate (next_day currentDate)
                      (body currentDate st)
      else Some st
  end.

Definition mock_mood_day (currentDate : Z) (st : list MoodEntry * nat)
  : list MoodEntry * nat :=
  let (moodData, calls) := st in
  (push moodData
     {| m_date := currentDate;
        mood_level := Math_floor (random calls * 5) + 1;
        energy_level := Math_floor (random (S calls) * 100) + 1;
        notes := "Feeling good today" |},
   S (S calls)).

Definition generateMockMoodData (fuel : nat) (startDate endDate : Z)
  (calls : nat) : option (list MoodEntry * nat) :=
  while_days fuel mock_mood_day endDate startDate ([], calls).

Definition mock_habits : list string :=
  ["Hydration"; "Mindfulness"; "Movement"; "Rest"]%string.

Definition mock_habit_entry (currentDate : Z) (st : list HabitEntry * nat)
  (habit : string) : list HabitEntry * nat :=
  let (habitData, calls) := st in
  (push habitData
     {| name := habit;
        h_date := currentDate;
        completed := if js_gt (Fin (random calls)) (Fin (3 # 10)) then 1 else 0;
        target := 1 |},
   S calls).

Definition mock_habit_day (currentDate : Z) (st : list HabitEntry * nat)
  : list HabitEntry * nat :=
  fold_left (mock_habit_entry currentDate) mock_habits st.

Definition generateMockHabitData (fuel : nat) (startDate endDate : Z)
  (calls : nat) : option (list HabitEntry * nat) :=
  while_days fuel mock_habit_day endDate startDate ([], calls).

Definition mock_subjects : list string :=
  ["Mathematics"; "Physics"; "Literature"]%string.

Definition mock_study_day (currentDate : Z) (st : list StudySession * nat)
  : list StudySession * nat :=
  let (studyData, calls) := st in
  if js_gt (Fin (random calls)) (Fin (4 # 10)) then
    let subject :=
      array_get mock_subjects
        (Math_floor (random (S calls)
                     * inject_Z (Z.of_nat (length mock_subjects)))) in
    (push studyData
       {| subject := string_or_undefined subject;
          s_date := currentDate;
          duration_minutes := Math_floor (random (S (S calls)) * 60) + 15;
          s_completed := js_gt (Fin (random (S (S (S calls))))) (Fin (2 # 10));
          timestamp := currentDate |},
     S (S (S (S calls))))
  else (studyData, S calls).

Definition generateMockStudyData (fuel : nat) (startDate endDate : Z)
  (calls : nat) : option (list StudySession * nat) :=
  while_days fuel mock_study_day endDate startDate ([], calls).

Definition generateMockPeriodData (startDate endDate : Z) : list unit := [].

(** [loadUserData]; [endNow] and [startNow] are the instants the two
    [new Date()] return. *)
Definition loadUserData (fuel : nat) (endNow startNow : Z) (userId : string)
  (days : Z) (calls : nat) : option (UserData * nat) :=
  let endDate := endNow in
  let startDate := setDate startNow (getDate endDate - days) in
  match generateMockMoodData fuel startDate endDate calls with
  | Some (mood, calls) =>
      match generateMockHabitData fuel startDate endDate calls with
      | Some (habits, calls) =>
          match generateMockStudyData fuel startDate endDate calls with
          | Some (study, calls) =>
              Some (mkUserData mood habits study
                               (generateMockPeriodData startDate endDate),
                    calls)
          | None => None
          end
      | None => None
      end
  | None => None
  end.

End HostMock.

(** [Math.random] returns a number of the interval from 0 to 1, 1
    excluded. *)
Definition unit_random (random : nat -> Q) : Prop :=
  forall k, (0 <= random k)%Q /\ (random k < 1)%Q.

(** The next day is later by [min_day] milliseconds at least. *)
Definition days_advance (getDate : Z -> Z) (setDate : Z -> Z -> Z)
  (min_day : Z) : Prop :=
  0 < min_day
  /\ forall t, t + min_day <= next_day getDate setDate t.

(** The fuel the loop over the days from [startDate] to [endDate]
    needs at most. *)
Definition enough_fuel (min_day startDate endDate : Z) (fuel : nat) : Prop :=
  (Z.to_nat ((endDate - startDate) / min_day + 1) < fuel)%nat.

(** A calendar of one endless month at UTC, and a generator stuck at
    one half. *)
Definition plain_getDate (t : Z) : Z := t / 86400000.
Definition plain_setDate (t d : Z) : Z := d * 86400000 + t mod 86400000.
Definition half_random : nat -> Q := fun _ => 1 # 2.

(** ** Part II: properties *)

(** *** Results *)

Lemma Ok_inj {A} (a b : A) : Ok a = Ok b -> a = b.
Proof.
  intros H.
  exact (f_equal (fun r => match r with Ok c => c | Throw _ => a end) H).
Qed.

(** *** Dictionaries *)

Section ObjFacts.

Context {V : Type}.

Lemma obj_get_replace (o : obj V) k v k' :
  obj_get (obj_replace o k v) k' =
  if String.eqb k' k
  then match obj_get o k with Some _ => Some v | None => None end
  else obj_get o k'.
Proof.
  induction o as [|[k0 v0] o IH]; simpl.
  - now destruct (String.eqb k' k).
  - destruct (String.eqb_spec k k0) as [Hk|Hk]; simpl.
    + subst k0. destruct (String.eqb_spec k' k); reflexivity.
    + rewrite IH.
      destruct (String.eqb_spec k' k0) as [Hk'|Hk']; [|reflexivity].
      subst k0. destruct (String.eqb_spec k' k); [congruence|reflexivity].
Qed.

Lemma obj_get_insert_index (o : obj V) n k v k' :
  obj_get o k = None ->
  obj_get (insert_index n k v o) k' =
  if String.eqb k' k then Some v else obj_get o k'.
Proof.
  induction o as [|[k0 v0] o IH]; simpl; intros Hnone.
  - reflexivity.
  - destruct (String.eqb_spec k k0) as [Hk|Hk]; [discriminate|].
    destruct (array_index k0) as [n0|]; [destruct (n <? n0)%N|]; simpl;
      try reflexivity.
    rewrite (IH Hnone).
    destruct (String.eqb_spec k' k0) as [Hk'|Hk']; [|reflexivity].
    subst k0. destruct (String.eqb_spec k' k); [congruence|reflexivity].
Qed.

Lemma obj_get_app (o1 o2 : obj V) k :
  obj_get (o1 ++ o2) k =
  match obj_get o1 k with Some v => Some v | None => obj_get o2 k end.
Proof.
  induction o1 as [|[k0 v0] o1 IH]; simpl; [reflexivity|].
  now destruct (String.eqb k k0).
Qed.

(** Reading after writing. *)
Lemma obj_get_set (o : obj V) k v k' :
  obj_get (obj_set o k v) k' =
  if String.eqb k' k then Some v else obj_get o k'.
Proof.
  unfold obj_set.
  destruct (obj_get o k) eqn:Hget.
  - rewrite obj_get_replace, Hget. reflexivity.
  - destruct (array_index k).
    + now apply obj_get_insert_index.
    + rewrite obj_get_app. simpl.
      destruct (String.eqb_spec k' k) as [Hk|Hk].
      * subst k'. now rewrite Hget.
      * now destruct (obj_get o k').
Qed.

Lemma obj_get_set_same (o : obj V) k v : obj_get (obj_set o k v) k = Some v.
Proof. rewrite obj_get_set. now rewrite String.eqb_refl. Qed.

Lemma obj_get_set_other (o : obj V) k v k' :
  k' <> k -> obj_get (obj_set o k v) k' = obj_get o k'.
Proof.
  intros Hk. rewrite obj_get_set.
  destruct (String.eqb_spec k' k); [contradiction|reflexivity].
Qed.

Lemma obj_get_In_keys (o : obj V) k :
  In k (Object_keys o) <-> exists v, obj_get o k = Some v.
Proof.
  unfold Object_keys.
  induction o as [|[k0 v0] o IH]; simpl.
  - split; [tauto|]. intros [v Hv]. discriminate.
  - destruct (String.eqb_spec k k0) as [Hk|Hk].
    + subst k0. split; [eauto|auto].
    + rewrite <- IH. split; [|auto]. intros [H|H]; [congruence|exact H].
Qed.

Lemma obj_get_None_keys (o : obj V) k :
  obj_get o k = None <-> ~ In k (Object_keys o).
Proof.
  rewrite obj_get_In_keys.
  destruct (obj_get o k) as [v|]; split; intros H.
  - discriminate.
  - exfalso. apply H. eauto.
  - intros [v Hv]. discriminate.
  - reflexivity.
Qed.

Lemma obj_set_nonempty (o : obj V) k v : obj_set o k v <> [].
Proof.
  intros H. pose proof (obj_get_set_same o k v) as Hg.
  rewrite H in Hg. discriminate.
Qed.

End ObjFacts.

(** *** The order of keys *)

Lemma array_index_toString k n : array_index k = Some n -> N_toString n = k.
Proof.
  unfold array_index. destruct (NilZero.uint_of_string k) as [d|]; [|discriminate].
  cbv zeta.
  destruct (String.eqb_spec (N_toString (N.of_uint d)) k) as [Heq|]; [|discriminate].
  destruct (N.of_uint d <? 4294967295)%N; [|discriminate].
  now intros [= <-].
Qed.

Lemma array_index_inj k k' n :
  array_index k = Some n -> array_index k' = Some n -> k = k'.
Proof.
  intros H H'. apply array_index_toString in H, H'. congruence.
Qed.

Lemma before_okb_sound k0 k : before_okb k0 k = true -> before_ok k0 k.
Proof.
  unfold before_okb, before_ok.
  destruct (array_index k0) as [n0|], (array_index k) as [n|]; intros H;
    try discriminate; auto.
  - now apply N.ltb_lt.
  - split; [reflexivity|]. intros ->. rewrite String.eqb_refl in H. discriminate.
Qed.

Lemma wf_keysb_sound ks : wf_keysb ks = true -> wf_keys ks.
Proof.
  induction ks as [|k rest IH]; cbn [wf_keysb wf_keys]; [auto|].
  intros H. apply andb_true_iff in H as [Hhead Hrest].
  split; [|now apply IH].
  apply Forall_forall. intros k' Hk'. apply before_okb_sound.
  rewrite forallb_forall in Hhead. now apply Hhead.
Qed.

Lemma before_ok_neq k0 k : before_ok k0 k -> k <> k0.
Proof.
  unfold before_ok. intros H ->.
  destruct (array_index k0) as [n0|]; [lia|]. now destruct H.
Qed.

Lemma wf_keys_app_inv l1 : forall k l2,
  wf_keys (l1 ++ k :: l2) -> Forall (fun k0 => before_ok k0 k) l1.
Proof.
  induction l1 as [|k1 l1 IH]; intros k l2 Hwf; [constructor|].
  cbn [app wf_keys] in Hwf. destruct Hwf as [Hhead Hrest].
  constructor; [|now apply (IH k l2)].
  rewrite Forall_forall in Hhead. apply Hhead.
  apply in_or_app. right. now left.
Qed.

Lemma wf_keys_snoc ks k :
  wf_keys ks -> Forall (fun k0 => before_ok k0 k) ks -> wf_keys (ks ++ [k]).
Proof.
  induction ks as [|k0 ks IH]; cbn [app wf_keys]; intros Hwf Hall.
  - split; [constructor|exact I].
  - destruct Hwf as [Hhead Hrest]. inversion Hall as [|? ? Hk0 Hks]; subst.
    split; [|now apply IH].
    apply Forall_app. split; [exact Hhead|]. now constructor.
Qed.

Section KeyOrder.

Context {V : Type}.

Lemma keys_replace (o : obj V) k v :
  Object_keys (obj_replace o k v) = Object_keys o.
Proof.
  unfold Object_keys. induction o as [|[k0 v0] o IH]; cbn [obj_replace map];
    [reflexivity|].
  destruct (String.eqb k k0); cbn [map fst]; [reflexivity|].
  now rewrite IH.
Qed.

Lemma keys_insert_index (o : obj V) n k v k' :
  In k' (Object_keys (insert_index n k v o)) <-> k' = k \/ In k' (Object_keys o).
Proof.
  unfold Object_keys. induction o as [|[k0 v0] o IH]; cbn [insert_index map fst].
  - cbn [In]. intuition.
  - destruct (array_index k0) as [n0|]; [destruct (n <? n0)%N|];
      cbn [map fst In]; rewrite ?IH; intuition congruence.
Qed.

Lemma wf_insert_index (o : obj V) n k v :
  array_index k = Some n ->
  ~ In k (Object_keys o) ->
  wf_keys (Object_keys o) ->
  wf_keys (Object_keys (insert_index n k v o)).
Proof.
  intros Hk. unfold Object_keys.
  induction o as [|[k0 v0] o IH]; cbn [insert_index map fst]; intros Hnot Hwf.
  - cbn. split; [constructor|exact I].
  - cbn [wf_keys] in Hwf. destruct Hwf as [Hhead Hrest].
    assert (Hneq : k <> k0) by (intros ->; apply Hnot; now left).
    assert (Hnot' : ~ In k (map fst o)) by (intros H; apply Hnot; now right).
    destruct (array_index k0) as [n0|] eqn:Hk0.
    + destruct (N.ltb_spec n n0) as [Hlt|Hge].
      * cbn [map fst wf_keys]. split; [|split; assumption].
        constructor.
        -- unfold before_ok. rewrite Hk, Hk0. exact Hlt.
        -- rewrite Forall_forall in Hhead |- *. intros k' Hk'.
           specialize (Hhead k' Hk'). unfold before_ok in Hhead |- *.
           rewrite Hk. rewrite Hk0 in Hhead.
           destruct (array_index k'); [lia|exact I].
      * cbn [map fst wf_keys]. split; [|now apply IH].
        apply Forall_forall. intros k' Hk'.
        destruct (proj1 (keys_insert_index o n k v k') Hk') as [->|Hk''].
        -- unfold before_ok. rewrite Hk0, Hk.
           assert (n0 <> n).
           { intros ->. apply Hneq. now apply (array_index_inj k k0 n). }
           lia.
        -- rewrite Forall_forall in Hhead. now apply Hhead.
    + cbn [map fst wf_keys]. split; [|split; assumption].
      constructor.
      * unfold before_ok. now rewrite Hk, Hk0.
      * rewrite Forall_forall in Hhead |- *. intros k' Hk'.
        pose proof (Hhead k' Hk') as Hb. unfold before_ok in Hb.
        rewrite Hk0 in Hb. destruct Hb as [Hplain _]. unfold before_ok.
        now rewrite Hk, Hplain.
Qed.

(** Writing a property keeps the keys in enumeration order. *)
Lemma wf_obj_set (o : obj V) k v :
  wf_keys (Object_keys o) -> wf_keys (Object_keys (obj_set o k v)).
Proof.
  intros Hwf. unfold obj_set.
  destruct (obj_get o k) as [v0|] eqn:Hget.
  - now rewrite keys_replace.
  - apply obj_get_None_keys in Hget.
    destruct (array_index k) as [n|] eqn:Hk.
    + now apply wf_insert_index.
    + unfold Object_keys. rewrite map_app. cbn [map fst].
      apply wf_keys_snoc; [exact Hwf|].
      apply Forall_forall. intros k0 Hk0. unfold before_ok.
      destruct (array_index k0); [now rewrite Hk|].
      split; [exact Hk|]. intros ->. contradiction.
Qed.

Lemma insert_index_end (o : obj V) n k v :
  Forall (fun k0 => exists n0, array_index k0 = Some n0 /\ (n0 < n)%N)
         (Object_keys o) ->
  insert_index n k v o = o ++ [(k, v)].
Proof.
  unfold Object_keys.
  induction o as [|[k0 v0] o IH]; cbn [insert_index map fst app]; intros Hall;
    [reflexivity|].
  inversion Hall as [|? ? (n0 & Hk0 & Hlt) Hrest]; subst.
  rewrite Hk0. destruct (N.ltb_spec n n0); [lia|].
  now rewrite IH.
Qed.

(** Defining the properties of an object again, in enumeration order,
    builds the same object. *)
Lemma define_all_wf (o : obj V) : forall acc,
  wf_keys (Object_keys (acc ++ o)) -> define_all o acc = acc ++ o.
Proof.
  unfold define_all.
  induction o as [|[k v] o IH]; intros acc Hwf; cbn [fold_left fst snd].
  - now rewrite app_nil_r.
  - assert (Hbefore : Forall (fun k0 => before_ok k0 k) (Object_keys acc)).
    { unfold Object_keys in *. rewrite map_app in Hwf. cbn [map fst] in Hwf.
      now apply (wf_keys_app_inv _ k (map fst o)). }
    assert (Hset : obj_set acc k v = acc ++ [(k, v)]).
    { unfold obj_set.
      assert (Hget : obj_get acc k = None).
      { apply obj_get_None_keys. intros Hin.
        rewrite Forall_forall in Hbefore.
        now apply (before_ok_neq k k (Hbefore k Hin)). }
      rewrite Hget. destruct (array_index k) as [n|] eqn:Hk; [|reflexivity].
      apply insert_index_end. apply Forall_forall. intros k0 Hk0.
      rewrite Forall_forall in Hbefore. specialize (Hbefore k0 Hk0).
      unfold before_ok in Hbefore. rewrite Hk in Hbefore.
      destruct (array_index k0) as [n0|]; [eauto|].
      destruct Hbefore; discriminate. }
    rewrite Hset, IH; rewrite <- app_assoc; [reflexivity|exact Hwf].
Qed.

Lemma define_all_canonical (o : obj V) :
  wf_keys (Object_keys o) -> define_all o [] = o.
Proof. intros Hwf. now apply (define_all_wf o []). Qed.

End KeyOrder.

(** A dictionary derived key by key from another one has its keys in
    enumeration order. *)
Lemma fold_derived_wf {A B} (src : obj A) (f : A -> B) keys : forall acc,
  wf_keys (Object_keys acc) ->
  wf_keys
    (Object_keys
       (fold_left
          (fun acc k =>
             match obj_get src k with
             | Some a => obj_set acc k (f a)
             | None => acc
             end) keys acc)).
Proof.
  induction keys as [|k keys IH]; intros acc Hwf; cbn [fold_left]; [exact Hwf|].
  apply IH. destruct (obj_get src k); [now apply wf_obj_set|exact Hwf].
Qed.

Lemma keys_obj_set {V} (o : obj V) k v k' :
  In k' (Object_keys (obj_set o k v)) <-> k' = k \/ In k' (Object_keys o).
Proof.
  rewrite !obj_get_In_keys. setoid_rewrite obj_get_set.
  destruct (String.eqb_spec k' k) as [->|Hneq].
  - split; [auto|]. intros _. eauto.
  - split; [auto|]. intros [H|H]; [contradiction|exact H].
Qed.

(** *** Empty series *)

(** C1, as the code has it.  Each calculator answers an empty series
    with its neutral object: the mood calculator with average 0 and
    trend ["no_data"], the habit analyzer with completion rate 0 and
    two empty dictionaries, the study analyzer with a zeroed summary
    that has no [best_study_hour] (nor [completion_rate]) at all, so
    that reading it gives [undefined]; the report on three empty
    series is built when the instants it prints are instants a [Date]
    can hold; and such a report carries these three objects and an
    empty list of recommendations. *)
Theorem empty_series_neutral_results
  (tz : Z -> Z) (toISOString : Z -> string) (clock : Clock)
  (userId : string) (days : Z) (periods : list unit) :
  calculateMoodInsights tz [] = Ok (MoodBasic 0 "no_data" 0)
  /\ analyzeHabitPatterns [] = Ok (HabitBasic 0 [] [])
  /\ analyzeStudyPerformance tz [] = StudyBasic 0 0 0
  /\ study_best_study_hour (analyzeStudyPerformance tz []) = HourUndefined
  /\ study_completion_rate (analyzeStudyPerformance tz []) = None
  /\ (report_times_valid clock days ->
      exists report,
        createWellnessReport tz toISOString clock userId days
          (mkUserData [] [] [] periods) = Ok report)
  /\ (forall report,
        createWellnessReport tz toISOString clock userId days
          (mkUserData [] [] [] periods) = Ok report ->
        insights report =
          mkInsights (Some (MoodBasic 0 "no_data" 0))
                     (Some (HabitBasic 0 [] []))
                     (Some (StudyBasic 0 0 0))
        /\ recommendations report = []).
Proof.
  do 5 (split; [reflexivity|]). split.
  - intros _. eexists. reflexivity.
  - intros report Hreport. apply Ok_inj in Hreport. subst report.
    split; reflexivity.
Qed.

(** The instance of C1 at a report of thirty days made at the epoch. *)
Lemma empty_series_neutral_results_witness :
  exists report,
    createWellnessReport utc epoch_iso epoch_clock "test_user_1" 30
      (mkUserData [] [] [] []) = Ok report
    /\ recommendations report = [].
Proof.
  destruct (empty_series_neutral_results utc epoch_iso epoch_clock
              "test_user_1" 30 [])
    as (_ & _ & _ & _ & _ & Hbuilt & Hshape).
  destruct Hbuilt as [report Hreport].
  - unfold report_times_valid, valid_time. cbn. lia.
  - exists report. split; [exact Hreport|].
    exact (proj2 (Hshape report Hreport)).
Defined.

(** C1 as stated fails: the summary of an empty study series has no
    [best_study_hour], so that reading it gives [undefined], not
    [null]; [null] is what a series without a completed session
    gives. *)
Lemma empty_study_best_hour_not_null :
  study_best_study_hour (analyzeStudyPerformance utc []) = HourUndefined
  /\ study_best_study_hour (analyzeStudyPerformance utc []) <> HourNull
  /\ hour_toString (study_best_study_hour (analyzeStudyPerformance utc []))
     = "undefined"%string.
Proof. split; [reflexivity|]. split; [discriminate|reflexivity]. Qed.

(** *** Best study hour *)

Lemma push_hour_no_completed tz o s :
  s_completed s = false -> no_completed o -> no_completed (push_hour tz o s).
Proof.
  intros Hs Hinv k b. unfold push_hour. cbv zeta.
  set (hour := Z_toString (getHours tz (timestamp s))).
  destruct (obj_get o hour) as [b0|] eqn:Hget.
  - rewrite Hget, obj_get_set, Hs.
    destruct (String.eqb k hour).
    + intros [= <-]. simpl. eapply Hinv; eassumption.
    + apply Hinv.
  - rewrite obj_get_set_same, !obj_get_set, Hs.
    destruct (String.eqb k hour).
    + now intros [= <-].
    + apply Hinv.
Qed.

Lemma fold_push_hour_no_completed tz l : forall o,
  (forall s, In s l -> s_completed s = false) ->
  no_completed o -> no_completed (fold_left (push_hour tz) l o).
Proof.
  induction l as [|s l IH]; simpl; intros o Hall Hinv; [exact Hinv|].
  apply IH; [auto|]. apply push_hour_no_completed; auto.
Qed.

Lemma fold_push_hour_nonempty tz l o :
  l <> [] -> fold_left (push_hour tz) l o <> [].
Proof.
  destruct l as [|s l] using rev_ind; [congruence|intros _].
  rewrite fold_left_app. simpl. unfold push_hour at 1. cbv zeta.
  set (o' := fold_left (push_hour tz) l o).
  set (hour := Z_toString (getHours tz (timestamp s))).
  destruct (obj_get o' hour) as [b0|] eqn:Hget.
  - rewrite Hget. apply obj_set_nonempty.
  - rewrite obj_get_set_same. apply obj_set_nonempty.
Qed.

Lemma best_hour_step_no_completed o hour :
  no_completed o -> best_hour_step o (None, 0%Q) hour = (None, 0%Q).
Proof.
  intros Hinv. unfold best_hour_step.
  destruct (obj_get o hour) as [b|] eqn:Hget; [|reflexivity].
  rewrite (Hinv _ _ Hget).
  assert (Hle : Qle_bool (inject_Z 0 / inject_Z (hb_sessions b)) 0 = true).
  { apply Qle_bool_iff. unfold Qdiv. rewrite Qmult_0_l. apply Qle_refl. }
  now rewrite Hle.
Qed.

Lemma fold_best_hour_no_completed o keys :
  no_completed o ->
  fold_left (best_hour_step o) keys (None, 0%Q) = (None, 0%Q).
Proof.
  intros Hinv. induction keys as [|k keys IH]; cbn [fold_left]; [reflexivity|].
  now rewrite best_hour_step_no_completed.
Qed.

(** C10.  A study series that is not empty and in which no session was
    completed yields [best_study_hour = null], although the hour
    analysis did fill [hourly_patterns]; and there is such a series, so
    that a null [best_study_hour] does not tell that the series was
    empty. *)
Theorem no_completed_session_null_best_hour :
  (forall (tz : Z -> Z) (studyData : list StudySession),
      studyData <> [] ->
      (forall s, In s studyData -> s_completed s = false) ->
      exists total minutes avg rate hourly subjects,
        analyzeStudyPerformance tz studyData =
          StudyFull total minutes avg rate None hourly subjects
        /\ hourly <> []
        /\ study_best_study_hour (analyzeStudyPerformance tz studyData)
           = HourNull)
  /\ (exists (tz : Z -> Z) (studyData : list StudySession),
        studyData <> []
        /\ study_best_study_hour (analyzeStudyPerformance tz studyData)
           = HourNull).
Proof.
  assert (Hall : forall (tz : Z -> Z) (studyData : list StudySession),
      studyData <> [] ->
      (forall s, In s studyData -> s_completed s = false) ->
      exists total minutes avg rate hourly subjects,
        analyzeStudyPerformance tz studyData =
          StudyFull total minutes avg rate None hourly subjects
        /\ hourly <> []
        /\ study_best_study_hour (analyzeStudyPerformance tz studyData)
           = HourNull).
  { intros tz studyData Hne Hnone.
    unfold analyzeStudyPerformance.
    destruct studyData as [|s0 rest] eqn:Hdata; [congruence|].
    rewrite <- Hdata in *.
    replace (length studyData =? 0)%nat with false
      by (subst studyData; reflexivity).
    rewrite fold_best_hour_no_completed
      by (apply fold_push_hour_no_completed; [exact Hnone|intros k b; discriminate]).
    do 6 eexists. split; [reflexivity|]. split; [|reflexivity].
    apply fold_push_hour_nonempty. exact Hne. }
  split; [exact Hall|].
  exists (fun _ => 0), [mkStudySession "Mathematics" 0 45 false 0].
  split; [discriminate|reflexivity].
Qed.

(** The instance of C10 at one unfinished mathematics session. *)
Lemma no_completed_session_null_best_hour_witness :
  exists total minutes avg rate hourly subjects,
    analyzeStudyPerformance (fun _ => 0)
      [mkStudySession "Mathematics" 0 45 false 0] =
      StudyFull total minutes avg rate None hourly subjects
    /\ hourly <> []
    /\ study_best_study_hour
         (analyzeStudyPerformance (fun _ => 0)
            [mkStudySession "Mathematics" 0 45 false 0])
       = HourNull.
Proof.
  apply (proj1 no_completed_session_null_best_hour (fun _ => 0)
           [mkStudySession "Mathematics" 0 45 false 0]).
  - discriminate.
  - intros s [<-|[]]. reflexivity.
Defined.

(** *** Recommendations *)

(** The rules fire independently and in the order of the source; a
    section that is [null] contributes nothing. *)
Lemma generateRecommendations_rules (i : Insights) :
  generateRecommendations i =
  section_rules mood_rules (mood i)
  ++ section_rules habit_rules (habits i)
  ++ section_rules study_rules (study i).
Proof.
  unfold generateRecommendations, section_rules, mood_rules, habit_rules,
    study_rules, push.
  destruct (mood i) as [m|], (habits i) as [h|], (study i) as [s|]; simpl;
    repeat match goal with
           | |- context [if ?c then _ else _] => destruct c
           end; simpl; rewrite <- ?app_assoc; reflexivity.
Qed.

(** C5.  The study rule tests [best_study_hour] for truthiness, and the
    hour 0 is falsy: for two sessions held between 00:00 and 01:00, one
    of them completed, the analyzer sets [best_study_hour] to 0 and
    the completion rate to 0.5, below 0.8, and no scheduling
    suggestion is emitted. *)
Theorem midnight_best_hour_not_recommended :
  let s := analyzeStudyPerformance (fun _ => 0) midnight_sessions in
  study_best_study_hour s = HourNumber (Fin (inject_Z 0))
  /\ (exists rate, study_completion_rate s = Some rate /\ (rate == 1 # 2)%Q)
  /\ js_lt (num_of (study_completion_rate s)) (Fin (8 # 10)) = true
  /\ generateRecommendations (mkInsights None None (Some s)) = [].
Proof.
  cbv zeta. split; [reflexivity|]. split.
  - eexists. split; [reflexivity|]. reflexivity.
  - split; reflexivity.
Qed.

(** *** CSV export *)

Lemma forEach_recommendation_numbered recs : forall rows k,
  forEach_recommendation rows (Z.of_nat k) recs =
  rows ++ map numbered_row (number_from (S k) recs).
Proof.
  induction recs as [|r recs IH]; intros rows k.
  - simpl. now rewrite app_nil_r.
  - cbn [forEach_recommendation].
    replace (Z.of_nat k + 1) with (Z.of_nat (S k)) by lia.
    rewrite IH. unfold push. rewrite <- app_assoc. f_equal.
    unfold number_from. cbn [length seq map combine]. f_equal.
    unfold numbered_row, csv_recommendation_row. cbn [fst snd].
    now replace (Z.of_nat k + 1) with (Z.of_nat (S k)) by lia.
Qed.

Lemma csv_mood_rows_app rows report :
  csv_mood_rows rows report = rows ++ csv_mood_rows [] report.
Proof.
  unfold csv_mood_rows, push. destruct (mood (insights report)).
  - now rewrite <- !app_assoc.
  - now rewrite app_nil_r.
Qed.

Lemma csv_habit_rows_app rows report :
  csv_habit_rows rows report = rows ++ csv_habit_rows [] report.
Proof.
  unfold csv_habit_rows, push. destruct (habits (insights report)).
  - now rewrite <- !app_assoc.
  - now rewrite app_nil_r.
Qed.

Lemma csv_study_rows_app rows report :
  csv_study_rows rows report = rows ++ csv_study_rows [] report.
Proof.
  unfold csv_study_rows, push. destruct (study (insights report)).
  - now rewrite <- !app_assoc.
  - now rewrite app_nil_r.
Qed.

(** C7.  The rows of the CSV export are the header, the metric rows,
    which do not depend on the recommendations, and then one row per
    recommendation, numbered from 1 in list order, of category
    [recommendations], with the text between double quotes; the rows
    are joined by line feeds; and a report whose only recommendation is
    [Drink more water] has, as its last row,
    [recommendation_1,"Drink more water",recommendations]. *)
Theorem csv_recommendation_rows (today : string) (report : Report)
  (outputPath : option string) :
  let metric_rows :=
    csv_mood_rows [] report ++ csv_habit_rows [] report
    ++ csv_study_rows [] report in
  let row :=
    ("recommendation_1," +++ dquote +++ "Drink more water" +++ dquote
     +++ ",recommendations")%string in
  csv_rows report =
    ("metric,value,category"%string :: metric_rows)
    ++ map numbered_row (number_from 1 (recommendations report))
  /\ snd (exportReportCSV today report outputPath) =
       String.concat newline (csv_rows report)
  /\ (recommendations report = ["Drink more water"%string] ->
      csv_rows report = ("metric,value,category"%string :: metric_rows) ++ [row]
      /\ In row (csv_rows report)).
Proof.
  cbv zeta.
  assert (Hrows : csv_rows report =
    ("metric,value,category"%string ::
       csv_mood_rows [] report ++ csv_habit_rows [] report
       ++ csv_study_rows [] report)
    ++ map numbered_row (number_from 1 (recommendations report))).
  { unfold csv_rows.
    rewrite (forEach_recommendation_numbered (recommendations report) _ 0).
    f_equal.
    rewrite csv_study_rows_app, csv_habit_rows_app, csv_mood_rows_app.
    unfold push. simpl. now rewrite <- !app_assoc. }
  split; [exact Hrows|]. split; [reflexivity|].
  intros Hrec. rewrite Hrows, Hrec. split; [reflexivity|].
  apply in_or_app. right. left. reflexivity.
Qed.

(** The instance of C7 at a report without insight sections. *)
Lemma csv_recommendation_rows_witness :
  csv_rows
    (mkReport "u1" (mkAnalysisPeriod 30 "2026-01-01" "2026-01-31")
       (mkInsights None None None) ["Drink more water"%string]
       "2026-01-31T00:00:00.000Z" (mkDataQuality 0 0 0 0))
  = [ "metric,value,category"%string;
      ("recommendation_1," +++ dquote +++ "Drink more water" +++ dquote
       +++ ",recommendations")%string ].
Proof.
  pose proof (csv_recommendation_rows "2026-01-31"
    (mkReport "u1" (mkAnalysisPeriod 30 "2026-01-01" "2026-01-31")
       (mkInsights None None None) ["Drink more water"%string]
       "2026-01-31T00:00:00.000Z" (mkDataQuality 0 0 0 0)) None) as H.
  cbv zeta in H. destruct H as (_ & _ & H).
  destruct (H eq_refl) as [Hrows _]. exact Hrows.
Defined.

(** *** Sums *)

Lemma fold_left_Zplus {A} (g : A -> Z) (l : list A) : forall a,
  fold_left (fun sum e => sum + g e) l a = a + sumZ (map g l).
Proof.
  induction l as [|e l IH]; intros a; simpl; [lia|].
  rewrite IH. lia.
Qed.

Lemma fold_left_Qplus {A} (g : A -> Q) (l : list A) : forall a,
  (fold_left (fun sum e => sum + g e) l a == a + sumQ (map g l))%Q.
Proof.
  induction l as [|e l IH]; intros a; simpl; [ring|].
  rewrite IH. ring.
Qed.

Lemma sumZ_app l1 l2 : sumZ (l1 ++ l2) = sumZ l1 + sumZ l2.
Proof. induction l1; simpl; lia. Qed.

Lemma sumZ_Permutation l l' : Permutation l l' -> sumZ l = sumZ l'.
Proof. induction 1; simpl; lia. Qed.

(** *** The regression sums of [calculateTrend] *)

Section TrendSums.

Lemma sum_x_points (l : list MoodEntry) : forall k i a,
  i = Z.of_nat k ->
  fold_left (fun sum point => sum + x point) (mapi_from point_of i l) a
  = a + sumZ (map Z.of_nat (seq k (length l))).
Proof.
  induction l as [|e l IH]; intros k i a ->; simpl; [lia|].
  rewrite (IH (S k)) by lia. lia.
Qed.

Lemma sum_y_points (l : list MoodEntry) : forall i a,
  fold_left (fun sum point => sum + y point) (mapi_from point_of i l) a
  = a + sumZ (levels l).
Proof.
  induction l as [|e l IH]; intros i a; simpl; [lia|].
  rewrite IH. lia.
Qed.

Lemma sum_xy_points (l : list MoodEntry) : forall k i a,
  i = Z.of_nat k ->
  fold_left (fun sum point => sum + x point * y point) (mapi_from point_of i l) a
  = a + sumZ (map (fun p => fst p * snd p)
                (combine (map Z.of_nat (seq k (length l))) (levels l))).
Proof.
  induction l as [|e l IH]; intros k i a ->; simpl; [lia|].
  rewrite (IH (S k)) by lia. lia.
Qed.

Lemma sum_xx_points (l : list MoodEntry) : forall k i a,
  i = Z.of_nat k ->
  fold_left (fun sum point => sum + x point * x point) (mapi_from point_of i l) a
  = a + sumZ (map (fun x => x * x) (map Z.of_nat (seq k (length l)))).
Proof.
  induction l as [|e l IH]; intros k i a ->; simpl; [lia|].
  rewrite (IH (S k)) by lia. lia.
Qed.

Lemma length_mapi_from {A B} (f : A -> Z -> B) (l : list A) : forall i,
  length (mapi_from f i l) = length l.
Proof. induction l; intros i; simpl; [reflexivity|]. now rewrite IHl. Qed.

(** On the points built by [calculateMoodInsights], [calculateTrend]
    divides the two quantities of the least-squares formula. *)
Lemma calculateTrend_mood (moodData : list MoodEntry) :
  calculateTrend
    (mapi (fun entry index => {| x := index; y := mood_level entry |}) moodData)
  = js_div (Fin (inject_Z (ols_num (levels moodData))))
           (Fin (inject_Z (ols_den (length moodData)))).
Proof.
  unfold calculateTrend, mapi. cbv zeta.
  fold point_of.
  rewrite (sum_x_points moodData 0 0 0 eq_refl).
  rewrite (sum_y_points moodData 0 0).
  rewrite (sum_xy_points moodData 0 0 0 eq_refl).
  rewrite (sum_xx_points moodData 0 0 0 eq_refl).
  rewrite length_mapi_from, !Z.add_0_l.
  unfold ols_num, ols_den, indices, levels. cbv zeta.
  rewrite !length_map. reflexivity.
Qed.

End TrendSums.

(** Closed forms of the sums over the positions. *)
Lemma sumZ_indices n : 2 * sumZ (indices n) = Z.of_nat n * (Z.of_nat n - 1).
Proof.
  unfold indices. induction n as [|n IH]; [reflexivity|].
  rewrite seq_S, map_app, sumZ_app, Nat2Z.inj_succ, Nat.add_0_l.
  cbn [map sumZ fold_right]. nia.
Qed.

Lemma sumZ_square_indices n :
  6 * sumZ (map (fun x => x * x) (indices n))
  = (Z.of_nat n - 1) * Z.of_nat n * (2 * Z.of_nat n - 1).
Proof.
  unfold indices. induction n as [|n IH]; [reflexivity|].
  rewrite seq_S, !map_app, sumZ_app, Nat2Z.inj_succ, Nat.add_0_l.
  cbn [map sumZ fold_right]. nia.
Qed.

Lemma ols_den_closed n :
  12 * ols_den n
  = Z.of_nat n * Z.of_nat n * (Z.of_nat n - 1) * (Z.of_nat n + 1).
Proof.
  unfold ols_den. cbv zeta.
  pose proof (sumZ_indices n) as H1.
  pose proof (sumZ_square_indices n) as H2.
  nia.
Qed.

(** With two entries or more the denominator is positive. *)
Lemma ols_den_pos n : (2 <= n)%nat -> 0 < ols_den n.
Proof.
  intros Hn. pose proof (ols_den_closed n) as H.
  assert (0 < Z.of_nat n * Z.of_nat n * (Z.of_nat n - 1) * (Z.of_nat n + 1))
    by (repeat apply Z.mul_pos_pos; lia).
  lia.
Qed.

Lemma ols_den_one : ols_den 1 = 0.
Proof. reflexivity. Qed.

(** *** The mood calculator returns *)

Lemma push_weekday_nonempty tz o e : push_weekday tz o e <> [].
Proof.
  unfold push_weekday. cbv zeta.
  set (weekday := toLocaleDateString_weekday tz (m_date e)).
  destruct (obj_get o weekday) as [moods|] eqn:Hget.
  - rewrite Hget. apply obj_set_nonempty.
  - rewrite obj_get_set_same. apply obj_set_nonempty.
Qed.

Lemma fold_push_weekday_nonempty tz l o :
  l <> [] -> fold_left (push_weekday tz) l o <> [].
Proof.
  destruct l as [|e l] using rev_ind; [congruence|intros _].
  rewrite fold_left_app. cbn [fold_left]. apply push_weekday_nonempty.
Qed.

(** A dictionary derived key by key from another dictionary is not
    empty when the source is not. *)
Lemma fold_derived_nonempty {A B} (src : obj A) (f : A -> B) keys : forall acc,
  keys <> [] ->
  (forall k, In k keys -> exists a, obj_get src k = Some a) ->
  fold_left
    (fun acc k =>
       match obj_get src k with
       | Some a => obj_set acc k (f a)
       | None => acc
       end) keys acc <> [].
Proof.
  destruct keys as [|k keys _] using rev_ind; [congruence|].
  intros acc _ Hkeys. rewrite fold_left_app. cbn [fold_left].
  destruct (Hkeys k) as [a Ha]; [apply in_or_app; right; left; reflexivity|].
  rewrite Ha. apply obj_set_nonempty.
Qed.

Lemma Object_keys_nonempty {A} (o : obj A) : o <> [] -> Object_keys o <> [].
Proof. destruct o; [congruence|discriminate]. Qed.

Lemma reduce1_nonempty {A} (f : A -> A -> A) l :
  l <> [] -> exists a, reduce1 f l = Ok a.
Proof. destruct l as [|a l]; [congruence|]. intros _. now eexists. Qed.

(** The general case of [calculateMoodInsights]: for a series that is
    not empty the calculator returns the full object, whose numeric
    fields are built from the mean, the least-squares quotient and the
    population variance of the mood levels. *)
Lemma calculateMoodInsights_shape tz (moodData : list MoodEntry) :
  moodData <> [] ->
  let ys := levels moodData in
  let trend := js_div (Fin (inject_Z (ols_num ys)))
                      (Fin (inject_Z (ols_den (length ys)))) in
  exists variance best worst patterns,
    calculateMoodInsights tz moodData =
      Ok (MoodFull
            (round_to 100 (mean ys))
            (trend_label trend)
            (js_round_to 10000 trend)
            (inject_Z (Math_round_surd (surd_scale (Math_sqrt variance (double_variance moodData)) 100))
             / 100)
            best worst patterns)
    /\ (variance == population_variance ys)%Q
    /\ wf_keys (Object_keys patterns).
Proof.
  intros Hne.
  assert (Hlen : (length moodData =? 0)%nat = false)
    by (destruct moodData; [congruence|reflexivity]).
  intros ys trend. unfold calculateMoodInsights.
  rewrite Hlen. cbv zeta.
  rewrite calculateTrend_mood.
  replace (length moodData) with (length ys)
    by (unfold ys, levels; now rewrite length_map).
  fold ys. fold trend.
  rewrite (fold_left_Zplus mood_level moodData 0), Z.add_0_l.
  fold (levels moodData). fold ys.
  fold (mean ys).
  set (weekdayMoods := fold_left (push_weekday tz) moodData []).
  match goal with
  | |- context [fold_left ?f (Object_keys weekdayMoods) []] =>
      set (weekdayAverages := fold_left f (Object_keys weekdayMoods) [])
  end.
  assert (Hkeys : Object_keys weekdayAverages <> []).
  { apply Object_keys_nonempty. unfold weekdayAverages.
    apply fold_derived_nonempty.
    - apply Object_keys_nonempty. now apply fold_push_weekday_nonempty.
    - intros k Hk. now apply obj_get_In_keys. }
  destruct (reduce1_nonempty
              (fun a b => if js_gt (num_of (obj_get weekdayAverages a))
                                   (num_of (obj_get weekdayAverages b))
                          then a else b) _ Hkeys) as [best Hbest].
  destruct (reduce1_nonempty
              (fun a b => if js_lt (num_of (obj_get weekdayAverages a))
                                   (num_of (obj_get weekdayAverages b))
                          then a else b) _ Hkeys) as [worst Hworst].
  rewrite Hbest, Hworst. cbn [bind].
  eexists _, best, worst, weekdayAverages. split; [reflexivity|].
  split; [|apply fold_derived_wf; exact I].
  unfold population_variance.
  apply Qdiv_comp; [|reflexivity].
  rewrite (fold_left_Qplus (fun entry => (inject_Z (mood_level entry) - mean ys) ^ 2)
             moodData 0)%Q.
  rewrite Qplus_0_l. unfold ys, levels. rewrite map_map. reflexivity.
Qed.

Lemma calculateMoodInsights_general tz (moodData : list MoodEntry) :
  moodData <> [] ->
  let ys := levels moodData in
  let trend := js_div (Fin (inject_Z (ols_num ys)))
                      (Fin (inject_Z (ols_den (length ys)))) in
  exists variance best worst patterns,
    calculateMoodInsights tz moodData =
      Ok (MoodFull
            (round_to 100 (mean ys))
            (trend_label trend)
            (js_round_to 10000 trend)
            (inject_Z (Math_round_surd (surd_scale (Math_sqrt variance (double_variance moodData)) 100))
             / 100)
            best worst patterns)
    /\ (variance == population_variance ys)%Q.
Proof.
  intros Hne.
  destruct (calculateMoodInsights_shape tz moodData Hne)
    as (variance & best & worst & patterns & Hcalc & Hvar & _).
  cbv zeta. eauto 8.
Qed.

(** [calculateMoodInsights] never throws. *)
Lemma calculateMoodInsights_total tz (moodData : list MoodEntry) :
  exists r, calculateMoodInsights tz moodData = Ok r.
Proof.
  destruct moodData as [|e rest] eqn:Hdata.
  - now eexists.
  - rewrite <- Hdata.
    destruct (calculateMoodInsights_general tz moodData) as (v & b & w & p & H & _);
      [subst; discriminate|].
    cbv zeta in H. eauto.
Qed.

(** *** Rounding *)

Lemma Qround_half_up_bounds (q : Q) :
  (inject_Z (Qround_half_up q) - (1 # 2) <= q)%Q
  /\ (q < inject_Z (Qround_half_up q) + (1 # 2))%Q.
Proof.
  unfold Qround_half_up.
  pose proof (Qfloor_le (q + (1 # 2))) as Hle.
  pose proof (Qlt_floor (q + (1 # 2))) as Hlt.
  rewrite inject_Z_plus in Hlt. change (inject_Z 1) with 1%Q in Hlt.
  split; lra.
Qed.

Lemma Qround_half_up_comp (q q' : Q) :
  (q == q')%Q -> Qround_half_up q = Qround_half_up q'.
Proof. intros H. unfold Qround_half_up. now rewrite H. Qed.

Lemma Qeq_bool_comp (a a' b : Q) :
  (a == a')%Q -> Qeq_bool a b = Qeq_bool a' b.
Proof.
  intros H.
  destruct (Qeq_bool a b) eqn:Ha; destruct (Qeq_bool a' b) eqn:Ha';
    try reflexivity.
  - apply Qeq_bool_iff in Ha. apply Qeq_bool_neq in Ha'.
    exfalso. apply Ha'. now rewrite <- H.
  - apply Qeq_bool_iff in Ha'. apply Qeq_bool_neq in Ha.
    exfalso. apply Ha. now rewrite H.
Qed.

(** [Math_round_times] is the exact product rounded half-up or, when
    that product is a tie, possibly the integer below it. *)
Lemma Math_round_times_cases (q : Q) (scale : Z) :
  Math_round_times q scale = Qround_half_up (q * inject_Z scale)
  \/ ((q * inject_Z scale - inject_Z (Qfloor (q * inject_Z scale)) == 1 # 2)%Q
      /\ Math_round_times q scale = Qfloor (q * inject_Z scale)).
Proof.
  unfold Math_round_times. cbv zeta.
  destruct (Qeq_bool (q * inject_Z scale - inject_Z (Qfloor (q * inject_Z scale)))
                     (1 # 2)) eqn:Htie; cbn [andb]; [|now left].
  apply Qeq_bool_iff in Htie.
  match goal with
  | |- context [if ?c then _ else _] => destruct c
  end; [right; split; [exact Htie|reflexivity]|now left].
Qed.

(** The rounded product is an integer nearest to the exact product. *)
Lemma Math_round_times_near (q : Q) (scale : Z) :
  (inject_Z (Math_round_times q scale) - (1 # 2) <= q * inject_Z scale)%Q
  /\ (q * inject_Z scale <= inject_Z (Math_round_times q scale) + (1 # 2))%Q.
Proof.
  destruct (Math_round_times_cases q scale) as [->|[Htie ->]].
  - destruct (Qround_half_up_bounds (q * inject_Z scale)) as [Hlo Hhi].
    split; [exact Hlo|now apply Qlt_le_weak].
  - split; lra.
Qed.

Lemma Math_round_times_comp (q q' : Q) (scale : Z) :
  (q == q')%Q -> Math_round_times q scale = Math_round_times q' scale.
Proof.
  intros H. unfold Math_round_times, double_product_below_half. cbv zeta.
  assert (Hp : (q * inject_Z scale == q' * inject_Z scale)%Q) by now rewrite H.
  rewrite (Qred_complete _ _ H), (Qfloor_comp _ _ Hp),
    (Qround_half_up_comp _ _ Hp).
  rewrite (Qeq_bool_comp
             (q * inject_Z scale - inject_Z (Qfloor (q' * inject_Z scale)))
             (q' * inject_Z scale - inject_Z (Qfloor (q' * inject_Z scale)))
             (1 # 2)) by now rewrite Hp.
  reflexivity.
Qed.

Lemma round_to_near (scale : Z) (q : Q) : rounds_near scale q (round_to scale q).
Proof.
  exists (Math_round_times q scale). split; [reflexivity|].
  apply Math_round_times_near.
Qed.

Lemma round_to_comp (scale : Z) (q q' : Q) :
  (q == q')%Q -> (round_to scale q == round_to scale q')%Q.
Proof.
  intros H. unfold round_to.
  now rewrite (Math_round_times_comp q q' scale H).
Qed.

Lemma Qsqrt_half_up_comp (v v' : Q) :
  (v == v')%Q -> Qsqrt_half_up v = Qsqrt_half_up v'.
Proof.
  intros H. unfold Qsqrt_half_up. do 3 f_equal. apply Qfloor_comp.
  now rewrite H.
Qed.

Lemma Math_round_surd_comp (v v' c : Q) (d : PrimFloat.float) :
  (v == v')%Q ->
  Math_round_surd (surd_scale (Math_sqrt v d) c)
  = Math_round_surd (surd_scale (Math_sqrt v' d) c).
Proof.
  intros H. unfold Math_sqrt, surd_scale, Math_round_surd. cbv zeta.
  assert (Hc : (v * (c * c) == v' * (c * c))%Q) by now rewrite H.
  rewrite (Qsqrt_half_up_comp _ _ Hc).
  rewrite (Qeq_bool_comp (v * (c * c) * 4) (v' * (c * c) * 4))
    by now rewrite Hc.
  reflexivity.
Qed.

(** [Qsqrt_half_up] is the half-up rounding of the square root. *)
Lemma Qsqrt_half_up_bounds (v : Q) :
  (0 <= v)%Q ->
  let j := Qsqrt_half_up v in
  0 <= j
  /\ (v < (inject_Z j + (1 # 2)) ^ 2)%Q
  /\ (j = 0 \/ ((inject_Z j - (1 # 2)) ^ 2 <= v)%Q).
Proof.
  intros Hv. cbv zeta. unfold Qsqrt_half_up.
  assert (Hfle : (inject_Z (Qfloor (v * 4)) <= v * 4)%Q) by apply Qfloor_le.
  assert (Hflt : (v * 4 < inject_Z (Qfloor (v * 4) + 1))%Q) by apply Qlt_floor.
  assert (Hf0 : 0 <= Qfloor (v * 4)).
  { change 0 with (Qfloor 0). apply Qfloor_resp_le. lra. }
  generalize dependent (Qfloor (v * 4)). intros f Hfle Hflt Hf0.
  pose proof (Z.sqrt_spec f Hf0) as [Hs1 Hs2].
  pose proof (Z.sqrt_nonneg f) as Hs0.
  generalize dependent (Z.sqrt f). intros s Hs1 Hs2 Hs0.
  assert (Hj : 2 * ((s + 1) / 2) - 1 <= s <= 2 * ((s + 1) / 2)).
  { pose proof (Z.div_mod (s + 1) 2 ltac:(lia)) as Hdm.
    pose proof (Z.mod_pos_bound (s + 1) 2 ltac:(lia)). lia. }
  generalize dependent ((s + 1) / 2). intros j Hj.
  rewrite inject_Z_plus in Hflt. change (inject_Z 1) with 1%Q in Hflt.
  split; [lia|]. split.
  - assert (Hz : f + 1 <= (2 * j + 1) * (2 * j + 1)) by nia.
    assert (Hq : (inject_Z (f + 1) <= inject_Z ((2 * j + 1) * (2 * j + 1)))%Q)
      by (rewrite <- Zle_Qle; exact Hz).
    rewrite !inject_Z_mult, !inject_Z_plus, !inject_Z_mult in Hq.
    change (inject_Z 2) with 2%Q in Hq. change (inject_Z 1) with 1%Q in Hq.
    assert (Hsq : ((inject_Z j + (1 # 2)) ^ 2 * 4
                   == (2 * inject_Z j + 1) * (2 * inject_Z j + 1))%Q)
      by (simpl; ring).
    apply Qmult_lt_r with (z := 4%Q); [reflexivity|].
    rewrite Hsq. lra.
  - destruct (Z.eq_dec j 0) as [Hj0|Hj0]; [left; exact Hj0|right].
    assert (Hz : (2 * j - 1) * (2 * j - 1) <= f) by nia.
    assert (Hq : (inject_Z ((2 * j - 1) * (2 * j - 1)) <= inject_Z f)%Q)
      by (rewrite <- Zle_Qle; exact Hz).
    unfold Z.sub in Hq.
    rewrite !inject_Z_mult, !inject_Z_plus, !inject_Z_mult, !inject_Z_opp in Hq.
    change (inject_Z 2) with 2%Q in Hq. change (inject_Z 1) with 1%Q in Hq.
    assert (Hsq : ((inject_Z j - (1 # 2)) ^ 2 * 4
                   == (2 * inject_Z j - 1) * (2 * inject_Z j - 1))%Q)
      by (simpl; ring).
    apply Qmult_le_r with (z := 4%Q); [reflexivity|].
    rewrite Hsq. lra.
Qed.

(** [Math_round_surd] is the half-up rounding of the square root or,
    when the square root is a tie, possibly the integer below it. *)
Lemma Math_round_surd_cases (v : Q) (d : PrimFloat.float) :
  Math_round_surd (Sqrt v d) = Qsqrt_half_up v
  \/ ((v * 4 == inject_Z ((2 * Qsqrt_half_up v - 1)
                           * (2 * Qsqrt_half_up v - 1)))%Q
      /\ 0 < Qsqrt_half_up v
      /\ Math_round_surd (Sqrt v d) = Qsqrt_half_up v - 1).
Proof.
  unfold Math_round_surd. cbv zeta.
  destruct (Qeq_bool (v * 4)
              (inject_Z ((2 * Qsqrt_half_up v - 1) * (2 * Qsqrt_half_up v - 1))))
    eqn:Htie; cbn [andb]; [|now left].
  destruct (0 <? Qsqrt_half_up v) eqn:Hpos; cbn [andb]; [|now left].
  apply Qeq_bool_iff in Htie. apply Z.ltb_lt in Hpos.
  match goal with
  | |- context [if ?c then _ else _] => destruct c
  end; [right; split; [exact Htie|split; [exact Hpos|reflexivity]]|now left].
Qed.

(** The rounded square root is an integer nearest to the exact one. *)
Lemma Math_round_surd_bounds (v : Q) (d : PrimFloat.float) :
  (0 <= v)%Q ->
  let j := Math_round_surd (Sqrt v d) in
  0 <= j
  /\ (v <= (inject_Z j + (1 # 2)) ^ 2)%Q
  /\ (j = 0 \/ ((inject_Z j - (1 # 2)) ^ 2 <= v)%Q).
Proof.
  intros Hv. cbv zeta.
  destruct (Qsqrt_half_up_bounds v Hv) as (Hj0 & Hup & Hlo).
  destruct (Math_round_surd_cases v d) as [->|(Htie & Hpos & ->)].
  - split; [exact Hj0|]. split; [now apply Qlt_le_weak|exact Hlo].
  - set (j := Qsqrt_half_up v) in *.
    assert (Hx : (1 <= inject_Z j)%Q)
      by (change 1%Q with (inject_Z 1); rewrite <- Zle_Qle; lia).
    assert (Hv4 : (v * 4 == (2 * inject_Z j - 1) * (2 * inject_Z j - 1))%Q).
    { rewrite Htie. unfold Z.sub.
      rewrite !inject_Z_mult, !inject_Z_plus, !inject_Z_mult, !inject_Z_opp.
      reflexivity. }
    assert (Hm : (inject_Z (j - 1) == inject_Z j - 1)%Q).
    { unfold Z.sub. rewrite inject_Z_plus, inject_Z_opp. reflexivity. }
    split; [lia|]. split.
    + rewrite Hm. apply Qmult_le_r with (z := 4%Q); [reflexivity|].
      rewrite Hv4. apply Qle_lteq. right. simpl. ring.
    + right. rewrite Hm. apply Qmult_le_r with (z := 4%Q); [reflexivity|].
      rewrite Hv4.
      assert (Hsq : ((inject_Z j - 1 - (1 # 2)) ^ 2 * 4
                     == (2 * inject_Z j - 1) * (2 * inject_Z j - 1)
                        - 8 * (inject_Z j - 1))%Q) by (simpl; ring).
      rewrite Hsq. lra.
Qed.

Lemma round_surd_sqrt_rounds (v : Q) (d : PrimFloat.float) :
  (0 <= v)%Q ->
  sqrt_rounds_near 100 v
    (inject_Z (Math_round_surd (surd_scale (Math_sqrt v d) 100)) / 100).
Proof.
  intros Hv. unfold Math_sqrt, surd_scale.
  assert (Hv' : (0 <= v * (100 * 100))%Q) by (apply Qmult_le_0_compat; lra).
  destruct (Math_round_surd_bounds _ (PrimFloat.mul (PrimFloat.sqrt d)
                                        (double_of_Q 100)) Hv')
    as (Hj0 & Hup & Hlo).
  eexists. split; [reflexivity|]. split; [exact Hj0|].
  split; [exact Hup|exact Hlo].
Qed.

(** The symbolic square root against the square root of the real
    numbers: [Math_round_surd] of [Sqrt v] is an integer [j] with
    [j - 1/2 <= sqrt v <= j + 1/2]. *)
Lemma Q2R_inject_Z (z : Z) : Q2R (inject_Z z) = IZR z.
Proof. unfold Q2R, inject_Z. simpl. now rewrite Rinv_1, Rmult_1_r. Qed.

Lemma Q2R_half : Q2R (1 # 2) = (/ 2)%R.
Proof. unfold Q2R. simpl. now rewrite Rmult_1_l. Qed.

Lemma Math_round_surd_real (v : Q) (d : PrimFloat.float) :
  (0 <= v)%Q ->
  (IZR (Math_round_surd (Sqrt v d)) - / 2 <= sqrt (Q2R v)
   <= IZR (Math_round_surd (Sqrt v d)) + / 2)%R.
Proof.
  intros Hv.
  destruct (Math_round_surd_bounds v d Hv) as (Hj0 & Hup & Hlo).
  generalize dependent (Math_round_surd (Sqrt v d)). intros j Hj0 Hup Hlo.
  assert (Hv0 : (0 <= Q2R v)%R).
  { replace 0%R with (Q2R 0) by (unfold Q2R; simpl; Lra.lra). now apply Qle_Rle. }
  assert (Hj0R : (0 <= IZR j)%R) by now apply IZR_le.
  assert (Hup' : (sqrt (Q2R v) <= IZR j + / 2)%R).
  { apply Qle_Rle in Hup. simpl in Hup.
    rewrite Q2R_mult, Q2R_plus, Q2R_inject_Z, Q2R_half in Hup.
    rewrite <- (sqrt_square (IZR j + / 2)) by Lra.lra.
    now apply sqrt_le_1_alt. }
  split; [|exact Hup'].
  destruct Hlo as [->|Hlo].
  - pose proof (sqrt_pos (Q2R v)). simpl. Lra.lra.
  - destruct (Z.eq_dec j 0) as [->|Hj].
    + pose proof (sqrt_pos (Q2R v)). simpl. Lra.lra.
    + assert (Hj1 : (1 <= IZR j)%R) by (apply IZR_le; lia).
      apply Qle_Rle in Hlo. simpl in Hlo.
      rewrite Q2R_mult, Q2R_minus, Q2R_inject_Z, Q2R_half in Hlo.
      rewrite <- (sqrt_square (IZR j - / 2)) by Lra.lra.
      now apply sqrt_le_1_alt.
Qed.

(** *** Doubles: signs of zero, and rounding up to ties *)

Lemma Qsgn_pos (b : Q) : (0 < b)%Q -> (Qsgn b <? 0) = false.
Proof.
  intros Hb. unfold Qsgn. apply Z.ltb_ge.
  unfold Qlt in Hb. simpl in Hb. rewrite Z.mul_1_r in Hb.
  destruct (Qnum b); simpl; lia.
Qed.

Lemma Qeq_bool_pos (b : Q) : (0 < b)%Q -> Qeq_bool b 0 = false.
Proof.
  intros Hb. destruct (Qeq_bool b 0) eqn:H; [|reflexivity].
  apply Qeq_bool_iff in H. rewrite H in Hb. now apply Qlt_irrefl in Hb.
Qed.

Lemma js_div_pos (a b : Q) : (0 < b)%Q -> js_div (Fin a) (Fin b) = Fin (a / b).
Proof.
  intros Hb. unfold js_div.
  now rewrite (Qeq_bool_pos b Hb), (Qsgn_pos b Hb), andb_false_r.
Qed.

Lemma js_div_NegZero_pos (b : Q) : (0 < b)%Q -> js_div NegZero (Fin b) = NegZero.
Proof.
  intros Hb. unfold js_div. now rewrite (Qeq_bool_pos b Hb), (Qsgn_pos b Hb).
Qed.

Lemma Qsgn_neg (q : Q) : (Qsgn q <? 0) = true -> (q < 0)%Q.
Proof.
  intros H. apply Z.ltb_lt in H. unfold Qsgn in H.
  unfold Qlt. simpl. rewrite Z.mul_1_r.
  destruct (Qnum q); simpl in *; lia.
Qed.

(** [Math.round(s * 10000) / 10000] on a finite [s]: its value is [s]
    rounded to four decimals, and it is the negative zero only when
    [s * 10000] lies from [-1/2] up to, but not including, 0. *)
Lemma rounded_slope (s : Q) :
  let t := js_round_to 10000 (Fin s) in
  exists v,
    js_value t = Some v
    /\ (v == round_to 10000 s)%Q
    /\ (t = NegZero -> (- (1 # 2) <= s * 10000)%Q /\ (s * 10000 < 0)%Q)
    /\ (t <> NegZero -> t = Fin (round_to 10000 s)).
Proof.
  cbv zeta. unfold js_round_to.
  destruct (Math_round_times s 10000 =? 0) eqn:Hk;
    [destruct (Qsgn s <? 0) eqn:Hs|]; cbn [andb].
  - apply Z.eqb_eq in Hk. apply Qsgn_neg in Hs.
    exists 0%Q. split; [reflexivity|]. split.
    + unfold round_to. rewrite Hk. reflexivity.
    + split; [|congruence]. intros _.
      destruct (Math_round_times_near s 10000) as [Hlo _].
      rewrite Hk in Hlo. change (inject_Z 10000) with 10000%Q in Hlo.
      change (inject_Z 0) with 0%Q in Hlo. split; lra.
  - eexists. split; [reflexivity|]. split; [reflexivity|].
    split; [discriminate|reflexivity].
  - eexists. split; [reflexivity|]. split; [reflexivity|].
    split; [discriminate|reflexivity].
Qed.

Lemma rounds_near_comp (scale : Z) (exact rounded rounded' : Q) :
  (rounded == rounded')%Q ->
  rounds_near scale exact rounded -> rounds_near scale exact rounded'.
Proof.
  intros Heq (k & Hk & Hlo & Hhi). exists k.
  split; [now rewrite <- Heq|]. split; assumption.
Qed.

(** *** Average, volatility and trend of the mood series *)

Lemma sumQ_squares_nonneg {A} (g : A -> Q) (l : list A) :
  (0 <= sumQ (map (fun a => g a ^ 2) l))%Q.
Proof.
  induction l as [|a l IH]; cbn [map sumQ fold_right]; [apply Qle_refl|].
  fold (sumQ (map (fun a => g a ^ 2)%Q l)).
  assert (0 <= g a ^ 2)%Q.
  { setoid_replace (g a ^ 2)%Q with (g a * g a)%Q by (simpl; ring).
    destruct (Qlt_le_dec (g a) 0) as [Hneg|Hpos].
    - setoid_replace (g a * g a)%Q with ((- g a) * (- g a))%Q by ring.
      apply Qmult_le_0_compat; lra.
    - now apply Qmult_le_0_compat. }
  generalize dependent (g a ^ 2)%Q. intros sq Hsq.
  generalize dependent (sumQ (map (fun a => g a ^ 2)%Q l)). intros rest Hrest.
  lra.
Qed.

Lemma population_variance_nonneg (ys : list Z) :
  (0 <= population_variance ys)%Q.
Proof.
  unfold population_variance, Qdiv.
  apply Qmult_le_0_compat.
  - apply (sumQ_squares_nonneg (fun y => inject_Z y - mean ys)%Q).
  - apply Qinv_le_0_compat. change 0%Q with (inject_Z 0).
    rewrite <- Zle_Qle. lia.
Qed.

Lemma sqrt_rounds_near_comp scale (v v' rounded : Q) :
  (v == v')%Q ->
  sqrt_rounds_near scale v rounded -> sqrt_rounds_near scale v' rounded.
Proof.
  intros Hv (j & Hr & Hj & Hup & Hlo). exists j.
  split; [exact Hr|]. split; [exact Hj|]. split.
  - now rewrite <- Hv.
  - destruct Hlo as [Hlo|Hlo]; [left; exact Hlo|right]. now rewrite <- Hv.
Qed.

(** C6.  For a mood series that is not empty, [average] is the
    arithmetic mean of the mood levels rounded to two decimals, and
    [volatility] is the square root of their population variance (the
    sum of the squared deviations divided by [n]) rounded to two
    decimals, each a nearest multiple of 0.01, either one when the
    exact value lies halfway between two; and when the levels are
    [3,3,3,3,3] the average is 3, the volatility 0, the trend
    ["stable"] and the slope 0. *)
Theorem mood_average_and_volatility (tz : Z -> Z) (moodData : list MoodEntry) :
  moodData <> [] ->
  exists r,
    calculateMoodInsights tz moodData = Ok r
    /\ rounds_near 100 (mean (levels moodData)) (mood_average r)
    /\ sqrt_rounds_near 100 (population_variance (levels moodData))
         (mood_volatility r)
    /\ (levels moodData = [3; 3; 3; 3; 3] ->
        (mood_average r == 3)%Q
        /\ (mood_volatility r == 0)%Q
        /\ mood_trend r = "stable"%string
        /\ exists slope,
             mood_trend_slope r = Some (Fin slope) /\ (slope == 0)%Q).
Proof.
  intros Hne.
  destruct (calculateMoodInsights_general tz moodData Hne)
    as (variance & best & worst & patterns & Hcalc & Hvar).
  cbv zeta in Hcalc. eexists. split; [exact Hcalc|].
  cbn [mood_average mood_volatility mood_trend mood_trend_slope].
  split; [apply round_to_near|]. split.
  - apply sqrt_rounds_near_comp with (v := variance); [exact Hvar|].
    apply round_surd_sqrt_rounds. rewrite Hvar.
    apply population_variance_nonneg.
  - intros Hys. rewrite Hys in *.
    assert (Hv0 : (variance == 0)%Q) by (rewrite Hvar; reflexivity).
    rewrite (Math_round_surd_comp variance 0 100 _ Hv0).
    split; [reflexivity|]. split; [reflexivity|]. split; [reflexivity|].
    eexists. split; [reflexivity|]. reflexivity.
Qed.

(** The instance of C6 at five days of mood level 3. *)
Lemma mood_average_and_volatility_witness :
  exists r,
    calculateMoodInsights (fun _ => 0)
      (map (fun d => mkMoodEntry (d * 86400000) 3 50 "Feeling good today")
           [0; 1; 2; 3; 4]) = Ok r
    /\ (mood_average r == 3)%Q
    /\ (mood_volatility r == 0)%Q
    /\ mood_trend r = "stable"%string.
Proof.
  destruct (mood_average_and_volatility (fun _ => 0)
              (map (fun d => mkMoodEntry (d * 86400000) 3 50 "Feeling good today")
                   [0; 1; 2; 3; 4]))
    as (r & Hcalc & _ & _ & Hex); [discriminate|].
  exists r. split; [exact Hcalc|].
  destruct (Hex eq_refl) as (Ha & Hv & Ht & _). auto.
Defined.

(** At a tie [average] follows the double product: the levels of
    [steady_then_up] have the mean 1.025, whose product with 100 is
    102.49999999999999 in doubles, and [average] is 1.02. *)
Lemma mood_average_at_a_tie :
  exists r,
    calculateMoodInsights utc steady_then_up = Ok r
    /\ (mean (levels steady_then_up) == 1025 # 1000)%Q
    /\ (mood_average r == 102 # 100)%Q.
Proof.
  eexists. split; [vm_compute; reflexivity|]. split; reflexivity.
Qed.

(** C8.  Reordering the entries of a mood series leaves [average]
    unchanged; it can change [trend_slope]: the levels [1,2] give the
    slope 1 and the levels [2,1] the slope -1. *)
Theorem mood_average_reorder_invariant :
  (forall (tz : Z -> Z) (moodData moodData' : list MoodEntry),
      Permutation moodData moodData' ->
      exists r r',
        calculateMoodInsights tz moodData = Ok r
        /\ calculateMoodInsights tz moodData' = Ok r'
        /\ mood_average r = mood_average r')
  /\ (exists moodData moodData' : list MoodEntry,
        Permutation moodData moodData'
        /\ forall tz : Z -> Z,
             exists r r' slope slope',
               calculateMoodInsights tz moodData = Ok r
               /\ calculateMoodInsights tz moodData' = Ok r'
               /\ mood_trend_slope r = Some (Fin slope)
               /\ mood_trend_slope r' = Some (Fin slope')
               /\ (slope == 1)%Q /\ (slope' == - (1))%Q
               /\ ~ (slope == slope')%Q).
Proof.
  split.
  - intros tz moodData moodData' Hperm.
    destruct moodData as [|e rest] eqn:Hdata.
    + apply Permutation_nil in Hperm. subst moodData'.
      exists (MoodBasic 0 "no_data" 0), (MoodBasic 0 "no_data" 0). auto.
    + rewrite <- Hdata in *.
      assert (Hne : moodData <> []) by (subst moodData; discriminate).
      assert (Hne' : moodData' <> []).
      { intros ->. apply Permutation_sym, Permutation_nil in Hperm. congruence. }
      destruct (calculateMoodInsights_general tz moodData Hne)
        as (v & b & w & p & Hcalc & _).
      destruct (calculateMoodInsights_general tz moodData' Hne')
        as (v' & b' & w' & p' & Hcalc' & _).
      cbv zeta in Hcalc, Hcalc'.
      eexists _, _. split; [exact Hcalc|]. split; [exact Hcalc'|].
      cbn [mood_average]. unfold mean, levels.
      rewrite (sumZ_Permutation _ _ (Permutation_map mood_level Hperm)).
      rewrite !length_map, (Permutation_length Hperm). reflexivity.
  - exists [mkMoodEntry 0 1 50 "Feeling good today";
            mkMoodEntry 86400000 2 50 "Feeling good today"],
           [mkMoodEntry 86400000 2 50 "Feeling good today";
            mkMoodEntry 0 1 50 "Feeling good today"].
    split; [apply perm_swap|]. intros tz.
    match goal with
    | |- exists r r' slope slope',
           calculateMoodInsights tz ?l = _ /\ calculateMoodInsights tz ?l' = _ /\ _ =>
        destruct (calculateMoodInsights_general tz l ltac:(discriminate))
          as (v & b & w & p & Hcalc & _);
        destruct (calculateMoodInsights_general tz l' ltac:(discriminate))
          as (v' & b' & w' & p' & Hcalc' & _)
    end.
    cbv zeta in Hcalc, Hcalc'.
    eexists _, _, (10000 # 10000)%Q, (-10000 # 10000)%Q.
    split; [exact Hcalc|]. split; [exact Hcalc'|].
    cbn [mood_trend_slope].
    split; [reflexivity|]. split; [reflexivity|].
    split; [reflexivity|]. split; [reflexivity|]. discriminate.
Qed.

(** The instance of C8 at a three-day series and its reversal. *)
Lemma mood_average_reorder_invariant_witness :
  exists r r',
    calculateMoodInsights (fun _ => 0)
      [mkMoodEntry 0 1 50 "a"; mkMoodEntry 86400000 4 60 "b";
       mkMoodEntry 172800000 2 70 "c"] = Ok r
    /\ calculateMoodInsights (fun _ => 0)
         [mkMoodEntry 172800000 2 70 "c"; mkMoodEntry 86400000 4 60 "b";
          mkMoodEntry 0 1 50 "a"] = Ok r'
    /\ mood_average r = mood_average r'.
Proof.
  apply (proj1 mood_average_reorder_invariant (fun _ => 0)).
  change [mkMoodEntry 172800000 2 70 "c"; mkMoodEntry 86400000 4 60 "b";
          mkMoodEntry 0 1 50 "a"]
    with (rev [mkMoodEntry 0 1 50 "a"; mkMoodEntry 86400000 4 60 "b";
               mkMoodEntry 172800000 2 70 "c"]).
  apply Permutation_rev.
Defined.

(** The label depends on the position of the unrounded slope with
    respect to the two thresholds. *)
Lemma Qle_bool_false (a b : Q) : Qle_bool a b = false -> (b < a)%Q.
Proof.
  intros H. apply Qnot_le_lt. intros Hle. apply Qle_bool_iff in Hle. congruence.
Qed.

Lemma trend_label_Fin (q : Q) :
  (trend_label (Fin q) = "improving"%string <-> (5 # 100 < q)%Q)
  /\ (trend_label (Fin q) = "declining"%string <-> (q < - (5 # 100))%Q)
  /\ (trend_label (Fin q) = "stable"%string
      <-> (- (5 # 100) <= q)%Q /\ (q <= 5 # 100)%Q).
Proof.
  unfold trend_label, js_lt, js_gt.
  destruct (Qle_bool q (5 # 100)) eqn:Hup;
    destruct (Qle_bool (- (5 # 100)) q) eqn:Hlo; cbn [negb];
    try apply Qle_bool_iff in Hup; try apply Qle_bool_iff in Hlo;
    try apply Qle_bool_false in Hup; try apply Qle_bool_false in Hlo;
    repeat split; intros; try congruence;
    try match goal with H : _ /\ _ |- _ => destruct H end; lra.
Qed.

Lemma Qeq_bool_inject_Z_pos (z : Z) : 0 < z -> Qeq_bool (inject_Z z) 0 = false.
Proof.
  intros Hz. destruct z as [|p|p]; [lia|reflexivity|lia].
Qed.

(** C3, as the code has it.  For a mood series of two entries or more
    the denominator of the least-squares formula is positive;
    [trend_slope] is the least-squares slope of the mood level against
    the 0-based position, rounded to four decimals: a nearest multiple
    of 0.0001, either one when the slope lies halfway between two, and
    the negative zero only for a negative slope of -0.00005 at least;
    the label is ["improving"] exactly when the unrounded slope exceeds
    0.05, ["declining"] exactly when it is below -0.05, and ["stable"]
    otherwise; and the levels [1,2,3,4,5] give the slope 1 and the
    label ["improving"]. *)
Theorem trend_slope_is_rounded_ols (tz : Z -> Z) (moodData : list MoodEntry) :
  (2 <= length moodData)%nat ->
  let ys := levels moodData in
  0 < ols_den (length ys)
  /\ exists r t slope,
       calculateMoodInsights tz moodData = Ok r
       /\ mood_trend_slope r = Some t
       /\ js_value t = Some slope
       /\ rounds_near 10000 (ols_slope ys) slope
       /\ (t = NegZero ->
           (- (1 # 2) <= ols_slope ys * 10000)%Q /\ (ols_slope ys < 0)%Q)
       /\ (mood_trend r = "improving"%string <-> (5 # 100 < ols_slope ys)%Q)
       /\ (mood_trend r = "declining"%string <-> (ols_slope ys < - (5 # 100))%Q)
       /\ (mood_trend r = "stable"%string
           <-> (- (5 # 100) <= ols_slope ys)%Q /\ (ols_slope ys <= 5 # 100)%Q)
       /\ (ys = [1; 2; 3; 4; 5] ->
           t = Fin slope /\ (slope == 1)%Q /\ mood_trend r = "improving"%string).
Proof.
  intros Hlen ys.
  assert (Hne : moodData <> []) by (destruct moodData; [simpl in Hlen; lia|discriminate]).
  assert (Hden : 0 < ols_den (length ys)).
  { apply ols_den_pos. unfold ys, levels. now rewrite length_map. }
  split; [exact Hden|].
  destruct (calculateMoodInsights_general tz moodData Hne)
    as (variance & best & worst & patterns & Hcalc & _).
  cbv zeta in Hcalc. fold ys in Hcalc.
  assert (Htrend : js_div (Fin (inject_Z (ols_num ys)))
                     (Fin (inject_Z (ols_den (length ys))))
                   = Fin (ols_slope ys)).
  { apply js_div_pos. change 0%Q with (inject_Z 0). now rewrite <- Zlt_Qlt. }
  rewrite Htrend in Hcalc.
  destruct (rounded_slope (ols_slope ys)) as (slope & Hvalue & Hslope & Hzero & _).
  cbv zeta in Hvalue, Hzero.
  eexists _, _, slope. split; [exact Hcalc|]. cbn [mood_trend_slope mood_trend].
  split; [reflexivity|]. split; [exact Hvalue|].
  split.
  { apply rounds_near_comp with (rounded := round_to 10000 (ols_slope ys));
      [now symmetry|apply round_to_near]. }
  split.
  { intros Hneg. apply Hzero in Hneg as [Hlo Hhi]. split; [exact Hlo|].
    lra. }
  destruct (trend_label_Fin (ols_slope ys)) as (Hi & Hd & Hs).
  split; [exact Hi|]. split; [exact Hd|]. split; [exact Hs|].
  intros Hys. rewrite Hys in *.
  split; [|split; [|reflexivity]].
  - vm_compute in Hvalue. injection Hvalue as <-. reflexivity.
  - rewrite Hslope. reflexivity.
Qed.

(** The instance of C3 at the levels [1,2,3,4,5]. *)
Lemma trend_slope_is_rounded_ols_witness :
  exists r slope,
    calculateMoodInsights (fun _ => 0) (daily_moods [1; 2; 3; 4; 5]) = Ok r
    /\ mood_trend_slope r = Some (Fin slope)
    /\ (slope == 1)%Q
    /\ mood_trend r = "improving"%string.
Proof.
  destruct (trend_slope_is_rounded_ols (fun _ => 0) (daily_moods [1; 2; 3; 4; 5]))
    as (_ & r & t & slope & Hcalc & Hslope & _ & _ & _ & _ & _ & _ & Hex);
    [simpl; lia|].
  destruct (Hex eq_refl) as (Ht & Hone & Hlabel).
  exists r, slope. split; [exact Hcalc|]. split; [now rewrite Hslope, Ht|].
  split; [exact Hone|exact Hlabel].
Defined.

(** C3 as stated fails: for the levels [1,1,1,1,1,2] the least-squares
    slope is 1/7, and [trend_slope] is 0.1429. *)
Lemma trend_slope_not_exact_ols :
  exists r slope,
    calculateMoodInsights (fun _ => 0) late_rise = Ok r
    /\ mood_trend_slope r = Some (Fin slope)
    /\ (slope == 1429 # 10000)%Q
    /\ (ols_slope (levels late_rise) == 1 # 7)%Q
    /\ ~ (slope == ols_slope (levels late_rise))%Q.
Proof.
  eexists _, _. split; [vm_compute; reflexivity|].
  split; [reflexivity|]. split; [reflexivity|]. split; [reflexivity|].
  discriminate.
Qed.

(** At a tie [trend_slope] follows the double product: the levels of
    [long_decline] have the slope -0.00875, whose product with 10000
    is -87.50000000000001 in doubles, and [trend_slope] is -0.0088. *)
Lemma trend_slope_at_a_tie :
  exists r slope,
    calculateMoodInsights utc long_decline = Ok r
    /\ (ols_slope (levels long_decline) == - (875 # 100000))%Q
    /\ mood_trend_slope r = Some (Fin slope)
    /\ (slope == - (88 # 10000))%Q.
Proof.
  destruct (calculateMoodInsights_general utc long_decline)
    as (variance & best & worst & patterns & Hcalc & _); [discriminate|].
  cbv zeta in Hcalc.
  eexists _, _. split; [exact Hcalc|].
  split; [vm_compute; reflexivity|].
  cbn [mood_trend_slope].
  split; [vm_compute; reflexivity|]. reflexivity.
Qed.

(** *** Sorting a habit group by date *)

Lemma insert_by_date_perm e l : Permutation (insert_by_date e l) (e :: l).
Proof.
  induction l as [|h t IH]; simpl; [apply Permutation_refl|].
  destruct (h_date e <=? h_date h); [apply Permutation_refl|].
  eapply perm_trans; [apply perm_skip, IH|apply perm_swap].
Qed.

Lemma sort_by_date_perm l : Permutation (sort_by_date l) l.
Proof.
  induction l as [|h t IH]; simpl; [constructor|].
  eapply perm_trans; [apply insert_by_date_perm|now apply perm_skip].
Qed.

Lemma insert_by_date_sorted e l :
  Sorted date_le l -> Sorted date_le (insert_by_date e l).
Proof.
  induction l as [|h t IH]; simpl; intros Hs.
  - repeat constructor.
  - destruct (Z.leb_spec (h_date e) (h_date h)) as [Hle|Hgt].
    + constructor; [exact Hs|]. constructor. exact Hle.
    + inversion Hs as [|? ? Ht Hhd]; subst.
      constructor; [now apply IH|].
      destruct t as [|h' t']; simpl.
      * constructor. unfold date_le. lia.
      * destruct (h_date e <=? h_date h').
        -- constructor. unfold date_le. lia.
        -- inversion Hhd; subst. now constructor.
Qed.

Lemma sort_by_date_sorted l : Sorted date_le (sort_by_date l).
Proof.
  induction l as [|h t IH]; simpl; [constructor|].
  now apply insert_by_date_sorted.
Qed.

(** The sort is stable: the entries of one date keep their order. *)
Lemma insert_by_date_stable d e l :
  filter (fun h => h_date h =? d) (insert_by_date e l)
  = filter (fun h => h_date h =? d) (e :: l).
Proof.
  induction l as [|h t IH]; [reflexivity|].
  cbn [insert_by_date].
  destruct (Z.leb_spec (h_date e) (h_date h)) as [Hle|Hgt]; [reflexivity|].
  cbn [filter] in *. rewrite IH.
  destruct (Z.eqb_spec (h_date e) d) as [He|He];
    destruct (Z.eqb_spec (h_date h) d) as [Hh|Hh]; try reflexivity.
  lia.
Qed.

Lemma sort_by_date_stable d l :
  filter (fun h => h_date h =? d) (sort_by_date l)
  = filter (fun h => h_date h =? d) l.
Proof.
  induction l as [|h t IH]; [reflexivity|].
  cbn [sort_by_date fold_right]. fold (sort_by_date t).
  rewrite insert_by_date_stable. cbn [filter]. now rewrite IH.
Qed.

Lemma sort_by_date_length l : length (sort_by_date l) = length l.
Proof. apply Permutation_length, sort_by_date_perm. Qed.

(** *** The streak loop *)

Lemma streak_loop_spec (habits : list HabitEntry) : forall k c,
  (k <= length habits)%nat ->
  exists j,
    (j <= k)%nat
    /\ streak_loop habits k c = c + Z.of_nat j
    /\ (forall i h, (k - j <= i < k)%nat -> nth_error habits i = Some h ->
                    qualifies h = true)
    /\ ((j < k)%nat ->
        exists h, nth_error habits (k - j - 1) = Some h /\ qualifies h = false).
Proof.
  induction k as [|i IH]; intros c Hk.
  - exists 0%nat. cbn [streak_loop].
    split; [lia|]. split; [lia|]. split; intros; lia.
  - cbn [streak_loop].
    destruct (nth_error habits i) as [h|] eqn:Hnth.
    2:{ apply nth_error_None in Hnth. lia. }
    destruct (qualifies h) eqn:Hq.
    + destruct (IH (c + 1) ltac:(lia)) as (j & Hj & Hloop & Hrun & Hstop).
      exists (S j). split; [lia|]. split; [rewrite Hloop; lia|]. split.
      * intros i' h' Hi' Hnth'.
        destruct (Nat.eq_dec i' i) as [->|Hneq].
        -- congruence.
        -- apply (Hrun i' h'); [lia|exact Hnth'].
      * intros Hlt. replace (S i - S j - 1)%nat with (i - j - 1)%nat by lia.
        apply Hstop. lia.
    + exists 0%nat. split; [lia|]. split; [lia|]. split.
      * intros i' h' Hi'. lia.
      * intros _. exists h. replace (S i - 0 - 1)%nat with i by lia. auto.
Qed.

(** [current_streak] is the length of the maximal trailing run. *)
Lemma current_streak_trailing (habits : list HabitEntry) :
  exists k, current_streak habits = Z.of_nat k /\ is_trailing_run habits k.
Proof.
  unfold current_streak.
  destruct (streak_loop_spec habits (length habits) 0 (le_n _))
    as (j & Hj & Hloop & Hrun & Hstop).
  exists j. split; [rewrite Hloop; lia|].
  split; [exact Hj|]. split; [|exact Hstop].
  intros i h Hi Hnth. apply (Hrun i h); [|exact Hnth].
  split; [exact Hi|]. apply nth_error_Some. congruence.
Qed.

(** The trailing run is unique. *)
Lemma is_trailing_run_unique l k k' :
  is_trailing_run l k -> is_trailing_run l k' -> k = k'.
Proof.
  intros (Hk & Hrun & Hstop) (Hk' & Hrun' & Hstop').
  destruct (Nat.lt_trichotomy k k') as [Hlt|[Heq|Hgt]]; [|exact Heq|].
  - destruct (Hstop ltac:(lia)) as (h & Hnth & Hq).
    rewrite (Hrun' (length l - k - 1)%nat h ltac:(lia) Hnth) in Hq.
    discriminate.
  - destruct (Hstop' ltac:(lia)) as (h & Hnth & Hq).
    rewrite (Hrun (length l - k' - 1)%nat h ltac:(lia) Hnth) in Hq.
    discriminate.
Qed.

(** *** Grouping the habit entries *)

Lemma push_habit_ok (acc : obj (list HabitEntry)) (e : HabitEntry) :
  inherited (name e) = false ->
  exists acc',
    push_habit acc e = Ok acc'
    /\ forall n,
         obj_get acc' n =
         if String.eqb n (name e)
         then Some (match obj_get acc (name e) with
                    | Some g => g ++ [e]
                    | None => [e]
                    end)
         else obj_get acc n.
Proof.
  intros Hinh. unfold push_habit. rewrite Hinh. cbv zeta.
  destruct (obj_get acc (name e)) as [g|] eqn:Hget.
  - rewrite Hget. eexists. split; [reflexivity|].
    intros n. apply obj_get_set.
  - rewrite obj_get_set_same. eexists. split; [reflexivity|].
    intros n. rewrite !obj_get_set.
    now destruct (String.eqb n (name e)).
Qed.

Lemma group_habits_ok (habitData : list HabitEntry) : forall acc,
  plain_names habitData ->
  exists groups,
    group_habits acc habitData = Ok groups
    /\ forall n,
         obj_get groups n =
         match obj_get acc n with
         | Some g => Some (g ++ entries_of n habitData)
         | None =>
             match entries_of n habitData with
             | [] => None
             | l => Some l
             end
         end.
Proof.
  induction habitData as [|e rest IH]; intros acc Hplain.
  - exists acc. split; [reflexivity|]. intros n. cbn [entries_of filter].
    destruct (obj_get acc n); [now rewrite app_nil_r|reflexivity].
  - destruct (push_habit_ok acc e) as (acc' & Hpush & Hacc');
      [apply Hplain; now left|].
    destruct (IH acc') as (groups & Hgroups & Hget);
      [intros e' He'; apply Hplain; now right|].
    exists groups. split.
    + cbn [group_habits]. rewrite Hpush. exact Hgroups.
    + intros n. rewrite Hget, Hacc'. unfold entries_of. cbn [filter].
      rewrite (String.eqb_sym (name e) n).
      destruct (String.eqb_spec n (name e)) as [->|Hneq].
      * destruct (obj_get acc (name e)) as [g|].
        -- now rewrite <- app_assoc.
        -- reflexivity.
      * reflexivity.
Qed.

Lemma entries_of_nonempty (habitData : list HabitEntry) (n : string) :
  In n (map name habitData) -> entries_of n habitData <> [].
Proof.
  intros Hin. apply in_map_iff in Hin as (e & Hname & He).
  assert (Hf : In e (entries_of n habitData)).
  { apply filter_In. split; [exact He|]. subst n. apply String.eqb_refl. }
  intros Hnil. rewrite Hnil in Hf. exact Hf.
Qed.

Lemma entries_of_name (habitData : list HabitEntry) (n : string) :
  entries_of n habitData <> [] -> In n (map name habitData).
Proof.
  intros Hne. destruct (entries_of n habitData) as [|e l] eqn:Hent; [congruence|].
  assert (Hin : In e (entries_of n habitData)) by (rewrite Hent; now left).
  apply filter_In in Hin as [Hin Hname]. apply String.eqb_eq in Hname.
  subst n. now apply in_map.
Qed.

(** *** The per-habit loop *)

Section HabitLoop.

Variable habitGroups : obj (list HabitEntry).

Lemma habit_step_other st k n :
  n <> k ->
  obj_get (fst (habit_step habitGroups st k)) n = obj_get (fst st) n
  /\ obj_get (snd (habit_step habitGroups st k)) n = obj_get (snd st) n.
Proof.
  intros Hneq. unfold habit_step. destruct st as [rates streaks].
  destruct (obj_get habitGroups k) as [g|]; cbn [fst snd]; [|auto].
  now rewrite !obj_get_set_other.
Qed.

Lemma habit_step_same st k g :
  obj_get habitGroups k = Some g ->
  obj_get (fst (habit_step habitGroups st k)) k = Some (rate_of g)
  /\ obj_get (snd (habit_step habitGroups st k)) k
     = Some (current_streak (sort_by_date g)).
Proof.
  intros Hg. unfold habit_step. destruct st as [rates streaks].
  rewrite Hg. cbn [fst snd]. now rewrite !obj_get_set_same.
Qed.

Lemma fold_habit_step_other keys : forall st n,
  ~ In n keys ->
  obj_get (fst (fold_left (habit_step habitGroups) keys st)) n = obj_get (fst st) n
  /\ obj_get (snd (fold_left (habit_step habitGroups) keys st)) n
     = obj_get (snd st) n.
Proof.
  induction keys as [|k keys IH]; intros st n Hnot; cbn [fold_left]; [auto|].
  destruct (IH (habit_step habitGroups st k) n) as [H1 H2];
    [intros H; apply Hnot; now right|].
  destruct (habit_step_other st k n) as [H3 H4];
    [intros ->; apply Hnot; now left|].
  rewrite H1, H2, H3, H4. auto.
Qed.

Lemma fold_habit_step_same keys : forall st n g,
  In n keys ->
  obj_get habitGroups n = Some g ->
  obj_get (fst (fold_left (habit_step habitGroups) keys st)) n = Some (rate_of g)
  /\ obj_get (snd (fold_left (habit_step habitGroups) keys st)) n
     = Some (current_streak (sort_by_date g)).
Proof.
  induction keys as [|k keys IH]; intros st n g Hin Hg; [destruct Hin|].
  cbn [fold_left].
  destruct (in_dec string_dec n keys) as [Hlater|Hnot].
  - now apply IH.
  - destruct Hin as [->|Hin]; [|contradiction].
    destruct (fold_habit_step_other keys (habit_step habitGroups st n) n Hnot)
      as [H1 H2].
    destruct (habit_step_same st n g Hg) as [H3 H4].
    rewrite H1, H2, H3, H4. auto.
Qed.

Lemma fold_habit_step_wf keys : forall st,
  wf_keys (Object_keys (fst st)) ->
  wf_keys (Object_keys (snd st)) ->
  wf_keys (Object_keys (fst (fold_left (habit_step habitGroups) keys st)))
  /\ wf_keys (Object_keys (snd (fold_left (habit_step habitGroups) keys st))).
Proof.
  induction keys as [|k keys IH]; intros st H1 H2; cbn [fold_left]; [auto|].
  apply IH; unfold habit_step; destruct st as [rates streaks];
    cbn [fst snd] in *; destruct (obj_get habitGroups k); cbn [fst snd];
    auto using wf_obj_set.
Qed.

End HabitLoop.

(** *** The habit analyzer returns *)

(** The general case of [analyzeHabitPatterns]: for a series that is not
    empty and whose names are ordinary keys the analyzer returns the
    full object; the streak and the rate of a habit are those of its
    entries sorted by date. *)
Lemma analyzeHabitPatterns_shape (habitData : list HabitEntry) :
  habitData <> [] ->
  plain_names habitData ->
  exists rates streaks most needs,
    analyzeHabitPatterns habitData =
      Ok (HabitFull (round_to 1000 (overall_completion habitData))
                    rates streaks most needs)
    /\ (forall n,
         In n (map name habitData) ->
         obj_get streaks n
         = Some (current_streak (sort_by_date (entries_of n habitData)))
         /\ obj_get rates n = Some (rate_of (entries_of n habitData)))
    /\ wf_keys (Object_keys rates)
    /\ wf_keys (Object_keys streaks).
Proof.
  intros Hne Hplain.
  assert (Hlen : (length habitData =? 0)%nat = false)
    by (destruct habitData; [congruence|reflexivity]).
  unfold analyzeHabitPatterns. rewrite Hlen.
  destruct (group_habits_ok habitData [] Hplain) as (groups & Hgroups & Hget).
  rewrite Hgroups. cbn [bind].
  destruct (fold_left (habit_step groups) (Object_keys groups) ([], []))
    as [rates streaks] eqn:Hfold.
  assert (Hentry : forall n, In n (map name habitData) ->
            obj_get streaks n
            = Some (current_streak (sort_by_date (entries_of n habitData)))
            /\ obj_get rates n = Some (rate_of (entries_of n habitData))).
  { intros n Hin.
    assert (Hg : obj_get groups n = Some (entries_of n habitData)).
    { rewrite Hget. cbn [obj_get].
      pose proof (entries_of_nonempty habitData n Hin) as Hnonempty.
      destruct (entries_of n habitData); [congruence|reflexivity]. }
    destruct (fold_habit_step_same groups (Object_keys groups) ([], []) n _
                ltac:(apply obj_get_In_keys; eauto) Hg) as [H1 H2].
    rewrite Hfold in H1, H2. cbn [fst snd] in H1, H2. auto. }
  assert (Hkeys : Object_keys rates <> []).
  { destruct habitData as [|e rest]; [congruence|].
    destruct (Hentry (name e)) as [_ Hrate]; [now left|].
    destruct rates; [discriminate|discriminate]. }
  cbv zeta.
  rewrite (fold_left_Zplus completed habitData 0),
          (fold_left_Zplus target habitData 0), !Z.add_0_l.
  fold (overall_completion habitData).
  destruct (reduce1_nonempty
              (fun a b => if js_gt (num_of (obj_get rates a))
                                   (num_of (obj_get rates b))
                          then a else b) _ Hkeys) as [most Hmost].
  destruct (reduce1_nonempty
              (fun a b => if js_lt (num_of (obj_get rates a))
                                   (num_of (obj_get rates b))
                          then a else b) _ Hkeys) as [needs Hneeds].
  rewrite Hmost, Hneeds. cbn [bind].
  exists rates, streaks, most, needs. split; [reflexivity|].
  split; [exact Hentry|].
  destruct (fold_habit_step_wf groups (Object_keys groups) ([], []) I I)
    as [H1 H2].
  rewrite Hfold in H1, H2. auto.
Qed.

Lemma analyzeHabitPatterns_general (habitData : list HabitEntry) :
  habitData <> [] ->
  plain_names habitData ->
  exists rates streaks most needs,
    analyzeHabitPatterns habitData =
      Ok (HabitFull (round_to 1000 (overall_completion habitData))
                    rates streaks most needs)
    /\ forall n,
         In n (map name habitData) ->
         obj_get streaks n
         = Some (current_streak (sort_by_date (entries_of n habitData)))
         /\ obj_get rates n = Some (rate_of (entries_of n habitData)).
Proof.
  intros Hne Hplain.
  destruct (analyzeHabitPatterns_shape habitData Hne Hplain)
    as (rates & streaks & most & needs & Hcalc & Hentry & _).
  eauto 8.
Qed.

(** When the analyzer returns on a series that is not empty, the names
    are ordinary keys. *)
Lemma group_habits_plain (habitData : list HabitEntry) : forall acc groups,
  group_habits acc habitData = Ok groups -> plain_names habitData.
Proof.
  induction habitData as [|e rest IH]; intros acc groups Hok e' He'.
  - destruct He'.
  - cbn [group_habits] in Hok. unfold push_habit in Hok at 1.
    destruct (inherited (name e)) eqn:Hinh; [discriminate|].
    destruct He' as [<-|He']; [exact Hinh|].
    cbv zeta in Hok.
    match type of Hok with
    | bind ?r _ = _ => destruct r as [acc'|msg] eqn:Hpush; [|discriminate]
    end.
    cbn [bind] in Hok. now apply (IH acc' groups).
Qed.

Lemma analyzeHabitPatterns_plain (habitData : list HabitEntry) r :
  analyzeHabitPatterns habitData = Ok r -> plain_names habitData.
Proof.
  unfold analyzeHabitPatterns.
  destruct habitData as [|e rest] eqn:Hdata.
  - intros _ e' [].
  - rewrite <- Hdata. replace (length habitData =? 0)%nat with false
      by (subst; reflexivity).
    destruct (group_habits [] habitData) as [groups|msg] eqn:Hgroups;
      [|discriminate].
    intros _. now apply (group_habits_plain habitData [] groups).
Qed.

(** A name that [{}] inherits makes the analyzer throw. *)
Lemma analyzeHabitPatterns_inherited_first (e : HabitEntry)
  (rest : list HabitEntry) :
  inherited (name e) = true ->
  analyzeHabitPatterns (e :: rest)
  = Throw "TypeError: habitGroups[entry.name].push is not a function".
Proof.
  intros Hinh. unfold analyzeHabitPatterns. cbn [length Nat.eqb group_habits].
  unfold push_habit. rewrite Hinh. reflexivity.
Qed.

(** *** Streaks and the overall completion rate *)




Lemma sums_bounded (habitData : list HabitEntry) :
  (forall e, In e habitData -> 0 <= completed e <= target e) ->
  0 <= sumZ (map completed habitData) <= sumZ (map target habitData).
Proof.
  induction habitData as [|e rest IH]; intros Hall; simpl; [lia|].
  pose proof (Hall e (or_introl eq_refl)).
  assert (0 <= sumZ (map completed rest) <= sumZ (map target rest))
    by (apply IH; intros e' He'; apply Hall; now right).
  lia.
Qed.

Lemma round_to_unit_interval (q : Q) :
  (0 <= q)%Q -> (q <= 1)%Q ->
  (0 <= round_to 1000 q)%Q /\ (round_to 1000 q <= 1)%Q.
Proof.
  intros H0 H1. unfold round_to.
  destruct (Math_round_times_near q 1000) as [Hlo Hhi].
  set (k := Math_round_times q 1000) in *.
  change (inject_Z 1000) with 1000%Q in *.
  assert (Hk0 : 0 <= k).
  { assert (inject_Z (-1) < inject_Z k)%Q by (change (inject_Z (-1)) with (-1)%Q; lra).
    rewrite <- Zlt_Qlt in H. lia. }
  assert (Hk1 : k <= 1000).
  { assert (inject_Z k < inject_Z 1001)%Q by (change (inject_Z 1001) with 1001%Q; lra).
    rewrite <- Zlt_Qlt in H. lia. }
  rewrite Zle_Qle in Hk0, Hk1.
  change (inject_Z 0) with 0%Q in Hk0. change (inject_Z 1000) with 1000%Q in Hk1.
  clearbody k. split.
  - apply Qle_shift_div_l; lra.
  - apply Qle_shift_div_r; lra.
Qed.

(** C4, as the code has it.  For a habit series that is not empty and
    in which no habit is named like a member of [Object.prototype],
    [overall_completion_rate] is the sum of [completed] over the sum of
    [target], rounded to three decimals: a nearest multiple of 0.001,
    either one when the quotient lies halfway between two; it is 0 when
    the total target is 0 (or negative); and it lies between 0 and 1
    when every entry has [0 <= completed <= target]. *)
Theorem overall_completion_rate_rounded (habitData : list HabitEntry) :
  habitData <> [] ->
  plain_names habitData ->
  let totalCompleted := sumZ (map completed habitData) in
  let totalTarget := sumZ (map target habitData) in
  exists r rate,
    analyzeHabitPatterns habitData = Ok r
    /\ habits_overall_completion_rate r = Some rate
    /\ (0 < totalTarget ->
        rounds_near 1000 (inject_Z totalCompleted / inject_Z totalTarget) rate)
    /\ (totalTarget <= 0 -> (rate == 0)%Q)
    /\ ((forall e, In e habitData -> 0 <= completed e <= target e) ->
        (0 <= rate)%Q /\ (rate <= 1)%Q).
Proof.
  intros Hne Hplain totalCompleted totalTarget.
  destruct (analyzeHabitPatterns_general habitData Hne Hplain)
    as (rates & streaks & most & needs & Hcalc & _).
  eexists _, _. split; [exact Hcalc|]. split; [reflexivity|].
  unfold overall_completion. fold totalCompleted. fold totalTarget.
  split; [|split].
  - intros Hpos. apply Z.ltb_lt in Hpos. rewrite Hpos. apply round_to_near.
  - intros Hzero. apply Z.ltb_ge in Hzero. rewrite Hzero. reflexivity.
  - intros Hall. pose proof (sums_bounded habitData Hall) as Hsum.
    fold totalCompleted in Hsum. fold totalTarget in Hsum.
    apply round_to_unit_interval.
    + destruct (Z.ltb_spec 0 totalTarget) as [Hpos|Hneg]; [|apply Qle_refl].
      apply Qle_shift_div_l.
      * change 0%Q with (inject_Z 0). now rewrite <- Zlt_Qlt.
      * rewrite Qmult_0_l. change 0%Q with (inject_Z 0).
        rewrite <- Zle_Qle. lia.
    + destruct (Z.ltb_spec 0 totalTarget) as [Hpos|Hneg]; [|discriminate].
      apply Qle_shift_div_r.
      * change 0%Q with (inject_Z 0). now rewrite <- Zlt_Qlt.
      * rewrite Qmult_1_l. rewrite <- Zle_Qle. lia.
Qed.

(** The instance of C4 at six daily entries, five of them done. *)
Lemma overall_completion_rate_rounded_witness :
  exists r rate,
    analyzeHabitPatterns (six_days "Hydration") = Ok r
    /\ habits_overall_completion_rate r = Some rate
    /\ rounds_near 1000 (5 # 6) rate
    /\ (0 <= rate)%Q /\ (rate <= 1)%Q.
Proof.
  destruct (overall_completion_rate_rounded (six_days "Hydration"))
    as (r & rate & Hcalc & Hrate & Hround & _ & Hunit).
  - discriminate.
  - intros e He. cbv in He.
    repeat (destruct He as [<-|He]; [reflexivity|]). destruct He.
  - exists r, rate. split; [exact Hcalc|]. split; [exact Hrate|]. split.
    + destruct (Hround ltac:(reflexivity)) as (k & Hk & Hlo & Hhi).
      exists k. split; [exact Hk|]. split; [exact Hlo|exact Hhi].
    + apply Hunit. intros e He. cbv in He.
      repeat (destruct He as [<-|He]; [cbn; lia|]). destruct He.
Defined.

(** C4 as stated fails: one entry with [completed = 1] and [target = 3]
    has the ratio 1/3, and [overall_completion_rate] is 0.333. *)
Lemma overall_completion_rate_not_exact :
  exists r rate,
    analyzeHabitPatterns one_of_three = Ok r
    /\ habits_overall_completion_rate r = Some rate
    /\ (rate == 333 # 1000)%Q
    /\ ~ (rate == inject_Z (sumZ (map completed one_of_three))
                  / inject_Z (sumZ (map target one_of_three)))%Q.
Proof.
  eexists _, _. split; [vm_compute; reflexivity|].
  split; [reflexivity|]. split; [reflexivity|]. discriminate.
Qed.

(** At a tie [overall_completion_rate] follows the double product:
    201 completions out of 400 have the quotient 0.5025, whose product
    with 1000 is 502.49999999999994 in doubles, and the rate is
    0.502. *)
Lemma overall_completion_rate_at_a_tie :
  exists r rate,
    analyzeHabitPatterns bulk_habit = Ok r
    /\ habits_overall_completion_rate r = Some rate
    /\ (rate == 502 # 1000)%Q.
Proof.
  eexists _, _. split; [vm_compute; reflexivity|]. split; reflexivity.
Qed.

(** *** JSON: writing and reading back *)

(** Induction on values, through arrays and objects. *)
Lemma jsval_nested_ind (P : jsval -> Prop)
  (Hundefined : P JUndefined)
  (Hnull : P JNull)
  (Hbool : forall b, P (JBool b))
  (Hnumber : forall n, P (JNumber n))
  (Hstring : forall s, P (JString s))
  (Harray : forall items, Forall P items -> P (JArray items))
  (Hobject : forall props, Forall (fun kv => P (snd kv)) props ->
                           P (JObject props)) :
  forall v, P v.
Proof.
  fix IH 1. intros [| |b|n|s|items|props].
  - exact Hundefined.
  - exact Hnull.
  - apply Hbool.
  - apply Hnumber.
  - apply Hstring.
  - apply Harray. induction items as [|v items IHitems]; constructor.
    + apply IH.
    + exact IHitems.
  - apply Hobject. induction props as [|[k v] props IHprops]; constructor.
    + apply IH.
    + exact IHprops.
Qed.

Lemma json_safe_array_inv items :
  json_safe (JArray items) -> Forall json_safe items.
Proof. now inversion 1. Qed.

Lemma json_safe_object_inv props :
  json_safe (JObject props) ->
  wf_keys (map fst props) /\ Forall (fun kv => json_safe (snd kv)) props.
Proof. now inversion 1. Qed.

(** A safe value is written as a document, and reading the document
    gives the value back. *)
Lemma JSON_roundtrip_safe : forall v,
  json_safe v ->
  exists j, JSON_stringify v = Some j /\ JSON_parse j = v.
Proof.
  induction v as [| |b|n|s|items IHitems|props IHprops] using jsval_nested_ind;
    intros Hsafe.
  - inversion Hsafe.
  - now exists J_null.
  - now exists (J_bool b).
  - inversion Hsafe; subst. now eexists.
  - now exists (J_string s).
  - apply json_safe_array_inv in Hsafe.
    cbn [JSON_stringify]. eexists. split; [reflexivity|].
    cbn [JSON_parse]. f_equal. rewrite map_map.
    induction items as [|v items IH]; [reflexivity|].
    inversion IHitems as [|? ? Hv Hitems]; subst.
    inversion Hsafe as [|? ? Hsv Hsitems]; subst.
    cbn [map]. destruct (Hv Hsv) as (j & Hj & Hparse).
    rewrite Hj, Hparse. f_equal. now apply IH.
  - apply json_safe_object_inv in Hsafe as [Hwf Hsafe].
    cbn [JSON_stringify]. eexists. split; [reflexivity|].
    cbn [JSON_parse]. f_equal.
    match goal with
    | |- define_all (map ?f (?members props)) [] = _ =>
        assert (Hmembers : map f (members props) = props)
    end.
    { clear Hwf. induction props as [|[k v] props IH]; [reflexivity|].
      inversion IHprops as [|? ? Hv Hprops]; subst.
      inversion Hsafe as [|? ? Hsv Hsprops]; subst.
      cbn [snd] in Hv, Hsv. destruct (Hv Hsv) as (j & Hj & Hparse).
      rewrite Hj. cbn [map fst snd]. rewrite Hparse. f_equal.
      now apply IH. }
    rewrite Hmembers. now apply define_all_canonical.
Qed.

(** An [undefined] property is dropped, and a number that is not
    finite is written as [null]. *)
Lemma JSON_stringify_NaN : JSON_stringify (JNumber NaN) = Some J_null.
Proof. reflexivity. Qed.

Lemma JSON_stringify_undefined_property k :
  JSON_stringify (JObject [(k, JUndefined)]) = Some (J_object []).
Proof. reflexivity. Qed.

(** *** The report is written without loss *)

Lemma json_safe_Z z : json_safe (js_of_Z z).
Proof. constructor. Qed.

Lemma json_safe_Q q : json_safe (js_of_Q q).
Proof. constructor. Qed.

Lemma js_of_obj_safe {V} (f : V -> jsval) (o : obj V) :
  wf_keys (Object_keys o) ->
  (forall v, json_safe (f v)) ->
  json_safe (js_of_obj f o).
Proof.
  intros Hwf Hf. unfold js_of_obj. constructor.
  - rewrite map_map. cbn [fst]. exact Hwf.
  - apply Forall_forall. intros kv Hin.
    apply in_map_iff in Hin as (kv' & <- & _). cbn [snd]. apply Hf.
Qed.

Create HintDb json.
#[local] Hint Resolve json_safe_Z json_safe_Q : json.
#[local] Hint Constructors json_safe Forall : json.

(** An object literal: its keys are checked by computation. *)
Ltac safe_literal :=
  apply safe_object;
  [ apply wf_keysb_sound; reflexivity
  | repeat (apply Forall_cons; [cbn [snd]; auto with json|]);
    try apply Forall_nil ].

Lemma json_safe_hour_bucket b : json_safe (js_of_hour_bucket b).
Proof. unfold js_of_hour_bucket. safe_literal. Qed.

Lemma json_safe_subject_bucket b : json_safe (js_of_subject_bucket b).
Proof. unfold js_of_subject_bucket. safe_literal. Qed.

(** **** Study *)

Lemma parseInt_hour h :
  0 <= h < 24 -> exists q, parseInt (Z_toString h) = Fin q.
Proof.
  intros Hh. replace h with (Z.of_nat (Z.to_nat h)) by lia.
  assert (Hn : (Z.to_nat h < 24)%nat) by lia.
  generalize dependent (Z.to_nat h). intros n Hn.
  do 24 (destruct n as [|n]; [eexists; reflexivity|]). lia.
Qed.

Lemma push_hour_keys tz o s :
  Forall hour_key (Object_keys o) ->
  Forall hour_key (Object_keys (push_hour tz o s)).
Proof.
  intros Hall. unfold push_hour. cbv zeta.
  set (hour := Z_toString (getHours tz (timestamp s))).
  assert (Hhour : hour_key hour).
  { apply parseInt_hour. unfold getHours. apply Z.mod_pos_bound. lia. }
  rewrite Forall_forall in Hall.
  destruct (obj_get o hour) as [b|] eqn:Hget.
  - rewrite Hget. apply Forall_forall. intros k Hk.
    apply keys_obj_set in Hk as [->|Hk]; auto.
  - rewrite obj_get_set_same. apply Forall_forall. intros k Hk.
    apply keys_obj_set in Hk as [->|Hk]; [exact Hhour|].
    apply keys_obj_set in Hk as [->|Hk]; auto.
Qed.

Lemma push_hour_wf tz o s :
  wf_keys (Object_keys o) -> wf_keys (Object_keys (push_hour tz o s)).
Proof.
  intros Hwf. unfold push_hour. cbv zeta.
  set (hour := Z_toString (getHours tz (timestamp s))).
  destruct (obj_get o hour) as [b|] eqn:Hget.
  - rewrite Hget. now apply wf_obj_set.
  - rewrite obj_get_set_same. now apply wf_obj_set, wf_obj_set.
Qed.

Lemma push_subject_wf o s :
  wf_keys (Object_keys o) -> wf_keys (Object_keys (push_subject o s)).
Proof.
  intros Hwf. unfold push_subject.
  destruct (inherited (subject s)); [exact Hwf|]. cbv zeta.
  destruct (obj_get o (subject s)) as [b|] eqn:Hget.
  - rewrite Hget. now apply wf_obj_set.
  - rewrite obj_get_set_same. now apply wf_obj_set, wf_obj_set.
Qed.

Lemma fold_invariant {A S} (P : S -> Prop) (step : S -> A -> S) (l : list A) :
  (forall s a, P s -> P (step s a)) ->
  forall s, P s -> P (fold_left step l s).
Proof.
  intros Hstep. induction l as [|a l IH]; intros s Hs; cbn [fold_left]; auto.
Qed.

Lemma fold_best_hour_finite o keys : forall st,
  Forall hour_key keys ->
  finite_hour (fst st) ->
  finite_hour (fst (fold_left (best_hour_step o) keys st)).
Proof.
  induction keys as [|k keys IH]; intros st Hkeys Hst; cbn [fold_left];
    [exact Hst|].
  inversion Hkeys as [|? ? (q & Hq) Hrest]; subst.
  apply IH; [exact Hrest|].
  unfold best_hour_step. destruct st as [bestHour bestRate].
  destruct (obj_get o k) as [b|]; [|exact Hst].
  destruct (negb _); [|exact Hst].
  cbn [fst]. right. rewrite Hq. eauto.
Qed.

Lemma analyzeStudyPerformance_safe tz (studyData : list StudySession) :
  json_safe (js_of_study (analyzeStudyPerformance tz studyData)).
Proof.
  unfold analyzeStudyPerformance.
  destruct (length studyData =? 0)%nat.
  - cbn [js_of_study]. safe_literal.
  - cbv zeta.
    set (hourlyData := fold_left (push_hour tz) studyData []).
    assert (Hwf : wf_keys (Object_keys hourlyData))
      by (apply (fold_invariant (fun o => wf_keys (Object_keys o)));
          [intros; now apply push_hour_wf|exact I]).
    assert (Hkeys : Forall hour_key (Object_keys hourlyData))
      by (apply (fold_invariant (fun o => Forall hour_key (Object_keys o)));
          [intros; now apply push_hour_keys|constructor]).
    pose proof (fold_best_hour_finite hourlyData (Object_keys hourlyData)
                  (None, 0%Q) Hkeys (or_introl eq_refl)) as Hbest.
    destruct (fold_left (best_hour_step hourlyData) (Object_keys hourlyData)
                (None, 0%Q)) as [bestHour bestRate].
    cbn [fst] in Hbest.
    assert (Hsub : wf_keys (Object_keys (fold_left push_subject studyData [])))
      by (apply (fold_invariant (fun o => wf_keys (Object_keys o)));
          [intros; now apply push_subject_wf|exact I]).
    cbn [js_of_study].
    apply safe_object; [apply wf_keysb_sound; reflexivity|].
    repeat (apply Forall_cons; [cbn [snd]; auto with json|]);
      try apply Forall_nil.
    + destruct Hbest as [->|(q & ->)]; constructor.
    + apply js_of_obj_safe; [exact Hwf|apply json_safe_hour_bucket].
    + apply js_of_obj_safe; [exact Hsub|apply json_safe_subject_bucket].
Qed.

(** **** Mood *)

Lemma trend_finite (ys : list Z) :
  (2 <= length ys)%nat ->
  js_div (Fin (inject_Z (ols_num ys))) (Fin (inject_Z (ols_den (length ys))))
  = Fin (ols_slope ys).
Proof.
  intros Hlen. apply js_div_pos. change 0%Q with (inject_Z 0).
  rewrite <- Zlt_Qlt. now apply ols_den_pos.
Qed.

Lemma calculateMoodInsights_safe tz (moodData : list MoodEntry) m :
  calculateMoodInsights tz moodData = Ok m ->
  length moodData <> 1%nat ->
  mood_trend_slope m <> Some NegZero ->
  json_safe (js_of_mood m).
Proof.
  intros Hcalc Hlen Hsigned.
  destruct moodData as [|e rest] eqn:Hdata.
  - injection Hcalc as <-. cbn [js_of_mood]. safe_literal.
  - rewrite <- Hdata in *.
    assert (Hne : moodData <> []) by (subst; discriminate).
    assert (Hlen2 : (2 <= length (levels moodData))%nat).
    { unfold levels. rewrite length_map. subst moodData.
      destruct rest; [exfalso; apply Hlen; reflexivity|cbn [length]; lia]. }
    destruct (calculateMoodInsights_shape tz moodData Hne)
      as (variance & best & worst & patterns & Hshape & _ & Hwf).
    cbv zeta in Hshape. rewrite (trend_finite _ Hlen2) in Hshape.
    rewrite Hshape in Hcalc. apply Ok_inj in Hcalc. subst m.
    cbn [mood_trend_slope] in Hsigned.
    destruct (rounded_slope (ols_slope (levels moodData)))
      as (v & _ & _ & _ & Hfin).
    cbv zeta in Hfin. rewrite Hfin by congruence.
    cbn [js_of_mood].
    apply safe_object; [apply wf_keysb_sound; reflexivity|].
    repeat (apply Forall_cons; [cbn [snd]; auto with json|]);
      try apply Forall_nil.
    apply js_of_obj_safe; [exact Hwf|apply json_safe_Q].
Qed.

(** **** Habits *)

Lemma analyzeHabitPatterns_safe (habitData : list HabitEntry) h :
  analyzeHabitPatterns habitData = Ok h -> json_safe (js_of_habits h).
Proof.
  intros Hcalc.
  pose proof (analyzeHabitPatterns_plain habitData h Hcalc) as Hplain.
  destruct habitData as [|e rest] eqn:Hdata.
  - injection Hcalc as <-. cbn [js_of_habits].
    apply safe_object; [apply wf_keysb_sound; reflexivity|].
    repeat (apply Forall_cons; [cbn [snd]; auto with json|]);
      try apply Forall_nil; apply js_of_obj_safe; auto with json; exact I.
  - rewrite <- Hdata in *.
    assert (Hne : habitData <> []) by (subst; discriminate).
    destruct (analyzeHabitPatterns_shape habitData Hne Hplain)
      as (rates & streaks & most & needs & Hshape & _ & Hwf1 & Hwf2).
    rewrite Hshape in Hcalc. injection Hcalc as <-.
    cbn [js_of_habits].
    apply safe_object; [apply wf_keysb_sound; reflexivity|].
    repeat (apply Forall_cons; [cbn [snd]; auto with json|]);
      try apply Forall_nil; apply js_of_obj_safe; auto with json.
Qed.

(** **** The whole report *)

Lemma createWellnessReport_inv tz toISOString clock userId days data report :
  createWellnessReport tz toISOString clock userId days data = Ok report ->
  exists m h,
    calculateMoodInsights tz (mood_data data) = Ok m
    /\ analyzeHabitPatterns (habit_data data) = Ok h
    /\ insights report =
         mkInsights (Some m) (Some h)
                    (Some (analyzeStudyPerformance tz (study_data data)))
    /\ recommendations report = generateRecommendations (insights report).
Proof.
  unfold createWellnessReport.
  destruct (calculateMoodInsights tz (mood_data data)) as [m|]; [|discriminate].
  destruct (analyzeHabitPatterns (habit_data data)) as [h|]; [|discriminate].
  cbn [bind]. intros [= <-]. exists m, h. cbn. auto.
Qed.

Lemma createWellnessReport_safe tz toISOString clock userId days data report :
  createWellnessReport tz toISOString clock userId days data = Ok report ->
  length (mood_data data) <> 1%nat ->
  (forall m, mood (insights report) = Some m ->
             mood_trend_slope m <> Some NegZero) ->
  json_safe (js_of_report report).
Proof.
  intros Hreport Hlen Hsigned.
  destruct (createWellnessReport_inv _ _ _ _ _ _ _ Hreport)
    as (m & h & Hm & Hh & Hins & _).
  assert (Hm0 : mood_trend_slope m <> Some NegZero)
    by (apply Hsigned; now rewrite Hins).
  unfold js_of_report, js_of_insights. rewrite Hins. cbn [mood habits study js_of_option].
  apply safe_object; [apply wf_keysb_sound; reflexivity|].
  repeat (apply Forall_cons; [cbn [snd]; auto with json|]);
    try apply Forall_nil.
  - safe_literal.
  - apply safe_object; [apply wf_keysb_sound; reflexivity|].
    repeat (apply Forall_cons; [cbn [snd]; auto with json|]);
      try apply Forall_nil.
    + now apply (calculateMoodInsights_safe tz (mood_data data)).
    + now apply (analyzeHabitPatterns_safe (habit_data data)).
    + apply analyzeStudyPerformance_safe.
  - constructor. apply Forall_forall. intros v Hv.
    apply in_map_iff in Hv as (s & <- & _). constructor.
  - safe_literal.
Qed.

(** *** Reading back a report with numbers that are no rationals *)

Lemma json_writable_array_inv items :
  json_writable (JArray items) -> Forall json_writable items.
Proof. now inversion 1. Qed.

Lemma json_writable_object_inv props :
  json_writable (JObject props) ->
  wf_keys (map fst props) /\ Forall (fun kv => json_writable (snd kv)) props.
Proof. now inversion 1. Qed.

Lemma nulled_members_keys (props : list (string * jsval)) :
  map fst
    ((fix members (props : list (string * jsval)) :=
        match props with
        | [] => []
        | (k, v') :: rest => (k, nulled v') :: members rest
        end) props)
  = map fst props.
Proof.
  induction props as [|[k v] props IH]; [reflexivity|].
  cbn [map fst]. now rewrite IH.
Qed.

(** A writable value is written as a document, and reading the
    document gives the value with [null] for each number that is not
    finite. *)
Lemma JSON_roundtrip_writable : forall v,
  json_writable v ->
  exists j, JSON_stringify v = Some j /\ JSON_parse j = nulled v.
Proof.
  induction v as [| |b|n|s|items IHitems|props IHprops] using jsval_nested_ind;
    intros Hw.
  - inversion Hw.
  - now exists J_null.
  - now exists (J_bool b).
  - destruct n; now eexists.
  - now exists (J_string s).
  - apply json_writable_array_inv in Hw.
    cbn [JSON_stringify]. eexists. split; [reflexivity|].
    cbn [JSON_parse nulled]. f_equal. rewrite map_map.
    induction items as [|v items IH]; [reflexivity|].
    inversion IHitems as [|? ? Hv Hitems]; subst.
    inversion Hw as [|? ? Hwv Hwitems]; subst.
    cbn [map]. destruct (Hv Hwv) as (j & Hj & Hparse).
    rewrite Hj, Hparse. f_equal. now apply IH.
  - apply json_writable_object_inv in Hw as [Hwf Hw].
    cbn [JSON_stringify]. eexists. split; [reflexivity|].
    cbn [JSON_parse nulled]. f_equal.
    match goal with
    | |- define_all (map ?f (?members props)) [] = ?target props =>
        assert (Hmembers : map f (members props) = target props)
    end.
    { clear Hwf. induction props as [|[k v] props IH]; [reflexivity|].
      inversion IHprops as [|? ? Hv Hprops]; subst.
      inversion Hw as [|? ? Hwv Hwprops]; subst.
      cbn [snd] in Hv, Hwv. destruct (Hv Hwv) as (j & Hj & Hparse).
      rewrite Hj. cbn [map fst snd]. rewrite Hparse. f_equal.
      now apply IH. }
    rewrite Hmembers. apply define_all_canonical.
    unfold Object_keys. now rewrite nulled_members_keys.
Qed.

Lemma json_safe_writable : forall v, json_safe v -> json_writable v.
Proof.
  induction v as [| |b|n|s|items IHitems|props IHprops] using jsval_nested_ind;
    intros Hsafe; try (now constructor).
  - inversion Hsafe.
  - apply json_safe_array_inv in Hsafe. constructor.
    rewrite Forall_forall in *. auto.
  - apply json_safe_object_inv in Hsafe as [Hwf Hsafe]. constructor; [exact Hwf|].
    rewrite Forall_forall in *. auto.
Qed.

Lemma nulled_safe : forall v, json_safe v -> nulled v = v.
Proof.
  induction v as [| |b|n|s|items IHitems|props IHprops] using jsval_nested_ind;
    intros Hsafe; try reflexivity.
  - inversion Hsafe; subst. reflexivity.
  - apply json_safe_array_inv in Hsafe. cbn [nulled]. f_equal.
    induction items as [|v items IH]; [reflexivity|].
    inversion IHitems; subst. inversion Hsafe; subst.
    cbn [map]. f_equal; auto.
  - apply json_safe_object_inv in Hsafe as [_ Hsafe]. cbn [nulled]. f_equal.
    induction props as [|[k v] props IH]; [reflexivity|].
    inversion IHprops as [|? ? Hv Hprops]; subst.
    inversion Hsafe as [|? ? Hsv Hsprops]; subst.
    cbn [snd] in Hv, Hsv. rewrite (Hv Hsv). f_equal. now apply IH.
Qed.

Lemma calculateMoodInsights_writable tz (moodData : list MoodEntry) m :
  calculateMoodInsights tz moodData = Ok m -> json_writable (js_of_mood m).
Proof.
  intros Hcalc.
  destruct moodData as [|e rest] eqn:Hdata.
  - injection Hcalc as <-. apply json_safe_writable. cbn [js_of_mood].
    safe_literal.
  - rewrite <- Hdata in *.
    assert (Hne : moodData <> []) by (subst; discriminate).
    destruct (calculateMoodInsights_shape tz moodData Hne)
      as (variance & best & worst & patterns & Hshape & _ & Hwf).
    cbv zeta in Hshape. rewrite Hshape in Hcalc. injection Hcalc as <-.
    cbn [js_of_mood].
    apply writable_object; [apply wf_keysb_sound; reflexivity|].
    repeat (apply Forall_cons;
            [cbn [snd];
             first [apply writable_number
                   |apply json_safe_writable; auto with json]|]);
      try apply Forall_nil.
    apply js_of_obj_safe; [exact Hwf|apply json_safe_Q].
Qed.

Lemma createWellnessReport_writable
  tz toISOString clock userId days data report :
  createWellnessReport tz toISOString clock userId days data = Ok report ->
  json_writable (js_of_report report).
Proof.
  intros Hreport.
  destruct (createWellnessReport_inv _ _ _ _ _ _ _ Hreport)
    as (m & h & Hm & Hh & Hins & _).
  unfold js_of_report, js_of_insights. rewrite Hins.
  cbn [mood habits study js_of_option].
  apply writable_object; [apply wf_keysb_sound; reflexivity|].
  repeat (apply Forall_cons; [cbn [snd]|]); try apply Forall_nil.
  - constructor.
  - apply json_safe_writable. safe_literal.
  - apply writable_object; [apply wf_keysb_sound; reflexivity|].
    repeat (apply Forall_cons; [cbn [snd]|]); try apply Forall_nil.
    + now apply (calculateMoodInsights_writable tz (mood_data data)).
    + apply json_safe_writable.
      now apply (analyzeHabitPatterns_safe (habit_data data)).
    + apply json_safe_writable, analyzeStudyPerformance_safe.
  - constructor. apply Forall_forall. intros v Hv.
    apply in_map_iff in Hv as (s & <- & _). constructor.
  - constructor.
  - apply json_safe_writable. safe_literal.
Qed.

Lemma negative_zero_slope_read_back (report : Report) m h s :
  insights report = mkInsights (Some m) (Some h) (Some s) ->
  mood_trend_slope m = Some NegZero ->
  js_path ["insights"; "mood"; "trend_slope"]%string (js_of_report report)
  = Some (JNumber NegZero)
  /\ js_path ["insights"; "mood"; "trend_slope"]%string
             (nulled (js_of_report report))
     = Some (JNumber (Fin 0)).
Proof.
  intros Hins Hslope.
  destruct m as [average trend volatility
                |average trend slope volatility best worst patterns];
    cbn [mood_trend_slope] in Hslope; [discriminate|].
  assert (Hs : slope = NegZero) by congruence. subst slope.
  unfold js_of_report, js_of_insights. rewrite Hins.
  split; reflexivity.
Qed.

(** [createWellnessReport] returns when the habit names are ordinary
    keys. *)
Lemma createWellnessReport_returns tz toISOString clock userId days data :
  plain_names (habit_data data) ->
  exists report,
    createWellnessReport tz toISOString clock userId days data = Ok report.
Proof.
  intros Hplain. unfold createWellnessReport.
  destruct (calculateMoodInsights_total tz (mood_data data)) as [m Hm].
  rewrite Hm. cbn [bind].
  destruct (habit_data data) as [|e rest] eqn:Hdata.
  - cbn. eauto.
  - destruct (analyzeHabitPatterns_general (e :: rest) ltac:(discriminate) Hplain)
      as (rates & streaks & most & needs & Hh & _).
    rewrite Hh. cbn [bind]. eauto.
Qed.

(** C9, as the code has it.  For every assembled report on data as
    the application records them, whose mood series does not consist
    of exactly one entry, the JSON export is written.  Reading it back
    yields the report when [trend_slope] is not the negative zero:
    every number of the report is then finite and no property is
    [undefined].  When [trend_slope] is the negative zero, it is
    written as [0] and read back as the positive zero, and the value
    read back differs from the report. *)
Theorem json_export_roundtrip
  (tz : Z -> Z) (toISOString : Z -> string) (clock : Clock)
  (userId : string) (days : Z) (data : UserData) (report : Report)
  (today : string) (outputPath : option string) :
  createWellnessReport tz toISOString clock userId days data = Ok report ->
  natural_data data ->
  length (mood_data data) <> 1%nat ->
  exists document,
    snd (exportReportJSON today report outputPath) = Some document
    /\ ((forall m, mood (insights report) = Some m ->
                   mood_trend_slope m <> Some NegZero) ->
        JSON_parse document = js_of_report report)
    /\ (forall m, mood (insights report) = Some m ->
                  mood_trend_slope m = Some NegZero ->
        js_path ["insights"; "mood"; "trend_slope"]%string
                (js_of_report report) = Some (JNumber NegZero)
        /\ js_path ["insights"; "mood"; "trend_slope"]%string
                   (JSON_parse document) = Some (JNumber (Fin 0))
        /\ JSON_parse document <> js_of_report report).
Proof.
  intros Hreport _ Hlen. unfold exportReportJSON. cbn [snd].
  destruct (JSON_roundtrip_writable (js_of_report report))
    as (document & Hdoc & Hparse);
    [now apply (createWellnessReport_writable tz toISOString clock userId
                  days data)|].
  exists document. split; [exact Hdoc|]. split.
  - intros Hsigned. rewrite Hparse. apply nulled_safe.
    now apply (createWellnessReport_safe tz toISOString clock userId days data).
  - intros m Hm Hslope.
    destruct (createWellnessReport_inv _ _ _ _ _ _ _ Hreport)
      as (m' & h & _ & _ & Hins & _).
    rewrite Hins in Hm. cbn [mood] in Hm.
    assert (Heq : m' = m) by congruence. subst m'.
    destruct (negative_zero_slope_read_back report m h _ Hins Hslope)
      as [Hbefore Hafter].
    rewrite Hparse. split; [exact Hbefore|]. split; [exact Hafter|].
    intros Heq. rewrite Heq in Hafter. rewrite Hbefore in Hafter. discriminate.
Qed.

(** The instance of C9 at a three-day window. *)
Lemma json_export_roundtrip_witness :
  exists report document,
    createWellnessReport utc epoch_iso epoch_clock "test_user_1" 3 three_days
    = Ok report
    /\ snd (exportReportJSON "1970-01-01" report None) = Some document
    /\ JSON_parse document = js_of_report report.
Proof.
  destruct (createWellnessReport utc epoch_iso epoch_clock "test_user_1" 3
              three_days) as [report|msg] eqn:Hreport;
    [|vm_compute in Hreport; discriminate].
  destruct (json_export_roundtrip utc epoch_iso epoch_clock "test_user_1" 3
              three_days report "1970-01-01" None Hreport)
    as (document & Hdoc & Hparse & _).
  - split; [|split]; intros e He; cbv in He;
      repeat (destruct He as [<-|He]; [cbn; lia|]); destruct He.
  - discriminate.
  - exists report, document. split; [reflexivity|]. split; [exact Hdoc|].
    apply Hparse. intros m Hm.
    destruct (createWellnessReport_inv _ _ _ _ _ _ _ Hreport)
      as (m' & h & Hm' & _ & Hins & _).
    rewrite Hins in Hm. cbn [mood] in Hm.
    assert (Heq : m' = m) by congruence. subst m'.
    vm_compute in Hm'. apply Ok_inj in Hm'. subst m. discriminate.
Defined.

(** C9 as stated fails: with a single mood entry the regression
    divides 0 by 0, [trend_slope] is [NaN], the export writes [null]
    for it, and reading the export back yields [null], not [NaN]. *)
Lemma json_export_loses_NaN :
  exists report document,
    createWellnessReport utc epoch_iso epoch_clock "test_user_1" 0 single_day
    = Ok report
    /\ snd (exportReportJSON "1970-01-01" report None) = Some document
    /\ js_path ["insights"; "mood"; "trend_slope"]%string (js_of_report report)
       = Some (JNumber NaN)
    /\ js_path ["insights"; "mood"; "trend_slope"]%string (JSON_parse document)
       = Some JNull
    /\ JSON_parse document <> js_of_report report.
Proof.
  eexists _, _. split; [vm_compute; reflexivity|].
  split; [vm_compute; reflexivity|].
  split; [reflexivity|]. split; [reflexivity|].
  intros H.
  apply (f_equal (js_path ["insights"; "mood"; "trend_slope"]%string)) in H.
  vm_compute in H. discriminate H.
Qed.

(** ** Part III: further properties of the analyzer *)

(** *** [calculateTrend] on arbitrary points *)

Lemma inject_Z_eq_0 (z : Z) : (inject_Z z == 0)%Q -> z = 0.
Proof. unfold Qeq. simpl. lia. Qed.

Lemma calculateTrend_quotient (data : list Point) :
  calculateTrend data
  = js_div (Fin (inject_Z (trend_num data))) (Fin (inject_Z (trend_den data))).
Proof.
  unfold calculateTrend. cbv zeta.
  rewrite (fold_left_Zplus x data 0), (fold_left_Zplus y data 0),
    (fold_left_Zplus (fun p => x p * y p) data 0),
    (fold_left_Zplus (fun p => x p * x p) data 0), !Z.add_0_l.
  reflexivity.
Qed.

(** [n] times the denominator is a sum of squares. *)
Lemma sum_centered_squares (n s : Z) (data : list Point) :
  sumZ (map (fun p => (n * x p - s) * (n * x p - s)) data)
  = n * n * Sxx data - 2 * n * s * Sx data + Z.of_nat (length data) * s * s.
Proof.
  unfold Sxx, Sx. induction data as [|p data IH].
  - simpl. ring.
  - cbn [map sumZ fold_right length]. fold (sumZ (map (fun p => (n * x p - s) * (n * x p - s)) data)).
    fold (sumZ (map (fun p => x p * x p) data)). fold (sumZ (map x data)).
    rewrite IH, Nat2Z.inj_succ. ring.
Qed.

Lemma trend_den_squares (data : list Point) :
  Z.of_nat (length data) * trend_den data
  = sumZ (map (fun p => (Z.of_nat (length data) * x p - Sx data)
                        * (Z.of_nat (length data) * x p - Sx data)) data).
Proof. rewrite sum_centered_squares. unfold trend_den. ring. Qed.

Lemma sumZ_squares_zero {A} (g : A -> Z) (l : list A) :
  sumZ (map (fun a => g a * g a) l) = 0 -> forall a, In a l -> g a = 0.
Proof.
  induction l as [|a0 l IH]; intros Hsum a Hin; [destruct Hin|].
  cbn [map sumZ fold_right] in Hsum.
  fold (sumZ (map (fun a => g a * g a) l)) in Hsum.
  assert (Hnn : 0 <= sumZ (map (fun a => g a * g a) l)).
  { clear. induction l as [|a l IH]; simpl; [lia|].
    fold (sumZ (map (fun a => g a * g a) l)). nia. }
  assert (H0 : g a0 * g a0 = 0 /\ sumZ (map (fun a => g a * g a) l) = 0) by nia.
  destruct Hin as [<-|Hin]; [nia|]. apply IH; tauto.
Qed.

Lemma trend_den_zero_same_x (data : list Point) :
  trend_den data = 0 -> same_x data.
Proof.
  intros Hden p q Hp Hq.
  pose proof (trend_den_squares data) as Hsq. rewrite Hden, Z.mul_0_r in Hsq.
  symmetry in Hsq.
  pose proof (sumZ_squares_zero
                (fun p => Z.of_nat (length data) * x p - Sx data) data Hsq)
    as Hall.
  pose proof (Hall p Hp) as H1. pose proof (Hall q Hq) as H2. cbv beta in H1, H2.
  assert (Hn : 0 < Z.of_nat (length data))
    by (destruct data; [destruct Hp|cbn [length]; lia]).
  nia.
Qed.

Lemma same_x_sums (data : list Point) (c : Z) :
  (forall p, In p data -> x p = c) ->
  Sx data = Z.of_nat (length data) * c
  /\ Sxx data = Z.of_nat (length data) * (c * c)
  /\ Sxy data = c * Sy data.
Proof.
  unfold Sx, Sxx, Sxy, Sy. induction data as [|p data IH]; intros Hall.
  - simpl. lia.
  - destruct IH as (H1 & H2 & H3); [intros q Hq; apply Hall; now right|].
    cbn [map sumZ fold_right length].
    fold (sumZ (map x data)). fold (sumZ (map (fun p => x p * x p) data)).
    fold (sumZ (map (fun p => x p * y p) data)). fold (sumZ (map y data)).
    rewrite H1, H2, H3, (Hall p (or_introl eq_refl)), Nat2Z.inj_succ.
    repeat split; ring.
Qed.

Lemma same_x_trend_zero (data : list Point) :
  same_x data -> trend_num data = 0 /\ trend_den data = 0.
Proof.
  intros Hsame. destruct data as [|p0 rest] eqn:Hdata; [now cbv|].
  rewrite <- Hdata in *.
  destruct (same_x_sums data (x p0)) as (H1 & H2 & H3).
  { intros q Hq. apply Hsame; [exact Hq|]. subst data. now left. }
  unfold trend_num, trend_den. rewrite H1, H2, H3. split; ring.
Qed.

Lemma sumZ_squares_nonneg {A} (g : A -> Z) (l : list A) :
  0 <= sumZ (map (fun a => g a * g a) l).
Proof.
  induction l as [|a l IH]; simpl; [lia|].
  fold (sumZ (map (fun a => g a * g a) l)). nia.
Qed.

Lemma trend_den_nonneg (data : list Point) : 0 <= trend_den data.
Proof.
  pose proof (trend_den_squares data) as Hsq.
  assert (Hnn : 0 <= Z.of_nat (length data) * trend_den data).
  { rewrite Hsq.
    apply (sumZ_squares_nonneg
             (fun p => Z.of_nat (length data) * x p - Sx data)). }
  destruct data as [|p rest]; [now cbv|].
  cbn [length] in Hnn. rewrite Nat2Z.inj_succ in Hnn.
  cbn [length]. nia.
Qed.

Lemma calculateTrend_cases (data : list Point) :
  (calculateTrend data = NaN <-> same_x data)
  /\ (~ same_x data ->
      trend_den data <> 0
      /\ calculateTrend data
         = Fin (inject_Z (trend_num data) / inject_Z (trend_den data)))
  /\ calculateTrend data <> PosInf
  /\ calculateTrend data <> NegInf.
Proof.
  rewrite calculateTrend_quotient.
  assert (Hfin : trend_den data <> 0 ->
            js_div (Fin (inject_Z (trend_num data)))
                   (Fin (inject_Z (trend_den data)))
            = Fin (inject_Z (trend_num data) / inject_Z (trend_den data))).
  { intros Hden. apply js_div_pos. pose proof (trend_den_nonneg data).
    change 0%Q with (inject_Z 0). rewrite <- Zlt_Qlt. lia. }
  assert (Hnan : same_x data ->
            js_div (Fin (inject_Z (trend_num data)))
                   (Fin (inject_Z (trend_den data))) = NaN).
  { intros Hsame. destruct (same_x_trend_zero data Hsame) as [-> ->].
    reflexivity. }
  assert (Hdec : same_x data \/ trend_den data <> 0).
  { destruct (Z.eq_dec (trend_den data) 0) as [H0|H0]; [left|now right].
    now apply trend_den_zero_same_x. }
  split; [split|split; [|split]].
  - intros H. destruct Hdec as [Hs|Hd]; [exact Hs|].
    rewrite (Hfin Hd) in H. discriminate.
  - exact Hnan.
  - intros Hns. destruct Hdec as [Hs|Hd]; [contradiction|]. auto.
  - destruct Hdec as [Hs|Hd]; [rewrite (Hnan Hs)|rewrite (Hfin Hd)]; discriminate.
  - destruct Hdec as [Hs|Hd]; [rewrite (Hnan Hs)|rewrite (Hfin Hd)]; discriminate.
Qed.

(** X1.  On points whose sums and products keep to [2^53], where the
    doubles of the code are exact, [calculateTrend] returns [NaN]
    exactly when all points share one abscissa, which includes the
    empty list and a single point; otherwise it returns the quotient
    of the least-squares formula, a finite number; it returns no
    infinity. *)
Theorem calculateTrend_NaN_iff_same_x (data : list Point) :
  exact_trend data ->
  (calculateTrend data = NaN <-> same_x data)
  /\ (~ same_x data ->
      0 < trend_den data
      /\ calculateTrend data
         = Fin (inject_Z (trend_num data) / inject_Z (trend_den data)))
  /\ calculateTrend data <> PosInf
  /\ calculateTrend data <> NegInf
  /\ calculateTrend data <> NegZero.
Proof.
  intros _.
  destruct (calculateTrend_cases data) as (Hnan & Hfin & Hpos & Hneg).
  split; [exact Hnan|]. split.
  - intros Hns. destruct (Hfin Hns) as [Hden Hcalc].
    pose proof (trend_den_nonneg data). split; [lia|exact Hcalc].
  - split; [exact Hpos|]. split; [exact Hneg|].
    destruct (Z.eq_dec (trend_den data) 0) as [H0|H0].
    + apply trend_den_zero_same_x, Hnan in H0. rewrite H0. discriminate.
    + assert (Hns : ~ same_x data).
      { intros Hs. destruct (same_x_trend_zero data Hs) as [_ Hd]. contradiction. }
      destruct (Hfin Hns) as [_ ->]. discriminate.
Qed.

(** The instance of X1 at the two points (0,1) and (1,2). *)
Lemma calculateTrend_NaN_iff_same_x_witness :
  0 < trend_den [mkPoint 0 1; mkPoint 1 2]
  /\ calculateTrend [mkPoint 0 1; mkPoint 1 2]
     = Fin (inject_Z (trend_num [mkPoint 0 1; mkPoint 1 2])
            / inject_Z (trend_den [mkPoint 0 1; mkPoint 1 2])).
Proof.
  apply (proj1 (proj2 (calculateTrend_NaN_iff_same_x
                         [mkPoint 0 1; mkPoint 1 2]
                         ltac:(unfold exact_trend, max_exact; cbn; lia)))).
  intros Hsame.
  specialize (Hsame (mkPoint 0 1) (mkPoint 1 2)
                (or_introl eq_refl) (or_intror (or_introl eq_refl))).
  discriminate Hsame.
Defined.

Lemma calculateTrend_on_line (data : list Point) (a b : Z) :
  (forall p, In p data -> y p = a + b * x p) ->
  ~ same_x data ->
  exists q, calculateTrend data = Fin q /\ (q == inject_Z b)%Q.
Proof.
  intros Hline Hns.
  destruct (calculateTrend_cases data) as (_ & Hfin & _).
  destruct (Hfin Hns) as [Hden Hcalc].
  eexists. split; [exact Hcalc|].
  assert (Hy : Sy data = Z.of_nat (length data) * a + b * Sx data
               /\ Sxy data = a * Sx data + b * Sxx data).
  { clear Hns Hfin Hden Hcalc. unfold Sy, Sx, Sxy, Sxx.
    induction data as [|p data IH]; [simpl; lia|].
    destruct IH as [H1 H2]; [intros q Hq; apply Hline; now right|].
    cbn [map sumZ fold_right length].
    fold (sumZ (map x data)). fold (sumZ (map (fun p => x p * x p) data)).
    fold (sumZ (map (fun p => x p * y p) data)). fold (sumZ (map y data)).
    rewrite H1, H2, (Hline p (or_introl eq_refl)), Nat2Z.inj_succ.
    split; ring. }
  destruct Hy as [Hsy Hsxy].
  assert (Hnum : trend_num data = b * trend_den data).
  { unfold trend_num, trend_den. rewrite Hsy, Hsxy. ring. }
  rewrite Hnum, inject_Z_mult.
  field. intros H0. apply inject_Z_eq_0 in H0. contradiction.
Qed.

(** X2.  On points that lie on a line [y = a + b * x], not all over one
    abscissa, and whose sums and products keep to [2^53], where the
    doubles of the code are exact, [calculateTrend] returns the slope
    [b] of the line. *)
Theorem calculateTrend_linear (data : list Point) (a b : Z) :
  exact_trend data ->
  (forall p, In p data -> y p = a + b * x p) ->
  ~ same_x data ->
  exists q, calculateTrend data = Fin q /\ (q == inject_Z b)%Q.
Proof. intros _. exact (calculateTrend_on_line data a b). Qed.

(** The instance of X2 at three points of the line [y = 5 - 2 * x]. *)
Lemma calculateTrend_linear_witness :
  exists q,
    calculateTrend [mkPoint 0 5; mkPoint 1 3; mkPoint 3 (-1)] = Fin q
    /\ (q == inject_Z (-2))%Q.
Proof.
  apply (calculateTrend_linear [mkPoint 0 5; mkPoint 1 3; mkPoint 3 (-1)] 5 (-2)).
  - unfold exact_trend, max_exact. cbn. lia.
  - intros p [<-|[<-|[<-|[]]]]; reflexivity.
  - intros Hsame.
    specialize (Hsame (mkPoint 0 5) (mkPoint 1 3)
                  (or_introl eq_refl) (or_intror (or_introl eq_refl))).
    discriminate Hsame.
Defined.

(** *** More on rounding *)

Lemma Qround_half_up_Z (k : Z) : Qround_half_up (inject_Z k) = k.
Proof.
  destruct (Qround_half_up_bounds (inject_Z k)) as [Hlo Hhi].
  set (r := Qround_half_up (inject_Z k)) in *.
  assert (H1 : (inject_Z r < inject_Z (k + 1))%Q)
    by (rewrite inject_Z_plus; change (inject_Z 1) with 1%Q; lra).
  assert (H2 : (inject_Z k < inject_Z (r + 1))%Q)
    by (rewrite inject_Z_plus; change (inject_Z 1) with 1%Q; lra).
  rewrite <- Zlt_Qlt in H1, H2. lia.
Qed.

Lemma Qround_half_up_le (p q : Q) :
  (p <= q)%Q -> Qround_half_up p <= Qround_half_up q.
Proof. intros H. unfold Qround_half_up. apply Qfloor_resp_le. lra. Qed.

(** Rounding is exact on the multiples of [1 / scale]. *)
Lemma Math_round_times_integer (scale k : Z) (q : Q) :
  (q * inject_Z scale == inject_Z k)%Q -> Math_round_times q scale = k.
Proof.
  intros Hq.
  destruct (Math_round_times_cases q scale) as [->|[Htie _]].
  - now rewrite (Qround_half_up_comp _ _ Hq), Qround_half_up_Z.
  - exfalso. rewrite (Qfloor_comp _ _ Hq), Qfloor_Z, Hq in Htie.
    revert Htie. unfold Qeq. simpl. lia.
Qed.

Lemma round_to_exact (scale k : Z) (q : Q) :
  0 < scale ->
  (q * inject_Z scale == inject_Z k)%Q ->
  (round_to scale q == q)%Q.
Proof.
  intros Hs Hq. unfold round_to.
  rewrite (Math_round_times_integer scale k q Hq), <- Hq.
  field. intros H0. apply inject_Z_eq_0 in H0. lia.
Qed.

Lemma round_to_integer (scale z : Z) :
  0 < scale -> (round_to scale (inject_Z z) == inject_Z z)%Q.
Proof.
  intros Hs. apply (round_to_exact scale (z * scale)); [exact Hs|].
  now rewrite inject_Z_mult.
Qed.

(** Rounding is monotone, whichever way the ties go. *)
Lemma Math_round_times_le (scale : Z) (p q : Q) :
  0 < scale -> (p <= q)%Q ->
  Math_round_times p scale <= Math_round_times q scale.
Proof.
  intros Hs Hpq.
  assert (Hpos : (0 < inject_Z scale)%Q)
    by (change 0%Q with (inject_Z 0); now rewrite <- Zlt_Qlt).
  apply Qle_lt_or_eq in Hpq as [Hlt|Heq];
    [|rewrite (Math_round_times_comp p q scale Heq); lia].
  destruct (Math_round_times_near p scale) as [Hp _].
  destruct (Math_round_times_near q scale) as [_ Hq].
  assert (Hprod : (p * inject_Z scale < q * inject_Z scale)%Q)
    by (apply Qmult_lt_compat_r; assumption).
  assert (H : (inject_Z (Math_round_times p scale)
               < inject_Z (Math_round_times q scale + 1))%Q)
    by (rewrite inject_Z_plus; change (inject_Z 1) with 1%Q; lra).
  rewrite <- Zlt_Qlt in H. lia.
Qed.

Lemma round_to_le (scale : Z) (p q : Q) :
  0 < scale -> (p <= q)%Q -> (round_to scale p <= round_to scale q)%Q.
Proof.
  intros Hs Hpq. unfold round_to.
  assert (Hpos : (0 < inject_Z scale)%Q)
    by (change 0%Q with (inject_Z 0); now rewrite <- Zlt_Qlt).
  apply Qmult_le_compat_r.
  - rewrite <- Zle_Qle. now apply Math_round_times_le.
  - apply Qlt_le_weak, Qinv_lt_0_compat, Hpos.
Qed.

(** Rounding keeps a value between two integers between them. *)
Lemma round_to_between (scale lo hi : Z) (q : Q) :
  0 < scale ->
  (inject_Z lo <= q)%Q -> (q <= inject_Z hi)%Q ->
  (inject_Z lo <= round_to scale q)%Q /\ (round_to scale q <= inject_Z hi)%Q.
Proof.
  intros Hs Hlo Hhi. split.
  - rewrite <- (round_to_integer scale lo Hs). now apply round_to_le.
  - rewrite <- (round_to_integer scale hi Hs). now apply round_to_le.
Qed.

(** *** The weekday dictionaries of [calculateMoodInsights] *)

Lemma push_weekday_get tz (acc : obj (list Z)) (e : MoodEntry) w :
  obj_get (push_weekday tz acc e) w =
  if String.eqb w (weekday_of tz e)
  then Some (match obj_get acc (weekday_of tz e) with
             | Some moods => moods ++ [mood_level e]
             | None => [mood_level e]
             end)
  else obj_get acc w.
Proof.
  unfold push_weekday, weekday_of. cbv zeta.
  set (weekday := toLocaleDateString_weekday tz (m_date e)).
  destruct (obj_get acc weekday) as [moods|] eqn:Hget.
  - rewrite Hget. apply obj_get_set.
  - rewrite obj_get_set_same, !obj_get_set.
    now destruct (String.eqb w weekday).
Qed.

Lemma fold_push_weekday_get tz (moodData : list MoodEntry) : forall acc w,
  obj_get (fold_left (push_weekday tz) moodData acc) w =
  match obj_get acc w with
  | Some moods => Some (moods ++ levels_on tz w moodData)
  | None =>
      match levels_on tz w moodData with
      | [] => None
      | l => Some l
      end
  end.
Proof.
  induction moodData as [|e rest IH]; intros acc w.
  - cbn. destruct (obj_get acc w); [now rewrite app_nil_r|reflexivity].
  - cbn [fold_left]. rewrite IH, push_weekday_get.
    unfold levels_on. cbn [filter].
    rewrite (String.eqb_sym (weekday_of tz e) w).
    destruct (String.eqb_spec w (weekday_of tz e)) as [->|Hneq].
    + cbn [map]. destruct (obj_get acc (weekday_of tz e)).
      * now rewrite <- app_assoc.
      * reflexivity.
    + reflexivity.
Qed.

Lemma weekdayMoods_of_get tz (moodData : list MoodEntry) w :
  obj_get (weekdayMoods_of tz moodData) w =
  match levels_on tz w moodData with
  | [] => None
  | l => Some l
  end.
Proof. unfold weekdayMoods_of. now rewrite fold_push_weekday_get. Qed.

(** Reading a dictionary derived key by key from another one. *)
Lemma fold_derived_get {A B} (src : obj A) (f : A -> B) keys : forall acc k,
  obj_get
    (fold_left
       (fun acc k =>
          match obj_get src k with
          | Some a => obj_set acc k (f a)
          | None => acc
          end) keys acc) k
  = if in_dec string_dec k keys
    then match obj_get src k with
         | Some a => Some (f a)
         | None => obj_get acc k
         end
    else obj_get acc k.
Proof.
  induction keys as [|k0 keys IH]; intros acc k; cbn [fold_left].
  - now destruct (in_dec string_dec k []).
  - rewrite IH.
    destruct (in_dec string_dec k keys) as [Hin|Hnot];
      destruct (in_dec string_dec k (k0 :: keys)) as [Hin'|Hnot'];
      try (exfalso; apply Hnot'; now right).
    + destruct (obj_get src k) as [a|] eqn:Hk; [reflexivity|].
      destruct (obj_get src k0) eqn:Hk0; [|reflexivity].
      rewrite obj_get_set_other; [reflexivity|]. intros ->. congruence.
    + destruct Hin' as [->|Hin']; [|contradiction].
      destruct (obj_get src k) as [a|]; [|reflexivity].
      apply obj_get_set_same.
    + destruct (obj_get src k0) as [a0|]; [|reflexivity].
      apply obj_get_set_other. intros ->. apply Hnot'. now left.
Qed.

Lemma mean_of_mean (moods : list Z) : mean_of moods = mean moods.
Proof.
  unfold mean_of, mean.
  rewrite (fold_left_Zplus (fun mood => mood) moods 0), Z.add_0_l, map_id.
  reflexivity.
Qed.

(** Each weekday on which there is an entry has, in [weekday_patterns],
    the mean of the mood levels of its entries; the other weekdays have
    no property. *)
Lemma weekdayAverages_of_get tz (moodData : list MoodEntry) w :
  obj_get (weekdayAverages_of tz moodData) w =
  match levels_on tz w moodData with
  | [] => None
  | l => Some (mean l)
  end.
Proof.
  unfold weekdayAverages_of. rewrite fold_derived_get.
  rewrite weekdayMoods_of_get.
  destruct (in_dec string_dec w (Object_keys (weekdayMoods_of tz moodData)))
    as [Hin|Hnot].
  - destruct (levels_on tz w moodData); [reflexivity|]. now rewrite mean_of_mean.
  - apply obj_get_None_keys in Hnot. rewrite weekdayMoods_of_get in Hnot.
    destruct (levels_on tz w moodData); [reflexivity|discriminate].
Qed.

(** *** The two [reduce] calls *)

Section Reduce.

Variable o : obj Q.

Lemma pick_greater_spec a b qa qb :
  obj_get o a = Some qa -> obj_get o b = Some qb ->
  (pick_greater o a b = a /\ (qb < qa)%Q)
  \/ (pick_greater o a b = b /\ (qa <= qb)%Q).
Proof.
  intros Ha Hb. unfold pick_greater. rewrite Ha, Hb. cbn [num_of js_gt].
  destruct (Qle_bool qa qb) eqn:Hle; cbn [negb].
  - right. split; [reflexivity|]. now apply Qle_bool_iff.
  - left. split; [reflexivity|]. now apply Qle_bool_false.
Qed.

Lemma pick_smaller_spec a b qa qb :
  obj_get o a = Some qa -> obj_get o b = Some qb ->
  (pick_smaller o a b = a /\ (qa < qb)%Q)
  \/ (pick_smaller o a b = b /\ (qb <= qa)%Q).
Proof.
  intros Ha Hb. unfold pick_smaller, js_lt. rewrite Ha, Hb. cbn [num_of js_gt].
  destruct (Qle_bool qb qa) eqn:Hle; cbn [negb].
  - right. split; [reflexivity|]. now apply Qle_bool_iff.
  - left. split; [reflexivity|]. now apply Qle_bool_false.
Qed.

(** [reduce] with [pick_greater] returns a key of greatest value. *)
Lemma fold_pick_greater keys : forall k0,
  (forall k, In k (k0 :: keys) -> exists q, obj_get o k = Some q) ->
  In (fold_left (pick_greater o) keys k0) (k0 :: keys)
  /\ forall k q qr,
       In k (k0 :: keys) -> obj_get o k = Some q ->
       obj_get o (fold_left (pick_greater o) keys k0) = Some qr ->
       (q <= qr)%Q.
Proof.
  induction keys as [|k1 keys IH]; intros k0 Hall; cbn [fold_left].
  - split; [now left|]. intros k q qr [<-|[]] Hq Hqr.
    rewrite Hq in Hqr. injection Hqr as <-. apply Qle_refl.
  - destruct (Hall k0 (or_introl eq_refl)) as [q0 Hq0].
    destruct (Hall k1 (or_intror (or_introl eq_refl))) as [q1 Hq1].
    assert (Hall' : forall k, In k (pick_greater o k0 k1 :: keys) ->
                              exists q, obj_get o k = Some q).
    { intros k [<-|Hk].
      - destruct (pick_greater_spec k0 k1 q0 q1 Hq0 Hq1) as [[-> _]|[-> _]]; eauto.
      - apply Hall. now right; right. }
    destruct (IH _ Hall') as [Hin Hmax].
    split.
    + destruct Hin as [Hin|Hin]; [|now right; right].
      rewrite <- Hin.
      destruct (pick_greater_spec k0 k1 q0 q1 Hq0 Hq1) as [[-> _]|[-> _]];
        [now left|now right; left].
    + intros k q qr Hk Hq Hqr.
      destruct (pick_greater_spec k0 k1 q0 q1 Hq0 Hq1) as [[Hp Hlt]|[Hp Hle]].
      * assert (Hq0r : (q0 <= qr)%Q).
        { apply (Hmax k0 q0 qr); [left; now rewrite Hp|exact Hq0|exact Hqr]. }
        destruct Hk as [<-|[<-|Hk]].
        -- rewrite Hq0 in Hq. injection Hq as <-. exact Hq0r.
        -- rewrite Hq1 in Hq. injection Hq as <-. lra.
        -- apply (Hmax k q qr); [now right|exact Hq|exact Hqr].
      * assert (Hq1r : (q1 <= qr)%Q).
        { apply (Hmax k1 q1 qr); [left; now rewrite Hp|exact Hq1|exact Hqr]. }
        destruct Hk as [<-|[<-|Hk]].
        -- rewrite Hq0 in Hq. injection Hq as <-. lra.
        -- rewrite Hq1 in Hq. injection Hq as <-. exact Hq1r.
        -- apply (Hmax k q qr); [now right|exact Hq|exact Hqr].
Qed.

(** [reduce] with [pick_smaller] returns a key of least value. *)
Lemma fold_pick_smaller keys : forall k0,
  (forall k, In k (k0 :: keys) -> exists q, obj_get o k = Some q) ->
  In (fold_left (pick_smaller o) keys k0) (k0 :: keys)
  /\ forall k q qr,
       In k (k0 :: keys) -> obj_get o k = Some q ->
       obj_get o (fold_left (pick_smaller o) keys k0) = Some qr ->
       (qr <= q)%Q.
Proof.
  induction keys as [|k1 keys IH]; intros k0 Hall; cbn [fold_left].
  - split; [now left|]. intros k q qr [<-|[]] Hq Hqr.
    rewrite Hq in Hqr. injection Hqr as <-. apply Qle_refl.
  - destruct (Hall k0 (or_introl eq_refl)) as [q0 Hq0].
    destruct (Hall k1 (or_intror (or_introl eq_refl))) as [q1 Hq1].
    assert (Hall' : forall k, In k (pick_smaller o k0 k1 :: keys) ->
                              exists q, obj_get o k = Some q).
    { intros k [<-|Hk].
      - destruct (pick_smaller_spec k0 k1 q0 q1 Hq0 Hq1) as [[-> _]|[-> _]]; eauto.
      - apply Hall. now right; right. }
    destruct (IH _ Hall') as [Hin Hmin].
    split.
    + destruct Hin as [Hin|Hin]; [|now right; right].
      rewrite <- Hin.
      destruct (pick_smaller_spec k0 k1 q0 q1 Hq0 Hq1) as [[-> _]|[-> _]];
        [now left|now right; left].
    + intros k q qr Hk Hq Hqr.
      destruct (pick_smaller_spec k0 k1 q0 q1 Hq0 Hq1) as [[Hp Hlt]|[Hp Hle]].
      * assert (Hq0r : (qr <= q0)%Q).
        { apply (Hmin k0 q0 qr); [left; now rewrite Hp|exact Hq0|exact Hqr]. }
        destruct Hk as [<-|[<-|Hk]].
        -- rewrite Hq0 in Hq. injection Hq as <-. exact Hq0r.
        -- rewrite Hq1 in Hq. injection Hq as <-. lra.
        -- apply (Hmin k q qr); [now right|exact Hq|exact Hqr].
      * assert (Hq1r : (qr <= q1)%Q).
        { apply (Hmin k1 q1 qr); [left; now rewrite Hp|exact Hq1|exact Hqr]. }
        destruct Hk as [<-|[<-|Hk]].
        -- rewrite Hq0 in Hq. injection Hq as <-. lra.
        -- rewrite Hq1 in Hq. injection Hq as <-. exact Hq1r.
        -- apply (Hmin k q qr); [now right|exact Hq|exact Hqr].
Qed.

End Reduce.

(** *** The whole object returned by [calculateMoodInsights] *)

Lemma calculateMoodInsights_full tz (moodData : list MoodEntry) :
  moodData <> [] ->
  let ys := levels moodData in
  let trend := js_div (Fin (inject_Z (ols_num ys)))
                      (Fin (inject_Z (ols_den (length ys)))) in
  let patterns := weekdayAverages_of tz moodData in
  exists variance k0 keys,
    Object_keys patterns = k0 :: keys
    /\ calculateMoodInsights tz moodData =
         Ok (MoodFull
               (round_to 100 (mean ys))
               (trend_label trend)
               (js_round_to 10000 trend)
               (inject_Z (Math_round_surd (surd_scale (Math_sqrt variance (double_variance moodData)) 100))
                / 100)
               (fold_left (pick_greater patterns) keys k0)
               (fold_left (pick_smaller patterns) keys k0)
               patterns)
    /\ (variance == population_variance ys)%Q.
Proof.
  intros Hne.
  assert (Hlen : (length moodData =? 0)%nat = false)
    by (destruct moodData; [congruence|reflexivity]).
  intros ys trend patterns. unfold calculateMoodInsights.
  rewrite Hlen. cbv zeta.
  rewrite calculateTrend_mood.
  replace (length moodData) with (length ys)
    by (unfold ys, levels; now rewrite length_map).
  fold ys. fold trend.
  rewrite (fold_left_Zplus mood_level moodData 0), Z.add_0_l.
  fold (levels moodData). fold ys. fold (mean ys).
  change (fold_left (push_weekday tz) moodData []) with (weekdayMoods_of tz moodData).
  change (fold_left _ (Object_keys (weekdayMoods_of tz moodData)) [])
    with (weekdayAverages_of tz moodData).
  fold patterns.
  assert (Hkeys : Object_keys patterns <> []).
  { apply Object_keys_nonempty. unfold patterns, weekdayAverages_of.
    apply fold_derived_nonempty.
    - apply Object_keys_nonempty. now apply fold_push_weekday_nonempty.
    - intros k Hk. now apply obj_get_In_keys. }
  destruct (Object_keys patterns) as [|k0 keys] eqn:Hk; [congruence|].
  cbn [reduce1 bind].
  eexists _, k0, keys. split; [reflexivity|]. split; [reflexivity|].
  unfold population_variance.
  apply Qdiv_comp; [|reflexivity].
  rewrite (fold_left_Qplus (fun entry => (inject_Z (mood_level entry) - mean ys) ^ 2)
             moodData 0)%Q.
  rewrite Qplus_0_l. unfold ys, levels. rewrite map_map. reflexivity.
Qed.

(** *** Weekday patterns, best and worst weekday *)

Lemma levels_on_own_weekday tz (moodData : list MoodEntry) e :
  In e moodData -> levels_on tz (weekday_of tz e) moodData <> [].
Proof.
  intros Hin Hnil.
  assert (Hl : In (mood_level e) (levels_on tz (weekday_of tz e) moodData)).
  { unfold levels_on. apply in_map. apply filter_In. split; [exact Hin|].
    apply String.eqb_refl. }
  rewrite Hnil in Hl. exact Hl.
Qed.

Lemma levels_on_entry tz (moodData : list MoodEntry) w :
  levels_on tz w moodData <> [] ->
  exists e, In e moodData /\ weekday_of tz e = w.
Proof.
  unfold levels_on. intros Hne.
  destruct (filter (fun e => String.eqb (weekday_of tz e) w) moodData)
    as [|e l] eqn:Hf; [now cbn in Hne|].
  assert (Hin : In e (filter (fun e => String.eqb (weekday_of tz e) w) moodData))
    by (rewrite Hf; now left).
  apply filter_In in Hin as [Hin Hw]. apply String.eqb_eq in Hw. eauto.
Qed.

(** X3.  For a mood series that is not empty, [weekday_patterns] has
    one property for each weekday on which there is an entry, and no
    other; its value is the unrounded mean of the mood levels of the
    entries of that weekday. *)
Theorem weekday_patterns_are_means (tz : Z -> Z) (moodData : list MoodEntry) :
  moodData <> [] ->
  exists r patterns,
    calculateMoodInsights tz moodData = Ok r
    /\ mood_weekday_patterns r = Some patterns
    /\ (forall e, In e moodData ->
          obj_get patterns (weekday_of tz e)
          = Some (mean (levels_on tz (weekday_of tz e) moodData)))
    /\ (forall w q, obj_get patterns w = Some q ->
          exists e, In e moodData /\ weekday_of tz e = w).
Proof.
  intros Hne.
  destruct (calculateMoodInsights_full tz moodData Hne)
    as (variance & k0 & keys & _ & Hcalc & _).
  cbv zeta in Hcalc. eexists _, _. split; [exact Hcalc|].
  split; [reflexivity|]. split.
  - intros e He. rewrite weekdayAverages_of_get.
    pose proof (levels_on_own_weekday tz moodData e He) as Hlev.
    destruct (levels_on tz (weekday_of tz e) moodData); [congruence|reflexivity].
  - intros w q Hq. rewrite weekdayAverages_of_get in Hq.
    apply levels_on_entry. intros Hnil. rewrite Hnil in Hq. discriminate.
Qed.

(** The instance of X3 at three consecutive days. *)
Lemma weekday_patterns_are_means_witness :
  exists r patterns,
    calculateMoodInsights utc (daily_moods [2; 4; 3]) = Ok r
    /\ mood_weekday_patterns r = Some patterns
    /\ obj_get patterns "Friday" = Some (mean [4]).
Proof.
  destruct (weekday_patterns_are_means utc (daily_moods [2; 4; 3]))
    as (r & patterns & Hcalc & Hp & Hget & _); [discriminate|].
  exists r, patterns. split; [exact Hcalc|]. split; [exact Hp|].
  apply (Hget (mkMoodEntry 86400000 4 50 "Feeling good today")).
  right. left. reflexivity.
Defined.

(** X4.  For a mood series that is not empty, [best_weekday] and
    [worst_weekday] are weekdays of [weekday_patterns]; no weekday has
    a greater mean than [best_weekday] and none a smaller mean than
    [worst_weekday]. *)
Theorem best_and_worst_weekday (tz : Z -> Z) (moodData : list MoodEntry) :
  moodData <> [] ->
  exists r patterns best worst qbest qworst,
    calculateMoodInsights tz moodData = Ok r
    /\ mood_weekday_patterns r = Some patterns
    /\ mood_best_weekday r = Some best
    /\ mood_worst_weekday r = Some worst
    /\ obj_get patterns best = Some qbest
    /\ obj_get patterns worst = Some qworst
    /\ forall w q, obj_get patterns w = Some q ->
                   (qworst <= q)%Q /\ (q <= qbest)%Q.
Proof.
  intros Hne.
  destruct (calculateMoodInsights_full tz moodData Hne)
    as (variance & k0 & keys & Hkeys & Hcalc & _).
  cbv zeta in Hcalc, Hkeys.
  set (patterns := weekdayAverages_of tz moodData) in *.
  assert (Hall : forall k, In k (k0 :: keys) -> exists q, obj_get patterns k = Some q).
  { intros k Hk. apply obj_get_In_keys. now rewrite Hkeys. }
  destruct (fold_pick_greater patterns keys k0 Hall) as [Hbin Hmax].
  destruct (fold_pick_smaller patterns keys k0 Hall) as [Hwin Hmin].
  destruct (Hall _ Hbin) as [qbest Hqbest].
  destruct (Hall _ Hwin) as [qworst Hqworst].
  eexists _, patterns, _, _, qbest, qworst.
  split; [exact Hcalc|]. split; [reflexivity|]. split; [reflexivity|].
  split; [reflexivity|]. split; [exact Hqbest|]. split; [exact Hqworst|].
  intros w q Hq.
  assert (Hw : In w (k0 :: keys)).
  { rewrite <- Hkeys. apply obj_get_In_keys. eauto. }
  split.
  - apply (Hmin w q qworst Hw Hq Hqworst).
  - apply (Hmax w q qbest Hw Hq Hqbest).
Qed.

(** The instance of X4 at three consecutive days. *)
Lemma best_and_worst_weekday_witness :
  exists r best worst,
    calculateMoodInsights utc (daily_moods [2; 4; 3]) = Ok r
    /\ mood_best_weekday r = Some best
    /\ mood_worst_weekday r = Some worst.
Proof.
  destruct (best_and_worst_weekday utc (daily_moods [2; 4; 3]))
    as (r & patterns & best & worst & qb & qw & Hcalc & _ & Hb & Hw & _);
    [discriminate|].
  exists r, best, worst. auto.
Defined.

(** *** A single entry *)

Lemma ols_num_single (m : Z) : ols_num [m] = 0.
Proof. unfold ols_num, indices. simpl. lia. Qed.

Lemma mean_single (m : Z) : (mean [m] == inject_Z m)%Q.
Proof.
  unfold mean. cbn [sumZ fold_right length]. rewrite Z.add_0_r.
  change (inject_Z (Z.of_nat 1)) with 1%Q. field.
Qed.

Lemma population_variance_single (m : Z) : (population_variance [m] == 0)%Q.
Proof.
  unfold population_variance. cbn [map sumQ fold_right length].
  rewrite (mean_single m). change (inject_Z (Z.of_nat 1)) with 1%Q.
  simpl. field.
Qed.

(** X5.  A series of a single mood entry has the trend ["stable"] and
    the slope [NaN] (the regression divides 0 by 0), its average is
    the mood level of the entry, its volatility is 0, and the weekday
    of the entry is both [best_weekday] and [worst_weekday]. *)
Theorem single_mood_entry (tz : Z -> Z) (e : MoodEntry) :
  exists r,
    calculateMoodInsights tz [e] = Ok r
    /\ mood_trend r = "stable"%string
    /\ mood_trend_slope r = Some NaN
    /\ (mood_average r == inject_Z (mood_level e))%Q
    /\ (mood_volatility r == 0)%Q
    /\ mood_best_weekday r = Some (weekday_of tz e)
    /\ mood_worst_weekday r = Some (weekday_of tz e).
Proof.
  destruct (calculateMoodInsights_full tz [e] ltac:(discriminate))
    as (variance & k0 & keys & Hkeys & Hcalc & Hvar).
  cbv zeta in Hcalc, Hkeys, Hvar.
  change (levels [e]) with [mood_level e] in *.
  rewrite ols_num_single in Hcalc.
  change (js_div (Fin (inject_Z 0)) (Fin (inject_Z (ols_den (length [mood_level e])))))
    with NaN in Hcalc.
  set (patterns := weekdayAverages_of tz [e]) in *.
  assert (Hall : forall k, In k (k0 :: keys) -> exists q, obj_get patterns k = Some q).
  { intros k Hk. apply obj_get_In_keys. now rewrite Hkeys. }
  assert (Honly : forall k, In k (k0 :: keys) -> k = weekday_of tz e).
  { intros k Hk. destruct (Hall k Hk) as [q Hq].
    unfold patterns in Hq. rewrite weekdayAverages_of_get in Hq.
    destruct (levels_on_entry tz [e] k) as (e' & [<-|[]] & Hw);
      [intros Hnil; rewrite Hnil in Hq; discriminate|].
    now symmetry. }
  destruct (fold_pick_greater patterns keys k0 Hall) as [Hbin _].
  destruct (fold_pick_smaller patterns keys k0 Hall) as [Hwin _].
  eexists. split; [exact Hcalc|].
  cbn [mood_trend mood_trend_slope mood_average mood_volatility
       mood_best_weekday mood_worst_weekday].
  split; [reflexivity|]. split; [reflexivity|]. split.
  { rewrite (round_to_comp 100 _ _ (mean_single (mood_level e))).
    apply round_to_integer. lia. }
  split.
  { assert (Hv0 : (variance == 0)%Q)
      by (rewrite Hvar; apply population_variance_single).
    rewrite (Math_round_surd_comp variance 0 100 _ Hv0). reflexivity. }
  split; f_equal; apply Honly; assumption.
Qed.

(** *** Mood levels in arithmetic progression *)

Lemma In_mapi_from {A B} (f : A -> Z -> B) (l : list A) : forall i b,
  In b (mapi_from f i l) ->
  exists k a, nth_error l k = Some a /\ b = f a (i + Z.of_nat k).
Proof.
  induction l as [|a l IH]; intros i b Hin; [destruct Hin|].
  cbn [mapi_from] in Hin. destruct Hin as [<-|Hin].
  - exists 0%nat, a. split; [reflexivity|]. now rewrite Z.add_0_r.
  - destruct (IH _ _ Hin) as (k & a' & Hnth & ->).
    exists (S k), a'. split; [exact Hnth|]. f_equal. lia.
Qed.

Lemma Fin_inj (a b : Q) : Fin a = Fin b -> a = b.
Proof.
  intros H.
  exact (f_equal (fun j => match j with Fin q => q | _ => a end) H).
Qed.

Lemma mood_points_not_same_x (moodData : list MoodEntry) :
  (2 <= length moodData)%nat ->
  ~ same_x (mapi point_of moodData).
Proof.
  intros Hlen Hsame.
  destruct moodData as [|e0 [|e1 rest]]; try (cbn in Hlen; lia).
  specialize (Hsame (point_of e0 0) (point_of e1 (0 + 1))
                (or_introl eq_refl) (or_intror (or_introl eq_refl))).
  discriminate Hsame.
Qed.

(** The least-squares slope of an arithmetic progression is its
    difference. *)
Lemma ols_slope_progression (moodData : list MoodEntry) (a d : Z) :
  (2 <= length moodData)%nat ->
  (forall i e, nth_error moodData i = Some e ->
               mood_level e = a + d * Z.of_nat i) ->
  (ols_slope (levels moodData) == inject_Z d)%Q.
Proof.
  intros Hlen Hprog.
  destruct (calculateTrend_on_line (mapi point_of moodData) a d)
    as (q & Hq & Hqd).
  - intros p Hp. apply In_mapi_from in Hp as (k & e & Hnth & ->).
    cbn [point_of x y]. rewrite Z.add_0_l. now apply Hprog.
  - now apply mood_points_not_same_x.
  - unfold point_of in Hq. rewrite calculateTrend_mood in Hq.
    replace (length moodData) with (length (levels moodData)) in Hq
      by (unfold levels; apply length_map).
    rewrite trend_finite in Hq
      by (unfold levels; now rewrite length_map).
    apply Fin_inj in Hq. rewrite Hq. exact Hqd.
Qed.

Lemma inject_Z_above_threshold (d : Z) : (5 # 100 < inject_Z d)%Q <-> 0 < d.
Proof.
  split; intros H.
  - assert (inject_Z 0 < inject_Z d)%Q by (change (inject_Z 0) with 0%Q; lra).
    now rewrite <- Zlt_Qlt in H0.
  - assert (inject_Z 1 <= inject_Z d)%Q by (rewrite <- Zle_Qle; lia).
    change (inject_Z 1) with 1%Q in H0. lra.
Qed.

Lemma inject_Z_below_threshold (d : Z) : (inject_Z d < - (5 # 100))%Q <-> d < 0.
Proof.
  split; intros H.
  - assert (inject_Z d < inject_Z 0)%Q by (change (inject_Z 0) with 0%Q; lra).
    now rewrite <- Zlt_Qlt in H0.
  - assert (inject_Z d <= inject_Z (-1))%Q by (rewrite <- Zle_Qle; lia).
    change (inject_Z (-1)) with (-1)%Q in H0. lra.
Qed.

(** X6.  When the mood level of the entry at position [i] is
    [a + d * i], for a series of two entries or more, [trend_slope] is
    exactly [d], and the trend is ["improving"] when [d > 0],
    ["declining"] when [d < 0] and ["stable"] when [d = 0]. *)
Theorem mood_trend_of_progression (tz : Z -> Z) (moodData : list MoodEntry)
  (a d : Z) :
  (2 <= length moodData)%nat ->
  (forall i e, nth_error moodData i = Some e ->
               mood_level e = a + d * Z.of_nat i) ->
  exists r slope,
    calculateMoodInsights tz moodData = Ok r
    /\ mood_trend_slope r = Some (Fin slope)
    /\ (slope == inject_Z d)%Q
    /\ (mood_trend r = "improving"%string <-> 0 < d)
    /\ (mood_trend r = "declining"%string <-> d < 0)
    /\ (mood_trend r = "stable"%string <-> d = 0).
Proof.
  intros Hlen Hprog.
  assert (Hne : moodData <> []) by (destruct moodData; [cbn in Hlen; lia|discriminate]).
  assert (Hlen' : (2 <= length (levels moodData))%nat)
    by (unfold levels; now rewrite length_map).
  destruct (calculateMoodInsights_shape tz moodData Hne)
    as (variance & best & worst & patterns & Hcalc & _).
  cbv zeta in Hcalc. rewrite (trend_finite _ Hlen') in Hcalc.
  pose proof (ols_slope_progression moodData a d Hlen Hprog) as Hslope.
  destruct (rounded_slope (ols_slope (levels moodData)))
    as (v & _ & _ & Hzero & Hfin).
  cbv zeta in Hzero, Hfin.
  rewrite Hfin in Hcalc.
  2:{ intros Hneg. apply Hzero in Hneg as [Hlo Hhi].
      rewrite Hslope in Hlo, Hhi.
      assert (H1 : (inject_Z (-1) < inject_Z (d * 10000))%Q)
        by (rewrite inject_Z_mult; change (inject_Z 10000) with 10000%Q;
            change (inject_Z (-1)) with (-1)%Q; lra).
      assert (H2 : (inject_Z (d * 10000) < inject_Z 0)%Q)
        by (rewrite inject_Z_mult; change (inject_Z 10000) with 10000%Q;
            change (inject_Z 0) with 0%Q; lra).
      rewrite <- Zlt_Qlt in H1, H2. lia. }
  exists (MoodFull (round_to 100 (mean (levels moodData)))
            (trend_label (Fin (ols_slope (levels moodData))))
            (Fin (round_to 10000 (ols_slope (levels moodData))))
            (inject_Z (Math_round_surd (surd_scale (Math_sqrt variance (double_variance moodData)) 100)) / 100)
            best worst patterns),
         (round_to 10000 (ols_slope (levels moodData))).
  split; [exact Hcalc|]. cbn [mood_trend_slope mood_trend].
  split; [reflexivity|]. split.
  { rewrite (round_to_comp 10000 _ _ Hslope). apply round_to_integer. lia. }
  destruct (trend_label_Fin (ols_slope (levels moodData))) as (Hi & Hd & Hs).
  rewrite Hi, Hd, Hs, Hslope.
  split; [apply inject_Z_above_threshold|].
  split; [apply inject_Z_below_threshold|].
  split.
  - intros [H1 H2].
    destruct (Z.lt_trichotomy d 0) as [Hneg|[H0|Hpos]]; [|exact H0|].
    + apply inject_Z_below_threshold in Hneg. lra.
    + apply inject_Z_above_threshold in Hpos. lra.
  - intros ->. change (inject_Z 0) with 0%Q. split; lra.
Qed.

(** The instance of X6 at the levels [5, 4, 3, 2]. *)
Lemma mood_trend_of_progression_witness :
  exists r slope,
    calculateMoodInsights utc (daily_moods [5; 4; 3; 2]) = Ok r
    /\ mood_trend_slope r = Some (Fin slope)
    /\ (slope == inject_Z (-1))%Q
    /\ mood_trend r = "declining"%string.
Proof.
  destruct (mood_trend_of_progression utc (daily_moods [5; 4; 3; 2]) 5 (-1))
    as (r & slope & Hcalc & Hs & Hd & _ & Hdecl & _).
  - cbn. lia.
  - intros i e Hnth.
    do 4 (destruct i as [|i]; [injection Hnth as <-; reflexivity|]).
    destruct i; discriminate.
  - exists r, slope. split; [exact Hcalc|]. split; [exact Hs|].
    split; [exact Hd|]. apply Hdecl. lia.
Defined.

(** *** Bounds on average and volatility *)

Lemma sumZ_between (ys : list Z) (lo hi : Z) :
  (forall y, In y ys -> lo <= y <= hi) ->
  Z.of_nat (length ys) * lo <= sumZ ys <= Z.of_nat (length ys) * hi.
Proof.
  induction ys as [|y ys IH]; intros Hall; [simpl; lia|].
  cbn [sumZ fold_right length]. fold (sumZ ys). rewrite Nat2Z.inj_succ.
  pose proof (Hall y (or_introl eq_refl)).
  assert (Z.of_nat (length ys) * lo <= sumZ ys <= Z.of_nat (length ys) * hi)
    by (apply IH; intros y' Hy'; apply Hall; now right).
  lia.
Qed.

Lemma inject_Z_length_pos {A} (l : list A) :
  l <> [] -> (0 < inject_Z (Z.of_nat (length l)))%Q.
Proof.
  intros Hne. change 0%Q with (inject_Z 0). rewrite <- Zlt_Qlt.
  destruct l; [congruence|cbn [length]; lia].
Qed.

Lemma mean_between (ys : list Z) (lo hi : Z) :
  ys <> [] ->
  (forall y, In y ys -> lo <= y <= hi) ->
  (inject_Z lo <= mean ys)%Q /\ (mean ys <= inject_Z hi)%Q.
Proof.
  intros Hne Hall. pose proof (sumZ_between ys lo hi Hall) as [Hlo Hhi].
  pose proof (inject_Z_length_pos ys Hne) as Hpos.
  unfold mean. split.
  - apply Qle_shift_div_l; [exact Hpos|].
    rewrite <- inject_Z_mult, <- Zle_Qle. lia.
  - apply Qle_shift_div_r; [exact Hpos|].
    rewrite <- inject_Z_mult, <- Zle_Qle. lia.
Qed.

Lemma Qsquare_le (a b : Q) :
  (- b <= a)%Q -> (a <= b)%Q -> (a ^ 2 <= b ^ 2)%Q.
Proof.
  intros Hlo Hhi.
  assert (Hb : (0 <= b)%Q) by lra.
  setoid_replace (a ^ 2)%Q with (a * a)%Q by (simpl; ring).
  setoid_replace (b ^ 2)%Q with (b * b)%Q by (simpl; ring).
  destruct (Qlt_le_dec a 0) as [Hneg|Hpos].
  - setoid_replace (a * a)%Q with ((- a) * (- a))%Q by ring.
    apply Qmult_le_compat_nonneg; split; lra.
  - apply Qmult_le_compat_nonneg; split; lra.
Qed.

Lemma sumQ_le_const {A} (g : A -> Q) (l : list A) (bound : Q) :
  (forall a, In a l -> (g a <= bound)%Q) ->
  (sumQ (map g l) <= inject_Z (Z.of_nat (length l)) * bound)%Q.
Proof.
  induction l as [|a l IH]; intros Hall.
  - cbn [map sumQ fold_right length]. change (inject_Z (Z.of_nat 0)) with 0%Q.
    rewrite Qmult_0_l. apply Qle_refl.
  - cbn [map sumQ fold_right length]. fold (sumQ (map g l)).
    rewrite Nat2Z.inj_succ. unfold Z.succ. rewrite inject_Z_plus.
    change (inject_Z 1) with 1%Q.
    pose proof (Hall a (or_introl eq_refl)) as Ha.
    assert (Hrest : (sumQ (map g l) <= inject_Z (Z.of_nat (length l)) * bound)%Q)
      by (apply IH; intros a' Ha'; apply Hall; now right).
    generalize dependent (sumQ (map g l)). intros rest Hrest.
    generalize dependent (g a). intros ga Hga.
    generalize dependent (inject_Z (Z.of_nat (length l))). intros n Hrest.
    setoid_replace ((n + 1) * bound)%Q with (n * bound + bound)%Q by ring.
    lra.
Qed.

Lemma population_variance_le (ys : list Z) (lo hi : Z) :
  ys <> [] ->
  (forall y, In y ys -> lo <= y <= hi) ->
  (population_variance ys <= inject_Z (hi - lo) ^ 2)%Q.
Proof.
  intros Hne Hall. destruct (mean_between ys lo hi Hne Hall) as [Hmlo Hmhi].
  pose proof (inject_Z_length_pos ys Hne) as Hpos.
  unfold population_variance.
  apply Qle_shift_div_r; [exact Hpos|].
  rewrite Qmult_comm.
  apply (sumQ_le_const (fun y => (inject_Z y - mean ys) ^ 2)%Q).
  intros y Hy. destruct (Hall y Hy) as [Hylo Hyhi].
  rewrite Zle_Qle in Hylo, Hyhi.
  unfold Z.sub. rewrite inject_Z_plus, inject_Z_opp.
  apply Qsquare_le; lra.
Qed.

(** The rounded square root of a value below the square of an integer
    [m] is at most [m]. *)
Lemma Math_round_surd_le (v : Q) (d : PrimFloat.float) (m : Z) :
  (0 <= v)%Q -> 0 <= m -> (v <= inject_Z m ^ 2)%Q ->
  0 <= Math_round_surd (Sqrt v d) <= m.
Proof.
  intros Hv Hm Hvm.
  destruct (Math_round_surd_bounds v d Hv) as (Hj0 & _ & Hlo).
  split; [exact Hj0|].
  destruct Hlo as [->|Hlo]; [exact Hm|].
  destruct (Z.le_gt_cases (Math_round_surd (Sqrt v d)) m) as [Hle|Hgt];
    [exact Hle|].
  exfalso.
  generalize dependent (Math_round_surd (Sqrt v d)). intros j Hj0 Hlo Hgt.
  assert (Hjm : (inject_Z m + 1 <= inject_Z j)%Q).
  { change 1%Q with (inject_Z 1). rewrite <- inject_Z_plus, <- Zle_Qle. lia. }
  assert (Hm0 : (0 <= inject_Z m)%Q)
    by (change 0%Q with (inject_Z 0); now rewrite <- Zle_Qle).
  assert (Hsq : ((inject_Z m + (1 # 2)) ^ 2 <= (inject_Z j - (1 # 2)) ^ 2)%Q)
    by (apply Qsquare_le; lra).
  assert (Hexp : ((inject_Z m + (1 # 2)) ^ 2
                  == inject_Z m ^ 2 + inject_Z m + (1 # 4))%Q)
    by (simpl; ring).
  rewrite Hexp in Hsq. lra.
Qed.

(** X7.  When every mood level of a series that is not empty lies
    between [lo] and [hi], so does [average], and [volatility] lies
    between 0 and [hi - lo]; a series at one constant level [c] thus
    has the average [c] and the volatility 0. *)
Theorem mood_average_and_volatility_bounds (tz : Z -> Z)
  (moodData : list MoodEntry) (lo hi : Z) :
  moodData <> [] ->
  (forall e, In e moodData -> lo <= mood_level e <= hi) ->
  exists r,
    calculateMoodInsights tz moodData = Ok r
    /\ (inject_Z lo <= mood_average r)%Q
    /\ (mood_average r <= inject_Z hi)%Q
    /\ (0 <= mood_volatility r)%Q
    /\ (mood_volatility r <= inject_Z (hi - lo))%Q.
Proof.
  intros Hne Hall.
  assert (Hys : forall y, In y (levels moodData) -> lo <= y <= hi).
  { intros y Hy. apply in_map_iff in Hy as (e & <- & He). now apply Hall. }
  assert (Hyne : levels moodData <> [])
    by (destruct moodData; [congruence|discriminate]).
  assert (Hrange : 0 <= hi - lo).
  { destruct moodData as [|e rest]; [congruence|].
    pose proof (Hall e (or_introl eq_refl)). lia. }
  destruct (calculateMoodInsights_shape tz moodData Hne)
    as (variance & best & worst & patterns & Hcalc & Hvar & _).
  cbv zeta in Hcalc. eexists. split; [exact Hcalc|].
  cbn [mood_average mood_volatility].
  destruct (mean_between _ lo hi Hyne Hys) as [Hmlo Hmhi].
  destruct (round_to_between 100 lo hi (mean (levels moodData)) ltac:(lia) Hmlo Hmhi)
    as [Halo Hahi].
  split; [exact Halo|]. split; [exact Hahi|].
  rewrite (Math_round_surd_comp variance _ 100 _ Hvar).
  unfold Math_sqrt, surd_scale.
  pose proof (population_variance_nonneg (levels moodData)) as Hv0.
  pose proof (population_variance_le _ lo hi Hyne Hys) as Hvle.
  set (v := population_variance (levels moodData)) in *.
  match goal with
  | |- context [Math_round_surd (Sqrt _ ?held)] => set (d := held)
  end.
  assert (Hbound : 0 <= Math_round_surd (Sqrt (v * (100 * 100)) d)
                   <= 100 * (hi - lo)).
  { apply Math_round_surd_le.
    - apply Qmult_le_0_compat; lra.
    - lia.
    - rewrite inject_Z_mult. change (inject_Z 100) with 100%Q.
      setoid_replace ((100 * inject_Z (hi - lo)) ^ 2)%Q
        with (inject_Z (hi - lo) ^ 2 * (100 * 100))%Q by (simpl; ring).
      apply Qmult_le_compat_r; [exact Hvle|lra]. }
  destruct Hbound as [Hj0 Hjm].
  rewrite Zle_Qle in Hj0, Hjm. rewrite inject_Z_mult in Hjm.
  change (inject_Z 0) with 0%Q in Hj0. change (inject_Z 100) with 100%Q in Hjm.
  split.
  - apply Qle_shift_div_l; lra.
  - apply Qle_shift_div_r; lra.
Qed.

(** The instance of X7 at levels between 1 and 5. *)
Lemma mood_average_and_volatility_bounds_witness :
  exists r,
    calculateMoodInsights utc (daily_moods [1; 5; 2; 4]) = Ok r
    /\ (1 <= mood_average r)%Q
    /\ (mood_average r <= 5)%Q
    /\ (0 <= mood_volatility r)%Q
    /\ (mood_volatility r <= 4)%Q.
Proof.
  apply (mood_average_and_volatility_bounds utc (daily_moods [1; 5; 2; 4]) 1 5).
  - discriminate.
  - intros e He. cbv in He.
    repeat (destruct He as [<-|He]; [cbn; lia|]). destruct He.
Defined.

(** *** When the habit analyzer throws *)

Lemma push_habit_plain acc e :
  inherited (name e) = false -> exists acc', push_habit acc e = Ok acc'.
Proof.
  intros H. destruct (push_habit_ok acc e H) as (acc' & Hok & _). eauto.
Qed.

Lemma group_habits_inherited (habitData : list HabitEntry) : forall acc e,
  In e habitData -> inherited (name e) = true ->
  group_habits acc habitData = Throw push_TypeError.
Proof.
  induction habitData as [|e0 rest IH]; intros acc e Hin Hinh; [destruct Hin|].
  cbn [group_habits].
  destruct (inherited (name e0)) eqn:H0.
  - unfold push_habit. rewrite H0. reflexivity.
  - destruct (push_habit_plain acc e0 H0) as [acc' Hacc']. rewrite Hacc'.
    cbn [bind]. destruct Hin as [<-|Hin]; [congruence|].
    now apply (IH acc' e).
Qed.

Lemma analyzeHabitPatterns_inherited (habitData : list HabitEntry) e :
  In e habitData -> inherited (name e) = true ->
  analyzeHabitPatterns habitData = Throw push_TypeError.
Proof.
  intros Hin Hinh. unfold analyzeHabitPatterns.
  destruct habitData as [|e0 rest] eqn:Hdata; [destruct Hin|].
  rewrite <- Hdata in *.
  replace (length habitData =? 0)%nat with false by (subst; reflexivity).
  rewrite (group_habits_inherited habitData [] e Hin Hinh). reflexivity.
Qed.

Lemma analyzeHabitPatterns_returns (habitData : list HabitEntry) :
  plain_names habitData -> exists r, analyzeHabitPatterns habitData = Ok r.
Proof.
  intros Hplain. destruct habitData as [|e rest] eqn:Hdata.
  - now eexists.
  - rewrite <- Hdata in *.
    destruct (analyzeHabitPatterns_general habitData) as (? & ? & ? & ? & H & _);
      [subst; discriminate|exact Hplain|eauto].
Qed.

(** X8.  [analyzeHabitPatterns] returns exactly when no entry is named
    like a member of [Object.prototype]; as soon as one entry bears
    such a name (["constructor"], ["toString"], ...), it throws the
    [TypeError] of the [push] onto a value that is no array. *)
Theorem analyzeHabitPatterns_throws_iff (habitData : list HabitEntry) :
  ((exists r, analyzeHabitPatterns habitData = Ok r) <-> plain_names habitData)
  /\ (forall e, In e habitData -> inherited (name e) = true ->
        analyzeHabitPatterns habitData = Throw push_TypeError).
Proof.
  split; [split|].
  - intros [r Hr]. now apply (analyzeHabitPatterns_plain habitData r).
  - apply analyzeHabitPatterns_returns.
  - apply analyzeHabitPatterns_inherited.
Qed.

(** The instance of X8 at a habit named [constructor]. *)
Lemma analyzeHabitPatterns_throws_iff_witness :
  analyzeHabitPatterns
    [mkHabitEntry "Rest" 0 1 1; mkHabitEntry "constructor" 0 1 1]
  = Throw push_TypeError.
Proof.
  apply (proj2 (analyzeHabitPatterns_throws_iff
                  [mkHabitEntry "Rest" 0 1 1; mkHabitEntry "constructor" 0 1 1])
           (mkHabitEntry "constructor" 0 1 1)).
  - right. left. reflexivity.
  - reflexivity.
Defined.

(** *** The whole object returned by [analyzeHabitPatterns] *)

Lemma analyzeHabitPatterns_full (habitData : list HabitEntry) :
  habitData <> [] ->
  plain_names habitData ->
  exists groups rates streaks k0 keys,
    group_habits [] habitData = Ok groups
    /\ fold_left (habit_step groups) (Object_keys groups) ([], [])
       = (rates, streaks)
    /\ Object_keys rates = k0 :: keys
    /\ analyzeHabitPatterns habitData =
         Ok (HabitFull (round_to 1000 (overall_completion habitData))
                       rates streaks
                       (fold_left (pick_greater rates) keys k0)
                       (fold_left (pick_smaller rates) keys k0)).
Proof.
  intros Hne Hplain.
  assert (Hlen : (length habitData =? 0)%nat = false)
    by (destruct habitData; [congruence|reflexivity]).
  unfold analyzeHabitPatterns. rewrite Hlen.
  destruct (group_habits_ok habitData [] Hplain) as (groups & Hgroups & Hget).
  rewrite Hgroups. cbn [bind].
  destruct (fold_left (habit_step groups) (Object_keys groups) ([], []))
    as [rates streaks] eqn:Hfold.
  assert (Hkeys : Object_keys rates <> []).
  { destruct habitData as [|e rest]; [congruence|].
    assert (Hg : obj_get groups (name e) = Some (entries_of (name e) (e :: rest))).
    { rewrite Hget. cbn [obj_get].
      pose proof (entries_of_nonempty (e :: rest) (name e) (or_introl eq_refl)).
      destruct (entries_of (name e) (e :: rest)); [congruence|reflexivity]. }
    destruct (fold_habit_step_same groups (Object_keys groups) ([], []) (name e) _
                ltac:(apply obj_get_In_keys; eauto) Hg) as [H1 _].
    rewrite Hfold in H1. cbn [fst] in H1.
    destruct rates; [discriminate|discriminate]. }
  destruct (Object_keys rates) as [|k0 keys] eqn:Hk; [congruence|].
  cbv zeta.
  rewrite (fold_left_Zplus completed habitData 0),
          (fold_left_Zplus target habitData 0), !Z.add_0_l.
  fold (overall_completion habitData).
  cbn [reduce1 bind].
  exists groups, rates, streaks, k0, keys. auto.
Qed.

Lemma group_habits_get (habitData : list HabitEntry) groups n :
  plain_names habitData ->
  group_habits [] habitData = Ok groups ->
  obj_get groups n =
  match entries_of n habitData with
  | [] => None
  | l => Some l
  end.
Proof.
  intros Hplain Hgroups.
  destruct (group_habits_ok habitData [] Hplain) as (groups' & Hgroups' & Hget).
  rewrite Hgroups in Hgroups'. injection Hgroups' as <-.
  now rewrite Hget.
Qed.

(** The keys of the two dictionaries are the names of the habits. *)
Lemma habit_tables_keys (habitData : list HabitEntry) groups rates streaks n :
  plain_names habitData ->
  group_habits [] habitData = Ok groups ->
  fold_left (habit_step groups) (Object_keys groups) ([], []) = (rates, streaks) ->
  (In n (map name habitData) ->
     obj_get rates n = Some (rate_of (entries_of n habitData))
     /\ obj_get streaks n
        = Some (current_streak (sort_by_date (entries_of n habitData))))
  /\ (~ In n (map name habitData) ->
        obj_get rates n = None /\ obj_get streaks n = None).
Proof.
  intros Hplain Hgroups Hfold.
  pose proof (group_habits_get habitData groups n Hplain Hgroups) as Hget.
  split.
  - intros Hin.
    pose proof (entries_of_nonempty habitData n Hin) as Hne.
    assert (Hg : obj_get groups n = Some (entries_of n habitData))
      by (rewrite Hget; destruct (entries_of n habitData); [congruence|reflexivity]).
    destruct (fold_habit_step_same groups (Object_keys groups) ([], []) n _
                ltac:(apply obj_get_In_keys; eauto) Hg) as [H1 H2].
    rewrite Hfold in H1, H2. auto.
  - intros Hnot.
    assert (Hnone : ~ In n (Object_keys groups)).
    { intros Hin. apply obj_get_In_keys in Hin as [g Hg].
      rewrite Hget in Hg. apply Hnot, entries_of_name.
      intros Hnil. rewrite Hnil in Hg. discriminate. }
    destruct (fold_habit_step_other groups (Object_keys groups) ([], []) n Hnone)
      as [H1 H2].
    rewrite Hfold in H1, H2. auto.
Qed.

(** *** Per-habit rates, the two extremal habits and the streaks *)

Lemma filter_perm {A} (f : A -> bool) (l l' : list A) :
  Permutation l l' -> Permutation (filter f l) (filter f l').
Proof.
  induction 1 as [|a l l' Hp IH|a b l|l l' l'' Hp1 IH1 Hp2 IH2]; cbn [filter].
  - constructor.
  - destruct (f a); [now constructor|exact IH].
  - destruct (f a), (f b); try apply Permutation_refl. apply perm_swap.
  - eapply perm_trans; eassumption.
Qed.

Lemma filter_length_bound {A} (f : A -> bool) (l : list A) :
  (length (filter f l) <= length l)%nat.
Proof.
  induction l as [|a l IH]; cbn [filter length]; [lia|].
  destruct (f a); cbn [length]; lia.
Qed.

Lemma rate_of_count (group : list HabitEntry) :
  rate_of group
  = round_to 1000
      (inject_Z (qualifying group) / inject_Z (Z.of_nat (length group))).
Proof.
  unfold rate_of, qualifying. cbv zeta.
  rewrite (Permutation_length (filter_perm qualifies _ _ (sort_by_date_perm group))).
  now rewrite sort_by_date_length.
Qed.

Lemma rate_of_perm (g g' : list HabitEntry) :
  Permutation g g' -> rate_of g = rate_of g'.
Proof.
  intros Hp. rewrite !rate_of_count. unfold qualifying.
  now rewrite (Permutation_length (filter_perm qualifies _ _ Hp)),
    (Permutation_length Hp).
Qed.

Lemma ratio_unit_interval (c n : Z) :
  0 <= c <= n -> 0 < n ->
  (0 <= inject_Z c / inject_Z n)%Q /\ (inject_Z c / inject_Z n <= 1)%Q.
Proof.
  intros Hc Hn.
  assert (Hpos : (0 < inject_Z n)%Q)
    by (change 0%Q with (inject_Z 0); now rewrite <- Zlt_Qlt).
  split.
  - apply Qle_shift_div_l; [exact Hpos|]. rewrite Qmult_0_l.
    change 0%Q with (inject_Z 0). rewrite <- Zle_Qle. lia.
  - apply Qle_shift_div_r; [exact Hpos|]. rewrite Qmult_1_l.
    rewrite <- Zle_Qle. lia.
Qed.

(** X9.  When the analyzer returns on a series that is not empty,
    [individual_completion_rates] has one property for each habit of
    the series, and no other; its value is the number of entries of
    the habit with [completed >= target] over the number of its
    entries, rounded to three decimals (a nearest multiple of 0.001,
    either one when the quotient lies halfway between two), and lies
    between 0 and 1. *)
Theorem individual_rates_per_habit (habitData : list HabitEntry)
  (habitName : string) :
  plain_names habitData ->
  In habitName (map name habitData) ->
  let entries := entries_of habitName habitData in
  exists r rates rate,
    analyzeHabitPatterns habitData = Ok r
    /\ habits_individual_completion_rates r = Some rates
    /\ obj_get rates habitName = Some rate
    /\ rounds_near 1000
         (inject_Z (qualifying entries) / inject_Z (Z.of_nat (length entries)))
         rate
    /\ (0 <= rate)%Q /\ (rate <= 1)%Q
    /\ (forall k q, obj_get rates k = Some q -> In k (map name habitData)).
Proof.
  intros Hplain Hin entries.
  assert (Hne : habitData <> []) by (intros ->; destruct Hin).
  destruct (analyzeHabitPatterns_full habitData Hne Hplain)
    as (groups & rates & streaks & k0 & keys & Hgroups & Hfold & _ & Hcalc).
  destruct (habit_tables_keys habitData groups rates streaks habitName
              Hplain Hgroups Hfold) as [Hpresent _].
  destruct (Hpresent Hin) as [Hrate _]. fold entries in Hrate.
  rewrite rate_of_count in Hrate.
  eexists _, rates, _. split; [exact Hcalc|]. split; [reflexivity|].
  split; [exact Hrate|]. split; [apply round_to_near|].
  assert (Hunit :
            (0 <= inject_Z (qualifying entries)
                  / inject_Z (Z.of_nat (length entries)))%Q
            /\ (inject_Z (qualifying entries)
                / inject_Z (Z.of_nat (length entries)) <= 1)%Q).
  { apply ratio_unit_interval.
    - unfold qualifying. pose proof (filter_length_bound qualifies entries). lia.
    - pose proof (entries_of_nonempty habitData habitName Hin) as Hent.
      fold entries in Hent. destruct entries; [congruence|cbn [length]; lia]. }
  destruct Hunit as [Hq0 Hq1].
  destruct (round_to_unit_interval _ Hq0 Hq1) as [Hlo Hhi].
  split; [exact Hlo|]. split; [exact Hhi|].
  intros k q Hq.
  destruct (in_dec string_dec k (map name habitData)) as [Hk|Hk]; [exact Hk|].
  destruct (habit_tables_keys habitData groups rates streaks k
              Hplain Hgroups Hfold) as [_ Habsent].
  destruct (Habsent Hk) as [Hnone _]. congruence.
Qed.

(** The instance of X9 at six daily entries, five of them done. *)
Lemma individual_rates_per_habit_witness :
  exists r rates rate,
    analyzeHabitPatterns (six_days "Hydration") = Ok r
    /\ habits_individual_completion_rates r = Some rates
    /\ obj_get rates "Hydration" = Some rate
    /\ rounds_near 1000 (5 # 6) rate.
Proof.
  destruct (individual_rates_per_habit (six_days "Hydration") "Hydration")
    as (r & rates & rate & Hcalc & Hr & Hget & Hround & _).
  - intros e He. cbv in He.
    repeat (destruct He as [<-|He]; [reflexivity|]). destruct He.
  - left. reflexivity.
  - exists r, rates, rate. split; [exact Hcalc|]. split; [exact Hr|].
    split; [exact Hget|].
    destruct Hround as (k & Hk & Hlo & Hhi).
    exists k. split; [exact Hk|]. split; [exact Hlo|exact Hhi].
Defined.

(** X10.  When the analyzer returns on a series that is not empty,
    [most_consistent_habit] and [needs_attention] are habits of the
    series; no habit has a greater completion rate than the first and
    none a smaller one than the second. *)
Theorem most_consistent_and_needs_attention (habitData : list HabitEntry) :
  habitData <> [] ->
  plain_names habitData ->
  exists r rates most needs qmost qneeds,
    analyzeHabitPatterns habitData = Ok r
    /\ habits_individual_completion_rates r = Some rates
    /\ habits_most_consistent_habit r = Some most
    /\ habits_needs_attention r = Some needs
    /\ In most (map name habitData)
    /\ In needs (map name habitData)
    /\ obj_get rates most = Some qmost
    /\ obj_get rates needs = Some qneeds
    /\ forall k q, obj_get rates k = Some q -> (qneeds <= q)%Q /\ (q <= qmost)%Q.
Proof.
  intros Hne Hplain.
  destruct (analyzeHabitPatterns_full habitData Hne Hplain)
    as (groups & rates & streaks & k0 & keys & Hgroups & Hfold & Hkeys & Hcalc).
  assert (Hall : forall k, In k (k0 :: keys) -> exists q, obj_get rates k = Some q).
  { intros k Hk. apply obj_get_In_keys. now rewrite Hkeys. }
  assert (Hnames : forall k q, obj_get rates k = Some q -> In k (map name habitData)).
  { intros k q Hq.
    destruct (in_dec string_dec k (map name habitData)) as [Hk|Hk]; [exact Hk|].
    destruct (habit_tables_keys habitData groups rates streaks k
                Hplain Hgroups Hfold) as [_ Habsent].
    destruct (Habsent Hk) as [Hnone _]. congruence. }
  destruct (fold_pick_greater rates keys k0 Hall) as [Hmin Hmax].
  destruct (fold_pick_smaller rates keys k0 Hall) as [Hnin Hmin'].
  destruct (Hall _ Hmin) as [qmost Hqmost].
  destruct (Hall _ Hnin) as [qneeds Hqneeds].
  eexists _, rates, _, _, qmost, qneeds.
  split; [exact Hcalc|]. split; [reflexivity|]. split; [reflexivity|].
  split; [reflexivity|].
  split; [exact (Hnames _ _ Hqmost)|]. split; [exact (Hnames _ _ Hqneeds)|].
  split; [exact Hqmost|]. split; [exact Hqneeds|].
  intros k q Hq.
  assert (Hk : In k (k0 :: keys)).
  { rewrite <- Hkeys. apply obj_get_In_keys. eauto. }
  split.
  - apply (Hmin' k q qneeds Hk Hq Hqneeds).
  - apply (Hmax k q qmost Hk Hq Hqmost).
Qed.

(** The instance of X10 at two habits. *)
Lemma most_consistent_and_needs_attention_witness :
  exists r most needs,
    analyzeHabitPatterns (habit_data three_days) = Ok r
    /\ habits_most_consistent_habit r = Some most
    /\ habits_needs_attention r = Some needs.
Proof.
  destruct (most_consistent_and_needs_attention (habit_data three_days))
    as (r & rates & most & needs & qm & qn & Hcalc & _ & Hm & Hn & _).
  - discriminate.
  - intros e He. cbv in He.
    repeat (destruct He as [<-|He]; [reflexivity|]). destruct He.
  - exists r, most, needs. auto.
Defined.

(** X11.  The streak of a habit lies between 0 and the number of
    entries of the habit, and equals that number exactly when every
    entry of the habit has [completed >= target]. *)
Theorem current_streak_bounds (habitData : list HabitEntry)
  (habitName : string) :
  plain_names habitData ->
  In habitName (map name habitData) ->
  let entries := entries_of habitName habitData in
  exists r streaks streak,
    analyzeHabitPatterns habitData = Ok r
    /\ habits_current_streaks r = Some streaks
    /\ obj_get streaks habitName = Some streak
    /\ 0 <= streak <= Z.of_nat (length entries)
    /\ (streak = Z.of_nat (length entries)
        <-> forall e, In e entries -> qualifies e = true).
Proof.
  intros Hplain Hin entries.
  assert (Hne : habitData <> []) by (intros ->; destruct Hin).
  destruct (analyzeHabitPatterns_general habitData Hne Hplain)
    as (rates & streaks & most & needs & Hcalc & Hentry).
  destruct (Hentry habitName Hin) as [Hstreak _]. fold entries in Hstreak.
  destruct (current_streak_trailing (sort_by_date entries))
    as (k & Hk & Hle & Hrun & Hstop).
  pose proof (sort_by_date_perm entries) as Hperm.
  rewrite sort_by_date_length in Hle, Hrun, Hstop.
  eexists _, streaks, _. split; [exact Hcalc|]. split; [reflexivity|].
  split; [exact Hstreak|]. rewrite Hk. split; [lia|]. split.
  - intros Hfull e He. assert (k = length entries) by lia. subst k.
    apply (Permutation_in _ (Permutation_sym Hperm)) in He.
    apply In_nth_error in He as [i Hi].
    apply (Hrun i e); [lia|exact Hi].
  - intros Hall.
    destruct (Nat.eq_dec k (length entries)) as [->|Hneq]; [reflexivity|].
    destruct Hstop as (h & Hnth & Hq); [lia|].
    apply nth_error_In in Hnth. apply (Permutation_in _ Hperm) in Hnth.
    rewrite (Hall h Hnth) in Hq. discriminate.
Qed.

(** The instance of X11 at six daily entries, the third one missed. *)
Lemma current_streak_bounds_witness :
  exists r streaks streak,
    analyzeHabitPatterns (six_days "Hydration") = Ok r
    /\ habits_current_streaks r = Some streaks
    /\ obj_get streaks "Hydration" = Some streak
    /\ 0 <= streak <= 6.
Proof.
  destruct (current_streak_bounds (six_days "Hydration") "Hydration")
    as (r & streaks & streak & Hcalc & Hs & Hget & Hb & _).
  - intros e He. cbv in He.
    repeat (destruct He as [<-|He]; [reflexivity|]). destruct He.
  - left. reflexivity.
  - exists r, streaks, streak. auto.
Defined.

(** *** The order of the habit records *)

Lemma NoDup_map_inj {A B} (f : A -> B) (l : list A) a b :
  NoDup (map f l) -> In a l -> In b l -> f a = f b -> a = b.
Proof.
  induction l as [|c l IH]; intros Hnd Ha Hb Hf; [destruct Ha|].
  cbn [map] in Hnd. inversion Hnd as [|? ? Hnot Hnd']; subst.
  destruct Ha as [<-|Ha], Hb as [<-|Hb]; try reflexivity.
  - exfalso. apply Hnot. rewrite Hf. now apply in_map.
  - exfalso. apply Hnot. rewrite <- Hf. now apply in_map.
  - now apply IH.
Qed.

Lemma date_le_trans : Relations_1.Transitive date_le.
Proof. intros a b c. unfold date_le. lia. Qed.

(** Two date-sorted arrangements of the same entries, of pairwise
    distinct dates, are equal. *)
Lemma sorted_by_date_unique (l : list HabitEntry) : forall l',
  Sorted date_le l -> Sorted date_le l' ->
  Permutation l l' ->
  NoDup (map h_date l) ->
  l = l'.
Proof.
  induction l as [|a t IH]; intros l' Hs Hs' Hperm Hnd.
  - apply Permutation_nil in Hperm. now subst.
  - destruct l' as [|b t'].
    { apply Permutation_sym, Permutation_nil in Hperm. discriminate. }
    apply (Sorted_StronglySorted date_le_trans) in Hs, Hs'.
    inversion Hs as [|? ? Hst Hat]; subst.
    inversion Hs' as [|? ? Hst' Hbt']; subst.
    rewrite Forall_forall in Hat, Hbt'.
    assert (Ha : In a (b :: t')) by (apply (Permutation_in _ Hperm); now left).
    assert (Hb : In b (a :: t))
      by (apply (Permutation_in _ (Permutation_sym Hperm)); now left).
    assert (Hdate : h_date a = h_date b).
    { destruct Ha as [->|Ha]; [reflexivity|].
      destruct Hb as [->|Hb]; [reflexivity|].
      pose proof (Hbt' a Ha). pose proof (Hat b Hb). unfold date_le in *. lia. }
    assert (Hab : a = b)
      by (apply (NoDup_map_inj h_date (a :: t)); auto; now left).
    subst b. f_equal.
    apply IH.
    + now apply StronglySorted_Sorted.
    + now apply StronglySorted_Sorted.
    + now apply Permutation_cons_inv with (a := a).
    + cbn [map] in Hnd. now inversion Hnd.
Qed.

Lemma sort_by_date_canonical (g g' : list HabitEntry) :
  Permutation g g' -> NoDup (map h_date g) ->
  sort_by_date g = sort_by_date g'.
Proof.
  intros Hperm Hnd. apply sorted_by_date_unique.
  - apply sort_by_date_sorted.
  - apply sort_by_date_sorted.
  - eapply perm_trans; [apply sort_by_date_perm|].
    eapply perm_trans; [exact Hperm|]. apply Permutation_sym, sort_by_date_perm.
  - apply (Permutation_NoDup
             (Permutation_map h_date (Permutation_sym (sort_by_date_perm g)))).
    exact Hnd.
Qed.

Lemma overall_completion_perm (habitData habitData' : list HabitEntry) :
  Permutation habitData habitData' ->
  overall_completion habitData = overall_completion habitData'.
Proof.
  intros Hperm. unfold overall_completion.
  now rewrite (sumZ_Permutation _ _ (Permutation_map target Hperm)),
    (sumZ_Permutation _ _ (Permutation_map completed Hperm)).
Qed.

(** X12.  The analysis does not depend on the order of the habit
    records: on a reordered series the analyzer returns the same
    overall rate and the same rate for every habit, and the same streak
    for every habit whose entries bear pairwise distinct dates. *)
Theorem habit_analysis_order_independent (habitData habitData' : list HabitEntry) :
  Permutation habitData habitData' ->
  habitData <> [] ->
  plain_names habitData ->
  exists r r' rates rates' streaks streaks',
    analyzeHabitPatterns habitData = Ok r
    /\ analyzeHabitPatterns habitData' = Ok r'
    /\ habits_overall_completion_rate r = habits_overall_completion_rate r'
    /\ habits_individual_completion_rates r = Some rates
    /\ habits_individual_completion_rates r' = Some rates'
    /\ habits_current_streaks r = Some streaks
    /\ habits_current_streaks r' = Some streaks'
    /\ (forall n, obj_get rates n = obj_get rates' n)
    /\ (forall n, NoDup (map h_date (entries_of n habitData)) ->
                  obj_get streaks n = obj_get streaks' n).
Proof.
  intros Hperm Hne Hplain.
  assert (Hne' : habitData' <> []).
  { intros ->. apply Permutation_sym, Permutation_nil in Hperm. congruence. }
  assert (Hplain' : plain_names habitData').
  { intros e He. apply Hplain. now apply (Permutation_in _ (Permutation_sym Hperm)). }
  destruct (analyzeHabitPatterns_full habitData Hne Hplain)
    as (groups & rates & streaks & k0 & keys & Hgroups & Hfold & _ & Hcalc).
  destruct (analyzeHabitPatterns_full habitData' Hne' Hplain')
    as (groups' & rates' & streaks' & k0' & keys' & Hgroups' & Hfold' & _ & Hcalc').
  eexists _, _, rates, rates', streaks, streaks'.
  split; [exact Hcalc|]. split; [exact Hcalc'|].
  cbn [habits_overall_completion_rate habits_individual_completion_rates
       habits_current_streaks].
  split; [now rewrite (overall_completion_perm _ _ Hperm)|].
  do 4 (split; [reflexivity|]).
  assert (Hentries : forall n,
            Permutation (entries_of n habitData) (entries_of n habitData'))
    by (intros n; now apply filter_perm).
  assert (Hnames : forall n,
            In n (map name habitData) <-> In n (map name habitData')).
  { intros n. split; apply Permutation_in;
      [|apply Permutation_sym]; now apply Permutation_map. }
  split.
  - intros n.
    destruct (habit_tables_keys habitData groups rates streaks n
                Hplain Hgroups Hfold) as [Hin Hout].
    destruct (habit_tables_keys habitData' groups' rates' streaks' n
                Hplain' Hgroups' Hfold') as [Hin' Hout'].
    destruct (in_dec string_dec n (map name habitData)) as [Hn|Hn].
    + destruct (Hin Hn) as [-> _].
      destruct (Hin' (proj1 (Hnames n) Hn)) as [-> _].
      now rewrite (rate_of_perm _ _ (Hentries n)).
    + destruct (Hout Hn) as [-> _].
      destruct (Hout' (fun H => Hn (proj2 (Hnames n) H))) as [-> _].
      reflexivity.
  - intros n Hnd.
    destruct (habit_tables_keys habitData groups rates streaks n
                Hplain Hgroups Hfold) as [Hin Hout].
    destruct (habit_tables_keys habitData' groups' rates' streaks' n
                Hplain' Hgroups' Hfold') as [Hin' Hout'].
    destruct (in_dec string_dec n (map name habitData)) as [Hn|Hn].
    + destruct (Hin Hn) as [_ ->].
      destruct (Hin' (proj1 (Hnames n) Hn)) as [_ ->].
      now rewrite (sort_by_date_canonical _ _ (Hentries n) Hnd).
    + destruct (Hout Hn) as [_ ->].
      destruct (Hout' (fun H => Hn (proj2 (Hnames n) H))) as [_ ->].
      reflexivity.
Qed.

(** The instance of X12 at six daily entries and their reversal. *)
Lemma habit_analysis_order_independent_witness :
  exists r r',
    analyzeHabitPatterns (six_days "Hydration") = Ok r
    /\ analyzeHabitPatterns (rev (six_days "Hydration")) = Ok r'
    /\ habits_overall_completion_rate r = habits_overall_completion_rate r'.
Proof.
  destruct (habit_analysis_order_independent (six_days "Hydration")
              (rev (six_days "Hydration")))
    as (r & r' & _ & _ & _ & _ & Hcalc & Hcalc' & Hoverall & _).
  - apply Permutation_rev.
  - discriminate.
  - intros e He. cbv in He.
    repeat (destruct He as [<-|He]; [reflexivity|]). destruct He.
  - exists r, r'. auto.
Defined.

(** *** The study analyzer *)

Lemma getHours_range tz t : 0 <= getHours tz t < 24.
Proof. unfold getHours. apply Z.mod_pos_bound. lia. Qed.

Lemma hour_cases (P : Z -> Prop) :
  P 0 -> P 1 -> P 2 -> P 3 -> P 4 -> P 5 -> P 6 -> P 7 -> P 8 -> P 9 ->
  P 10 -> P 11 -> P 12 -> P 13 -> P 14 -> P 15 -> P 16 -> P 17 -> P 18 ->
  P 19 -> P 20 -> P 21 -> P 22 -> P 23 ->
  forall h, 0 <= h < 24 -> P h.
Proof.
  intros. replace h with (Z.of_nat (Z.to_nat h)) by lia.
  assert (Hn : (Z.to_nat h < 24)%nat) by lia.
  generalize dependent (Z.to_nat h). intros n Hn.
  do 24 (destruct n as [|n]; [assumption|]). lia.
Qed.

Lemma parseInt_hour_value h :
  0 <= h < 24 -> parseInt (Z_toString h) = Fin (inject_Z h).
Proof. revert h. apply hour_cases; reflexivity. Qed.

Lemma array_index_hour h :
  0 <= h < 24 -> array_index (Z_toString h) = Some (Z.to_N h).
Proof. revert h. apply hour_cases; reflexivity. Qed.

Lemma Z_toString_hour_inj h h' :
  0 <= h < 24 -> 0 <= h' < 24 -> Z_toString h = Z_toString h' -> h = h'.
Proof.
  intros Hh Hh' Heq.
  pose proof (array_index_hour h Hh) as H1.
  pose proof (array_index_hour h' Hh') as H2.
  rewrite Heq in H1. rewrite H1 in H2. injection H2 as H2. lia.
Qed.

Lemma hour_key_eqb h h' :
  0 <= h < 24 -> 0 <= h' < 24 ->
  String.eqb (Z_toString h) (Z_toString h') = (h' =? h).
Proof.
  intros Hh Hh'. destruct (String.eqb_spec (Z_toString h) (Z_toString h')) as [He|He].
  - apply Z_toString_hour_inj in He; auto. subst. now rewrite Z.eqb_refl.
  - symmetry. apply Z.eqb_neq. intros ->. now apply He.
Qed.

(** **** The hour buckets *)

Lemma push_hour_get tz o s k :
  obj_get (push_hour tz o s) k =
  if String.eqb k (Z_toString (getHours tz (timestamp s)))
  then hour_bump (obj_get o k) s
  else obj_get o k.
Proof.
  unfold push_hour. cbv zeta.
  set (hour := Z_toString (getHours tz (timestamp s))).
  destruct (obj_get o hour) as [b|] eqn:Hget.
  - rewrite Hget, obj_get_set.
    destruct (String.eqb_spec k hour) as [->|Hk]; [|reflexivity].
    now rewrite Hget.
  - rewrite obj_get_set_same, !obj_get_set.
    destruct (String.eqb_spec k hour) as [->|Hk]; [|reflexivity].
    now rewrite Hget.
Qed.

Lemma fold_push_hour_get tz l k : forall o,
  obj_get (fold_left (push_hour tz) l o) k =
  fold_left hour_bump
    (filter (fun s => String.eqb k (Z_toString (getHours tz (timestamp s)))) l)
    (obj_get o k).
Proof.
  induction l as [|s l IH]; intros o; cbn [fold_left filter]; [reflexivity|].
  rewrite IH, push_hour_get.
  now destruct (String.eqb k (Z_toString (getHours tz (timestamp s)))).
Qed.

Lemma completed_count_cons s l :
  completed_count (s :: l) =
  (if s_completed s then 1 else 0) + completed_count l.
Proof.
  unfold completed_count. cbn [filter].
  destruct (s_completed s); cbn [length]; lia.
Qed.

Lemma minutes_cons s l : minutes (s :: l) = duration_minutes s + minutes l.
Proof. reflexivity. Qed.

Lemma fold_hour_bump_Some g : forall b,
  fold_left hour_bump g (Some b) =
  Some (mkHourBucket (hb_sessions b + Z.of_nat (length g))
                     (hb_completed b + completed_count g)
                     (hb_totalDuration b + minutes g)).
Proof.
  induction g as [|s g IH]; intros b.
  - cbn [fold_left length]. unfold completed_count, minutes. cbn.
    rewrite !Z.add_0_r. now destruct b.
  - cbn [fold_left]. unfold hour_bump at 2. cbv zeta. rewrite IH.
    rewrite completed_count_cons, minutes_cons.
    cbn [hb_sessions hb_completed hb_totalDuration length].
    rewrite Nat2Z.inj_succ.
    f_equal; f_equal; try lia; destruct (s_completed s); lia.
Qed.

Lemma fold_hour_bump_None g :
  fold_left hour_bump g None =
  match g with
  | [] => None
  | _ => Some (hour_bucket_of g)
  end.
Proof.
  destruct g as [|s g]; [reflexivity|].
  cbn [fold_left]. unfold hour_bump at 2. cbv zeta.
  rewrite fold_hour_bump_Some. unfold hour_bucket_of.
  rewrite completed_count_cons, minutes_cons.
  cbn [hb_sessions hb_completed hb_totalDuration length].
  rewrite Nat2Z.inj_succ.
  f_equal; f_equal; try lia; destruct (s_completed s); lia.
Qed.

Lemma started_at_filter tz h l :
  0 <= h < 24 ->
  filter (fun s => String.eqb (Z_toString h)
                     (Z_toString (getHours tz (timestamp s)))) l
  = started_at tz h l.
Proof.
  intros Hh. unfold started_at. apply filter_ext. intros s.
  apply hour_key_eqb; [exact Hh|apply getHours_range].
Qed.

(** The bucket under the key of an hour stands for the sessions that
    started in that hour. *)
Lemma hourly_get tz (studyData : list StudySession) h :
  0 <= h < 24 ->
  obj_get (fold_left (push_hour tz) studyData []) (Z_toString h) =
  match started_at tz h studyData with
  | [] => None
  | g => Some (hour_bucket_of g)
  end.
Proof.
  intros Hh. rewrite fold_push_hour_get. cbn [obj_get].
  rewrite (started_at_filter tz h studyData Hh), fold_hour_bump_None.
  now destruct (started_at tz h studyData).
Qed.

Lemma push_hour_key_hours tz o s :
  Forall (fun k => exists h, 0 <= h < 24 /\ k = Z_toString h) (Object_keys o) ->
  Forall (fun k => exists h, 0 <= h < 24 /\ k = Z_toString h)
         (Object_keys (push_hour tz o s)).
Proof.
  intros Hall. unfold push_hour. cbv zeta.
  set (hour := Z_toString (getHours tz (timestamp s))).
  assert (Hhour : exists h, 0 <= h < 24 /\ hour = Z_toString h)
    by (eexists; split; [apply (getHours_range tz (timestamp s))|reflexivity]).
  rewrite Forall_forall in Hall.
  destruct (obj_get o hour) as [b|] eqn:Hget.
  - rewrite Hget. apply Forall_forall. intros k Hk.
    apply keys_obj_set in Hk as [->|Hk]; auto.
  - rewrite obj_get_set_same. apply Forall_forall. intros k Hk.
    apply keys_obj_set in Hk as [->|Hk]; [exact Hhour|].
    apply keys_obj_set in Hk as [->|Hk]; auto.
Qed.

(** Keys of hours in enumeration order are in ascending order of the
    hours. *)
Lemma hour_keys_ascending keys :
  Forall (fun k => exists h, 0 <= h < 24 /\ k = Z_toString h) keys ->
  wf_keys keys ->
  exists hs,
    keys = map Z_toString hs
    /\ StronglySorted Z.lt hs
    /\ Forall (fun h => 0 <= h < 24) hs.
Proof.
  induction keys as [|k keys IH]; intros Hall Hwf.
  - exists []. repeat split; constructor.
  - inversion Hall as [|? ? (h & Hh & ->) Hrest]; subst.
    cbn [wf_keys] in Hwf. destruct Hwf as [Hbefore Hwf].
    destruct (IH Hrest Hwf) as (hs & -> & Hsorted & Hrange).
    exists (h :: hs). split; [reflexivity|]. split; [|now constructor].
    constructor; [exact Hsorted|].
    rewrite Forall_forall in *. intros h' Hh'.
    pose proof (Hbefore (Z_toString h') (in_map _ _ _ Hh')) as Hb.
    unfold before_ok in Hb.
    rewrite (array_index_hour h Hh), (array_index_hour h' (Hrange h' Hh')) in Hb.
    lia.
Qed.

Lemma hourly_keys tz (studyData : list StudySession) :
  exists hs,
    Object_keys (fold_left (push_hour tz) studyData []) = map Z_toString hs
    /\ StronglySorted Z.lt hs
    /\ (forall h, In h hs <-> 0 <= h < 24 /\ started_at tz h studyData <> []).
Proof.
  destruct (hour_keys_ascending
              (Object_keys (fold_left (push_hour tz) studyData [])))
    as (hs & Hkeys & Hsorted & Hrange).
  - apply (fold_invariant
             (fun o => Forall (fun k => exists h, 0 <= h < 24 /\ k = Z_toString h)
                              (Object_keys o))).
    + intros o s. apply push_hour_key_hours.
    + constructor.
  - apply (fold_invariant (fun o => wf_keys (Object_keys o))).
    + intros o s. apply push_hour_wf.
    + exact I.
  - exists hs. split; [exact Hkeys|]. split; [exact Hsorted|].
    rewrite Forall_forall in Hrange. intros h. split.
    + intros Hh. split; [now apply Hrange|].
      assert (Hin : In (Z_toString h)
                       (Object_keys (fold_left (push_hour tz) studyData [])))
        by (rewrite Hkeys; now apply in_map).
      apply obj_get_In_keys in Hin as (b & Hb).
      rewrite (hourly_get tz studyData h (Hrange h Hh)) in Hb.
      intros Hnil. rewrite Hnil in Hb. discriminate.
    + intros [Hh Hne].
      assert (Hin : In (Z_toString h)
                       (Object_keys (fold_left (push_hour tz) studyData []))).
      { apply obj_get_In_keys. rewrite (hourly_get tz studyData h Hh).
        destruct (started_at tz h studyData); [congruence|eauto]. }
      rewrite Hkeys in Hin. apply in_map_iff in Hin as (h' & Heq & Hh').
      apply Z_toString_hour_inj in Heq; [now subst|now apply Hrange|exact Hh].
Qed.

(** **** The subject buckets *)

Lemma push_subject_get o s k :
  obj_get (push_subject o s) k =
  if String.eqb k (subject s) && negb (inherited (subject s))
  then subject_bump (obj_get o k) s
  else obj_get o k.
Proof.
  unfold push_subject.
  destruct (inherited (subject s)); [now rewrite andb_false_r|].
  rewrite andb_true_r. cbv zeta.
  destruct (obj_get o (subject s)) as [b|] eqn:Hget.
  - rewrite Hget, obj_get_set.
    destruct (String.eqb_spec k (subject s)) as [->|Hk]; [|reflexivity].
    now rewrite Hget.
  - rewrite obj_get_set_same, !obj_get_set.
    destruct (String.eqb_spec k (subject s)) as [->|Hk]; [|reflexivity].
    now rewrite Hget.
Qed.

Lemma fold_push_subject_get l k : forall o,
  obj_get (fold_left push_subject l o) k =
  if inherited k then obj_get o k
  else fold_left subject_bump (sessions_on k l) (obj_get o k).
Proof.
  induction l as [|s l IH]; intros o; cbn [fold_left];
    [now destruct (inherited k)|].
  rewrite IH, push_subject_get. unfold sessions_on. cbn [filter].
  rewrite (String.eqb_sym (subject s) k).
  destruct (String.eqb_spec k (subject s)) as [->|Hk]; cbn [andb].
  - destruct (inherited (subject s)); reflexivity.
  - reflexivity.
Qed.

Lemma fold_subject_bump_Some g : forall b,
  fold_left subject_bump g (Some b) =
  Some (mkSubjectBucket (sb_sessions b + Z.of_nat (length g))
                        (sb_totalDuration b + minutes g)
                        (sb_completed b + completed_count g)).
Proof.
  induction g as [|s g IH]; intros b.
  - cbn [fold_left length]. unfold completed_count, minutes. cbn.
    rewrite !Z.add_0_r. now destruct b.
  - cbn [fold_left]. unfold subject_bump at 2. cbv zeta. rewrite IH.
    rewrite completed_count_cons, minutes_cons.
    cbn [sb_sessions sb_completed sb_totalDuration length].
    rewrite Nat2Z.inj_succ.
    f_equal; f_equal; try lia; destruct (s_completed s); lia.
Qed.

Lemma fold_subject_bump_None g :
  fold_left subject_bump g None =
  match g with
  | [] => None
  | _ => Some (subject_bucket_of g)
  end.
Proof.
  destruct g as [|s g]; [reflexivity|].
  cbn [fold_left]. unfold subject_bump at 2. cbv zeta.
  rewrite fold_subject_bump_Some. unfold subject_bucket_of.
  rewrite completed_count_cons, minutes_cons.
  cbn [sb_sessions sb_completed sb_totalDuration length].
  rewrite Nat2Z.inj_succ.
  f_equal; f_equal; try lia; destruct (s_completed s); lia.
Qed.

Lemma subjects_get (studyData : list StudySession) subj :
  obj_get (fold_left push_subject studyData []) subj =
  if inherited subj then None
  else match sessions_on subj studyData with
       | [] => None
       | g => Some (subject_bucket_of g)
       end.
Proof.
  rewrite fold_push_subject_get. cbn [obj_get].
  destruct (inherited subj); [reflexivity|].
  rewrite fold_subject_bump_None. now destruct (sessions_on subj studyData).
Qed.

(** **** The shape of the result *)

Lemma analyzeStudyPerformance_full tz (studyData : list StudySession) :
  studyData <> [] ->
  analyzeStudyPerformance tz studyData =
  StudyFull
    (Z.of_nat (length studyData))
    (minutes studyData)
    (round_to 10 (inject_Z (minutes studyData)
                  / inject_Z (Z.of_nat (length studyData))))
    (round_to 1000 (completion_of studyData))
    (fst (fold_left
            (best_hour_step (fold_left (push_hour tz) studyData []))
            (Object_keys (fold_left (push_hour tz) studyData []))
            (None, 0%Q)))
    (fold_left (push_hour tz) studyData [])
    (fold_left push_subject studyData []).
Proof.
  intros Hne. unfold analyzeStudyPerformance.
  destruct studyData as [|s0 rest] eqn:Hdata; [congruence|].
  rewrite <- Hdata.
  replace (length studyData =? 0)%nat with false by (subst; reflexivity).
  cbv zeta.
  rewrite (fold_left_Zplus duration_minutes studyData 0), Z.add_0_l.
  destruct (fold_left _ (Object_keys _) (None, 0%Q)) as [bestHour bestRate].
  reflexivity.
Qed.

(** **** The summary figures *)



(** **** The two dictionaries *)

(** X14.  On a series that is not empty, [hourly_patterns] has one
    bucket for each local hour of the day in which a session started
    and no other property; the bucket counts the sessions of that
    hour, the completed ones among them, and the sum of their minutes;
    and the keys are enumerated in ascending order of the hour. *)
Theorem hourly_patterns_buckets (tz : Z -> Z) (studyData : list StudySession) :
  studyData <> [] ->
  exists hourly hs,
    study_hourly_patterns (analyzeStudyPerformance tz studyData) = Some hourly
    /\ Object_keys hourly = map Z_toString hs
    /\ StronglySorted Z.lt hs
    /\ (forall h, In h hs <-> 0 <= h < 24 /\ started_at tz h studyData <> [])
    /\ (forall h, In h hs ->
          obj_get hourly (Z_toString h)
          = Some (hour_bucket_of (started_at tz h studyData))).
Proof.
  intros Hne. rewrite (analyzeStudyPerformance_full tz studyData Hne).
  cbn [study_hourly_patterns].
  destruct (hourly_keys tz studyData) as (hs & Hkeys & Hsorted & Hin).
  eexists _, hs. split; [reflexivity|]. split; [exact Hkeys|].
  split; [exact Hsorted|]. split; [exact Hin|].
  intros h Hh. apply Hin in Hh as [Hrange Hstarted].
  rewrite (hourly_get tz studyData h Hrange).
  destruct (started_at tz h studyData); [congruence|reflexivity].
Qed.

(** The instance of X14 at three sessions, two of them at nine. *)
Lemma hourly_patterns_buckets_witness :
  exists hourly hs,
    study_hourly_patterns (analyzeStudyPerformance utc three_sessions)
    = Some hourly
    /\ Object_keys hourly = map Z_toString hs.
Proof.
  destruct (hourly_patterns_buckets utc three_sessions)
    as (hourly & hs & Hcalc & Hkeys & _).
  - discriminate.
  - exists hourly, hs. split; [exact Hcalc|exact Hkeys].
Defined.

(** X15.  On a series that is not empty, [subject_performance] has a
    bucket for a subject exactly when the series has a session on it
    and the subject is not the name of a member of [Object.prototype];
    the bucket counts the sessions on the subject, the sum of their
    minutes and the completed ones among them.  The sessions on a
    subject named like such a member, ["constructor"] say, appear in no
    bucket. *)
Theorem subject_performance_buckets (tz : Z -> Z)
  (studyData : list StudySession) :
  studyData <> [] ->
  exists subjects,
    study_subject_performance (analyzeStudyPerformance tz studyData)
    = Some subjects
    /\ (forall subj,
          inherited subj = false ->
          sessions_on subj studyData <> [] ->
          obj_get subjects subj
          = Some (subject_bucket_of (sessions_on subj studyData)))
    /\ (forall subj,
          inherited subj = false ->
          sessions_on subj studyData = [] ->
          obj_get subjects subj = None)
    /\ (forall subj, inherited subj = true -> obj_get subjects subj = None).
Proof.
  intros Hne. rewrite (analyzeStudyPerformance_full tz studyData Hne).
  cbn [study_subject_performance].
  eexists. split; [reflexivity|].
  split; [|split]; intros subj Hinh; rewrite subjects_get, Hinh.
  - intros Hsome. destruct (sessions_on subj studyData); [congruence|reflexivity].
  - intros Hnil. now rewrite Hnil.
  - reflexivity.
Qed.

(** The instance of X15 at three sessions, one of them on a subject
    named ["constructor"]. *)
Lemma subject_performance_buckets_witness :
  exists subjects,
    study_subject_performance (analyzeStudyPerformance utc three_sessions)
    = Some subjects
    /\ obj_get subjects "Physics" = Some (mkSubjectBucket 1 30 0)
    /\ obj_get subjects "constructor" = None.
Proof.
  destruct (subject_performance_buckets utc three_sessions)
    as (subjects & Hcalc & Hsome & _ & Hinh).
  - discriminate.
  - exists subjects. split; [exact Hcalc|]. split.
    + apply (Hsome "Physics"%string); [reflexivity|discriminate].
    + apply (Hinh "constructor"%string). reflexivity.
Defined.

(** **** The best hour *)

Lemma best_hour_step_rate o bestHour bestRate k :
  obj_get o k <> None ->
  best_hour_step o (bestHour, bestRate) k =
  if negb (Qle_bool (rate_at o k) bestRate)
  then (Some (parseInt k), rate_at o k)
  else (bestHour, bestRate).
Proof.
  unfold best_hour_step, rate_at.
  destruct (obj_get o k); [reflexivity|congruence].
Qed.

(** The search ends at the first key of greatest rate, if a rate
    exceeds the initial one. *)
Lemma fold_best_hour_spec o keys :
  (forall k, In k keys -> obj_get o k <> None) ->
  forall bestHour bestRate,
    (fold_left (best_hour_step o) keys (bestHour, bestRate) = (bestHour, bestRate)
     /\ forall k, In k keys -> (rate_at o k <= bestRate)%Q)
    \/ exists l1 k l2,
         keys = l1 ++ k :: l2
         /\ fold_left (best_hour_step o) keys (bestHour, bestRate)
            = (Some (parseInt k), rate_at o k)
         /\ (bestRate < rate_at o k)%Q
         /\ (forall k', In k' l1 -> (rate_at o k' < rate_at o k)%Q)
         /\ (forall k', In k' l2 -> (rate_at o k' <= rate_at o k)%Q).
Proof.
  induction keys as [|k keys IH]; intros Hkeys bestHour bestRate.
  - left. split; [reflexivity|]. intros k [].
  - cbn [fold_left].
    rewrite (best_hour_step_rate o bestHour bestRate k)
      by (apply Hkeys; now left).
    assert (Hrest : forall k', In k' keys -> obj_get o k' <> None)
      by (intros k' Hk'; apply Hkeys; now right).
    destruct (Qle_bool (rate_at o k) bestRate) eqn:Hle; cbn [negb].
    + apply Qle_bool_iff in Hle.
      destruct (IH Hrest bestHour bestRate)
        as [[Hsame Hall]|(l1 & k1 & l2 & -> & Hfold & Hlt & Hbefore & Hafter)].
      * left. split; [exact Hsame|].
        intros k' [<-|Hk']; [exact Hle|now apply Hall].
      * right. exists (k :: l1), k1, l2.
        split; [reflexivity|]. split; [exact Hfold|]. split; [exact Hlt|].
        split; [|exact Hafter].
        intros k' [<-|Hk']; [|now apply Hbefore].
        eapply Qle_lt_trans; eassumption.
    + apply Qle_bool_false in Hle. right.
      destruct (IH Hrest (Some (parseInt k)) (rate_at o k))
        as [[Hsame Hall]|(l1 & k1 & l2 & -> & Hfold & Hlt & Hbefore & Hafter)].
      * exists [], k, keys.
        split; [reflexivity|]. split; [exact Hsame|]. split; [exact Hle|].
        split; [intros k' []|exact Hall].
      * exists (k :: l1), k1, l2.
        split; [reflexivity|]. split; [exact Hfold|].
        split; [eapply Qlt_trans; eassumption|].
        split; [|exact Hafter].
        intros k' [<-|Hk']; [exact Hlt|now apply Hbefore].
Qed.

Lemma wf_keys_app_r l1 : forall l2, wf_keys (l1 ++ l2) -> wf_keys l2.
Proof.
  induction l1 as [|k l1 IH]; intros l2 Hwf; [exact Hwf|].
  cbn [app wf_keys] in Hwf. now apply IH.
Qed.

Lemma rate_at_hour tz (studyData : list StudySession) h :
  0 <= h < 24 ->
  started_at tz h studyData <> [] ->
  rate_at (fold_left (push_hour tz) studyData []) (Z_toString h)
  = completion_of (started_at tz h studyData).
Proof.
  intros Hh Hne. unfold rate_at. rewrite (hourly_get tz studyData h Hh).
  destruct (started_at tz h studyData); [congruence|reflexivity].
Qed.

Lemma completion_of_pos (l : list StudySession) s :
  In s l -> s_completed s = true -> (0 < completion_of l)%Q.
Proof.
  intros Hs Hdone. unfold completion_of.
  assert (Hc : 0 < completed_count l).
  { unfold completed_count.
    assert (Hin : In s (filter s_completed l)) by (apply filter_In; auto).
    destruct (filter s_completed l); [destruct Hin|cbn [length]; lia]. }
  assert (Hn : 0 < Z.of_nat (length l))
    by (destruct l; [destruct Hs|cbn [length]; lia]).
  apply Qlt_shift_div_l.
  - change 0%Q with (inject_Z 0). now rewrite <- Zlt_Qlt.
  - rewrite Qmult_0_l. change 0%Q with (inject_Z 0). now rewrite <- Zlt_Qlt.
Qed.

(** With a completed session in the series the search returns the
    earliest hour of greatest completion. *)
Lemma best_hour_earliest (tz : Z -> Z) (studyData : list StudySession) :
  (exists s, In s studyData /\ s_completed s = true) ->
  exists h,
    study_best_study_hour (analyzeStudyPerformance tz studyData)
    = HourNumber (Fin (inject_Z h))
    /\ 0 <= h < 24
    /\ started_at tz h studyData <> []
    /\ (0 < completion_of (started_at tz h studyData))%Q
    /\ (forall h', 0 <= h' < 24 -> started_at tz h' studyData <> [] ->
          (completion_of (started_at tz h' studyData)
           <= completion_of (started_at tz h studyData))%Q)
    /\ (forall h', 0 <= h' < h -> started_at tz h' studyData <> [] ->
          (completion_of (started_at tz h' studyData)
           < completion_of (started_at tz h studyData))%Q).
Proof.
  intros (s & Hs & Hdone).
  assert (Hne : studyData <> []) by (intros ->; destruct Hs).
  rewrite (analyzeStudyPerformance_full tz studyData Hne).
  set (hourly := fold_left (push_hour tz) studyData []).
  destruct (hourly_keys tz studyData) as (hs & Hkeys & _ & Hin).
  fold hourly in Hkeys.
  assert (Hwf : wf_keys (Object_keys hourly)).
  { apply (fold_invariant (fun o => wf_keys (Object_keys o))).
    - intros o s'. apply push_hour_wf.
    - exact I. }
  assert (Hkey : forall h, 0 <= h < 24 -> started_at tz h studyData <> [] ->
                           In (Z_toString h) (Object_keys hourly)).
  { intros h Hh Hst. rewrite Hkeys. apply in_map. apply Hin. auto. }
  assert (Hown : forall k, In k (Object_keys hourly) -> obj_get hourly k <> None).
  { intros k Hk. apply obj_get_In_keys in Hk as (b & Hb). congruence. }
  destruct (fold_best_hour_spec hourly (Object_keys hourly) Hown None 0%Q)
    as [[_ Hall]|(l1 & k & l2 & Hsplit & Hfold & Hpos & Hbefore & Hafter)].
  - exfalso.
    set (h0 := getHours tz (timestamp s)).
    assert (Hh0 : 0 <= h0 < 24) by apply getHours_range.
    assert (Hs0 : In s (started_at tz h0 studyData)).
    { apply filter_In. split; [exact Hs|]. apply Z.eqb_refl. }
    assert (Hst : started_at tz h0 studyData <> [])
      by (intros Hnil; rewrite Hnil in Hs0; destruct Hs0).
    pose proof (Hall _ (Hkey h0 Hh0 Hst)) as Hle.
    unfold hourly in Hle. rewrite (rate_at_hour tz studyData h0 Hh0 Hst) in Hle.
    pose proof (completion_of_pos _ s Hs0 Hdone). lra.
  - assert (Hk : In k (Object_keys hourly))
      by (rewrite Hsplit; apply in_or_app; right; now left).
    rewrite Hkeys in Hk. apply in_map_iff in Hk as (h & <- & Hh).
    apply Hin in Hh as [Hh Hst].
    exists h. rewrite Hfold. cbn [fst study_best_study_hour].
    rewrite (parseInt_hour_value h Hh).
    assert (Hrate : forall h', 0 <= h' < 24 -> started_at tz h' studyData <> [] ->
              rate_at hourly (Z_toString h')
              = completion_of (started_at tz h' studyData))
      by (intros; now apply rate_at_hour).
    rewrite (Hrate h Hh Hst) in Hpos, Hbefore, Hafter.
    split; [reflexivity|]. split; [exact Hh|]. split; [exact Hst|].
    split; [exact Hpos|].
    assert (Hplace : forall h', 0 <= h' < 24 -> started_at tz h' studyData <> [] ->
              In (Z_toString h') l1 \/ h' = h \/ (In (Z_toString h') l2 /\ h < h')).
    { intros h' Hh' Hst'. pose proof (Hkey h' Hh' Hst') as Hk'.
      rewrite Hsplit in Hk'. apply in_app_or in Hk' as [Hk'|[Hk'|Hk']].
      - now left.
      - right. left. symmetry. now apply Z_toString_hour_inj.
      - right. right. split; [exact Hk'|].
        rewrite Hsplit in Hwf. apply wf_keys_app_r in Hwf.
        cbn [wf_keys] in Hwf. destruct Hwf as [Hfirst _].
        rewrite Forall_forall in Hfirst. pose proof (Hfirst _ Hk') as Hb.
        unfold before_ok in Hb.
        rewrite (array_index_hour h Hh), (array_index_hour h' Hh') in Hb. lia. }
    split.
    + intros h' Hh' Hst'. rewrite <- (Hrate h' Hh' Hst').
      destruct (Hplace h' Hh' Hst') as [H1|[->|[H2 _]]].
      * apply Qlt_le_weak. now apply Hbefore.
      * rewrite (Hrate h Hh Hst). apply Qle_refl.
      * now apply Hafter.
    + intros h' Hh' Hst'.
      assert (Hr' : 0 <= h' < 24) by lia.
      rewrite <- (Hrate h' Hr' Hst').
      destruct (Hplace h' Hr' Hst') as [H1|[->|[_ H2]]]; [|lia|lia].
      now apply Hbefore.
Qed.

(** X16.  On a series that is not empty, [best_study_hour] is [null]
    exactly when no session of the series was completed. *)
Theorem best_study_hour_null_iff (tz : Z -> Z) (studyData : list StudySession) :
  studyData <> [] ->
  (study_best_study_hour (analyzeStudyPerformance tz studyData) = HourNull
   <-> forall s, In s studyData -> s_completed s = false).
Proof.
  intros Hne. split.
  - intros Hnull s Hs. destruct (s_completed s) eqn:Hdone; [|reflexivity].
    destruct (best_hour_earliest tz studyData) as (h & Hbest & _); [eauto|].
    rewrite Hbest in Hnull. discriminate.
  - intros Hnone. rewrite (analyzeStudyPerformance_full tz studyData Hne).
    rewrite fold_best_hour_no_completed
      by (apply fold_push_hour_no_completed; [exact Hnone|intros k b; discriminate]).
    reflexivity.
Qed.

(** The instance of X16 at three sessions, two of them completed. *)
Lemma best_study_hour_null_iff_witness :
  study_best_study_hour (analyzeStudyPerformance utc three_sessions) = HourNull
  <-> forall s, In s three_sessions -> s_completed s = false.
Proof.
  apply (best_study_hour_null_iff utc three_sessions). discriminate.
Defined.

(** X17.  When a session of the series was completed,
    [best_study_hour] is a local hour of the day in which a session
    started, its share of completed sessions is positive and at least
    that of every hour with a session, and greater than that of every
    earlier such hour: of the hours of greatest completion the analyzer
    names the earliest in the day, wherever it comes in the series. *)
Theorem best_study_hour_earliest_of_best (tz : Z -> Z)
  (studyData : list StudySession) :
  (exists s, In s studyData /\ s_completed s = true) ->
  exists h,
    study_best_study_hour (analyzeStudyPerformance tz studyData)
    = HourNumber (Fin (inject_Z h))
    /\ 0 <= h < 24
    /\ started_at tz h studyData <> []
    /\ (0 < completion_of (started_at tz h studyData))%Q
    /\ (forall h', 0 <= h' < 24 -> started_at tz h' studyData <> [] ->
          (completion_of (started_at tz h' studyData)
           <= completion_of (started_at tz h studyData))%Q)
    /\ (forall h', 0 <= h' < h -> started_at tz h' studyData <> [] ->
          (completion_of (started_at tz h' studyData)
           < completion_of (started_at tz h studyData))%Q).
Proof. exact (best_hour_earliest tz studyData). Qed.

(** The instance of X17 at three sessions: half of the two at nine and
    the one at fourteen were completed. *)
Lemma best_study_hour_earliest_of_best_witness :
  exists h,
    study_best_study_hour (analyzeStudyPerformance utc three_sessions)
    = HourNumber (Fin (inject_Z h))
    /\ 0 <= h < 24.
Proof.
  destruct (best_study_hour_earliest_of_best utc three_sessions)
    as (h & Hbest & Hh & _).
  - eexists. split; [left; reflexivity|reflexivity].
  - exists h. split; [exact Hbest|exact Hh].
Defined.

(** *** The assembled report *)

(** X18.  For instants a [Date] can hold, [createWellnessReport] fails
    exactly through the habit analyzer: when no habit is named like a
    member of [Object.prototype] it returns a report, whatever the mood
    and the study series are, whose sections are the results of the
    three analyzers, whose recommendations are generated from them, and
    whose [data_quality] counts the entries of the four series.  When a
    habit bears such a name the [TypeError] is thrown again, whatever
    the instants are: the analyzers run before any date is printed. *)
Theorem createWellnessReport_outcome
  (tz : Z -> Z) (toISOString : Z -> string) (clock : Clock)
  (userId : string) (days : Z) (data : UserData) :
  (report_times_valid clock days ->
   plain_names (habit_data data) ->
   exists report m h,
     createWellnessReport tz toISOString clock userId days data = Ok report
     /\ calculateMoodInsights tz (mood_data data) = Ok m
     /\ analyzeHabitPatterns (habit_data data) = Ok h
     /\ insights report =
          mkInsights (Some m) (Some h)
                     (Some (analyzeStudyPerformance tz (study_data data)))
     /\ recommendations report = generateRecommendations (insights report)
     /\ data_quality report =
          mkDataQuality (Z.of_nat (length (mood_data data)))
                        (Z.of_nat (length (habit_data data)))
                        (Z.of_nat (length (study_data data)))
                        (Z.of_nat (length (period_data data))))
  /\ (forall e, In e (habit_data data) -> inherited (name e) = true ->
        createWellnessReport tz toISOString clock userId days data
        = Throw push_TypeError).
Proof.
  destruct (calculateMoodInsights_total tz (mood_data data)) as [m Hm].
  split.
  - intros _ Hplain.
    destruct (analyzeHabitPatterns_returns (habit_data data) Hplain) as [h Hh].
    unfold createWellnessReport. rewrite Hm, Hh. cbn [bind].
    eexists _, m, h. split; [reflexivity|]. repeat split.
  - intros e He Hinh. unfold createWellnessReport.
    rewrite Hm, (analyzeHabitPatterns_inherited (habit_data data) e He Hinh).
    reflexivity.
Qed.

(** The instance of X18 at a habit named [constructor]. *)
Lemma createWellnessReport_outcome_witness :
  createWellnessReport utc epoch_iso epoch_clock "test_user_1" 30
    inherited_habit
  = Throw push_TypeError.
Proof.
  apply (proj2 (createWellnessReport_outcome utc epoch_iso epoch_clock
                  "test_user_1" 30 inherited_habit)
           (mkHabitEntry "constructor" 0 1 1)).
  - right. left. reflexivity.
  - reflexivity.
Defined.

Lemma needs_attention_is_habit (habitData : list HabitEntry) :
  habitData <> [] ->
  plain_names habitData ->
  exists overall rates streaks most needs,
    analyzeHabitPatterns habitData
    = Ok (HabitFull overall rates streaks most needs)
    /\ In needs (map name habitData).
Proof.
  intros Hne Hplain.
  destruct (analyzeHabitPatterns_full habitData Hne Hplain)
    as (groups & rates & streaks & k0 & keys & Hgroups & Hfold & Hkeys & Hcalc).
  assert (Hall : forall k, In k (k0 :: keys) -> exists q, obj_get rates k = Some q).
  { intros k Hk. apply obj_get_In_keys. now rewrite Hkeys. }
  destruct (fold_pick_smaller rates keys k0 Hall) as [Hnin _].
  destruct (Hall _ Hnin) as [qneeds Hqneeds].
  eexists _, _, _, _, _. split; [exact Hcalc|].
  destruct (in_dec string_dec (fold_left (pick_smaller rates) keys k0)
                   (map name habitData)) as [Hk|Hk]; [exact Hk|].
  destruct (habit_tables_keys habitData groups rates streaks
              (fold_left (pick_smaller rates) keys k0)
              Hplain Hgroups Hfold) as [_ Habsent].
  destruct (Habsent Hk) as [Hnone _]. congruence.
Qed.

(** X19.  Whenever the habit series is not empty (and the report is
    built, the habit names being ordinary and not empty), the report
    recommends attention to the habit [needs_attention], a habit of
    the series, however well that habit was kept. *)
Theorem needs_attention_always_recommended
  (tz : Z -> Z) (toISOString : Z -> string) (clock : Clock)
  (userId : string) (days : Z) (data : UserData) :
  habit_data data <> [] ->
  plain_names (habit_data data) ->
  (forall e, In e (habit_data data) -> name e <> EmptyString) ->
  exists report h needs,
    createWellnessReport tz toISOString clock userId days data = Ok report
    /\ habits (insights report) = Some h
    /\ habits_needs_attention h = Some needs
    /\ In needs (map name (habit_data data))
    /\ In (rec_habit_attention needs) (recommendations report).
Proof.
  intros Hne Hplain Hnames.
  destruct (calculateMoodInsights_total tz (mood_data data)) as [m Hm].
  destruct (needs_attention_is_habit (habit_data data) Hne Hplain)
    as (overall & rates & streaks & most & needs & Hcalc & Hin).
  unfold createWellnessReport. rewrite Hm, Hcalc. cbn [bind].
  eexists _, _, needs. split; [reflexivity|].
  cbn [insights habits recommendations habits_needs_attention].
  split; [reflexivity|]. split; [reflexivity|]. split; [exact Hin|].
  rewrite generateRecommendations_rules.
  cbn [mood habits study section_rules].
  apply in_or_app. right. apply in_or_app. left.
  unfold habit_rules. apply in_or_app. right.
  cbn [habits_needs_attention string_or_undefined].
  apply in_map_iff in Hin as (e & Hname & He).
  pose proof (Hnames e He) as Hnonempty. rewrite Hname in Hnonempty.
  destruct needs as [|c rest]; [congruence|]. left. reflexivity.
Qed.

(** The instance of X19 at two habits that were always met. *)
Lemma needs_attention_always_recommended_witness :
  exists report needs,
    createWellnessReport utc epoch_iso epoch_clock "test_user_1" 30
      perfect_habits = Ok report
    /\ In (rec_habit_attention needs) (recommendations report).
Proof.
  destruct (needs_attention_always_recommended utc epoch_iso epoch_clock
              "test_user_1" 30 perfect_habits)
    as (report & h & needs & Hreport & _ & _ & _ & Hrec).
  - discriminate.
  - intros e He. cbv in He.
    repeat (destruct He as [<-|He]; [reflexivity|]). destruct He.
  - intros e He. cbv in He.
    repeat (destruct He as [<-|He]; [discriminate|]). destruct He.
  - exists report, needs. split; [exact Hreport|exact Hrec].
Defined.

(** *** The study recommendation *)

Lemma hour_toString_hour h :
  0 <= h < 24 -> hour_toString (HourNumber (Fin (inject_Z h))) = Z_toString h.
Proof. revert h. apply hour_cases; reflexivity. Qed.

Lemma truthy_hour_hour h :
  0 <= h < 24 -> truthy_hour (HourNumber (Fin (inject_Z h))) = (0 <? h).
Proof. revert h. apply hour_cases; reflexivity. Qed.

Lemma generateRecommendations_study mo ha s :
  generateRecommendations (mkInsights mo ha (Some s))
  = generateRecommendations (mkInsights mo ha None) ++ study_rules s.
Proof.
  rewrite !generateRecommendations_rules. cbn [mood habits study section_rules].
  now rewrite app_nil_r, app_assoc.
Qed.

(** X20.  The study section adds at most one recommendation, after
    those of the other sections.  It adds none when no session was
    completed.  Otherwise, [h] being the best hour, it adds the advice
    to study at [h:00] when [h] is not 0 and the rounded completion
    rate is below 0.8, and nothing when [h] is 0 (midnight) or the
    rate is at least 0.8. *)
Theorem study_recommendation (tz : Z -> Z) (studyData : list StudySession)
  (mo : option MoodInsights) (ha : option HabitInsights) :
  let s := analyzeStudyPerformance tz studyData in
  let rate := round_to 1000 (completion_of studyData) in
  let others := generateRecommendations (mkInsights mo ha None) in
  let all := generateRecommendations (mkInsights mo ha (Some s)) in
  ((forall x, In x studyData -> s_completed x = false) -> all = others)
  /\ ((exists x, In x studyData /\ s_completed x = true) ->
      exists h,
        study_best_study_hour s = HourNumber (Fin (inject_Z h))
        /\ 0 <= h < 24
        /\ (0 < h -> (rate < 8 # 10)%Q ->
            all = others ++ [rec_study_hour (Z_toString h)])
        /\ (h = 0 \/ (8 # 10 <= rate)%Q -> all = others)).
Proof.
  cbv zeta. rewrite generateRecommendations_study. split.
  - intros Hnone. rewrite <- app_nil_r. f_equal. unfold study_rules.
    destruct studyData as [|s0 rest] eqn:Hdata; [reflexivity|].
    rewrite <- Hdata in *.
    assert (Hne : studyData <> []) by (subst; discriminate).
    rewrite (analyzeStudyPerformance_full tz studyData Hne).
    rewrite fold_best_hour_no_completed
      by (apply fold_push_hour_no_completed; [exact Hnone|intros k b; discriminate]).
    reflexivity.
  - intros Hsome.
    destruct (best_hour_earliest tz studyData Hsome) as (h & Hbest & Hh & _).
    exists h. split; [exact Hbest|]. split; [exact Hh|].
    assert (Hne : studyData <> [])
      by (destruct Hsome as (x & Hx & _); intros ->; destruct Hx).
    unfold study_rules. rewrite Hbest, (truthy_hour_hour h Hh),
      (hour_toString_hour h Hh).
    rewrite (analyzeStudyPerformance_full tz studyData Hne).
    cbn [study_completion_rate num_of]. unfold js_lt. cbn [js_gt].
    split.
    + intros Hpos Hrate.
      replace (0 <? h) with true by (symmetry; apply Z.ltb_lt; exact Hpos).
      destruct (Qle_bool (8 # 10) (round_to 1000 (completion_of studyData)))
        eqn:Hle; [|reflexivity].
      apply Qle_bool_iff in Hle. exfalso.
      apply (Qlt_not_le _ _ Hrate Hle).
    + intros [->|Hrate]; [now rewrite app_nil_r|].
      apply Qle_bool_iff in Hrate. rewrite Hrate. cbn [negb].
      rewrite andb_false_r. now rewrite app_nil_r.
Qed.

(** The instance of X20 at three sessions, two of them completed. *)
Lemma study_recommendation_witness :
  exists h,
    study_best_study_hour (analyzeStudyPerformance utc three_sessions)
    = HourNumber (Fin (inject_Z h))
    /\ 0 <= h < 24.
Proof.
  destruct (proj2 (study_recommendation utc three_sessions None None))
    as (h & Hbest & Hh & _).
  - eexists. split; [left; reflexivity|reflexivity].
  - exists h. split; [exact Hbest|exact Hh].
Defined.

(** *** The rows of the CSV export *)

Lemma csv_rows_sections (report : Report) :
  csv_rows report =
  ("metric,value,category"%string
     :: csv_mood_rows [] report ++ csv_habit_rows [] report
        ++ csv_study_rows [] report)
  ++ map numbered_row (number_from 1 (recommendations report)).
Proof.
  unfold csv_rows.
  rewrite (forEach_recommendation_numbered (recommendations report) _ 0).
  f_equal.
  rewrite csv_study_rows_app, csv_habit_rows_app, csv_mood_rows_app.
  unfold push. simpl. now rewrite <- !app_assoc.
Qed.

Lemma number_from_length first recs :
  length (number_from first recs) = length recs.
Proof.
  unfold number_from. rewrite length_combine, length_map, length_seq.
  apply Nat.min_id.
Qed.

(** X21.  The CSV export of an assembled report has the header row,
    three mood rows, two habit rows, three study rows and one row per
    recommendation; a figure the insight object does not have is
    written as the word [undefined] (both habit rows of an empty habit
    series, the completion rate and the best hour of an empty study
    series), and a best hour that is [null] as the word [null]. *)
Theorem csv_rows_of_assembled_report
  (tz : Z -> Z) (toISOString : Z -> string) (clock : Clock)
  (userId : string) (days : Z) (data : UserData) (report : Report) :
  createWellnessReport tz toISOString clock userId days data = Ok report ->
  let rows := csv_rows report in
  length rows = (9 + length (recommendations report))%nat
  /\ nth 0 rows EmptyString = "metric,value,category"%string
  /\ (habit_data data = [] ->
      nth 4 rows EmptyString = "habit_completion_rate,undefined,habits"%string
      /\ nth 5 rows EmptyString
         = "most_consistent_habit,undefined,habits"%string)
  /\ (study_data data = [] ->
      nth 6 rows EmptyString = "study_completion_rate,undefined,study"%string
      /\ nth 8 rows EmptyString = "best_study_hour,undefined,study"%string)
  /\ (study_data data <> [] ->
      (forall s, In s (study_data data) -> s_completed s = false) ->
      nth 8 rows EmptyString = "best_study_hour,null,study"%string).
Proof.
  intros Hreport rows. subst rows.
  destruct (createWellnessReport_inv _ _ _ _ _ _ _ Hreport)
    as (m & h & Hm & Hh & Hins & _).
  rewrite csv_rows_sections.
  unfold csv_mood_rows, csv_habit_rows, csv_study_rows, push.
  rewrite Hins. cbn [mood habits study app].
  split.
  { cbn [length]. rewrite length_map, number_from_length. reflexivity. }
  split; [reflexivity|].
  split; [|split].
  - intros Hnil. rewrite Hnil in Hh. injection Hh as <-.
    split; reflexivity.
  - intros Hnil. rewrite Hnil. split; reflexivity.
  - intros Hne Hnone.
    rewrite (analyzeStudyPerformance_full tz (study_data data) Hne).
    rewrite fold_best_hour_no_completed
      by (apply fold_push_hour_no_completed; [exact Hnone|intros k b; discriminate]).
    reflexivity.
Qed.

(** The instance of X21 at a window with a single mood entry. *)
Lemma csv_rows_of_assembled_report_witness :
  exists report,
    createWellnessReport utc epoch_iso epoch_clock "test_user_1" 0 single_day
    = Ok report
    /\ length (csv_rows report) = (9 + length (recommendations report))%nat.
Proof.
  destruct (createWellnessReport utc epoch_iso epoch_clock "test_user_1" 0
              single_day) as [report|msg] eqn:Hreport;
    [|vm_compute in Hreport; discriminate].
  exists report. split; [reflexivity|].
  exact (proj1 (csv_rows_of_assembled_report utc epoch_iso epoch_clock
                  "test_user_1" 0 single_day report Hreport)).
Defined.

(** *** Reading back the JSON export of any report *)

Lemma single_entry_slope tz (e : MoodEntry) :
  exists average trend volatility best worst patterns,
    calculateMoodInsights tz [e]
    = Ok (MoodFull average trend NaN volatility best worst patterns).
Proof.
  destruct (calculateMoodInsights_shape tz [e] ltac:(discriminate))
    as (variance & best & worst & patterns & Hshape & _).
  cbv zeta in Hshape. change (levels [e]) with [mood_level e] in Hshape.
  rewrite ols_num_single in Hshape.
  change (js_div (Fin (inject_Z 0)) (Fin (inject_Z (ols_den (length [mood_level e])))))
    with NaN in Hshape.
  eexists _, _, _, _, _, _. exact Hshape.
Qed.

(** X22.  The JSON export of every assembled report is written, and
    reading it back yields the report with [null] in the place of each
    number that is not finite and the positive zero in the place of
    the negative one.  With exactly one mood entry [trend_slope] is
    [NaN] and is read back as [null]; a [trend_slope] that is the
    negative zero is read back as 0; in both cases the value read back
    differs from the report.  On data as the application records them,
    with any other number of mood entries and a [trend_slope] that is
    not the negative zero, the value read back is the report. *)
Theorem json_export_reads_back
  (tz : Z -> Z) (toISOString : Z -> string) (clock : Clock)
  (userId : string) (days : Z) (data : UserData) (report : Report)
  (today : string) (outputPath : option string) :
  createWellnessReport tz toISOString clock userId days data = Ok report ->
  exists document,
    snd (exportReportJSON today report outputPath) = Some document
    /\ JSON_parse document = nulled (js_of_report report)
    /\ (length (mood_data data) = 1%nat ->
        js_path ["insights"; "mood"; "trend_slope"]%string
                (js_of_report report) = Some (JNumber NaN)
        /\ js_path ["insights"; "mood"; "trend_slope"]%string
                   (JSON_parse document) = Some JNull
        /\ JSON_parse document <> js_of_report report)
    /\ (forall m, mood (insights report) = Some m ->
                  mood_trend_slope m = Some NegZero ->
        js_path ["insights"; "mood"; "trend_slope"]%string
                (js_of_report report) = Some (JNumber NegZero)
        /\ js_path ["insights"; "mood"; "trend_slope"]%string
                   (JSON_parse document) = Some (JNumber (Fin 0))
        /\ JSON_parse document <> js_of_report report)
    /\ (natural_data data ->
        length (mood_data data) <> 1%nat ->
        (forall m, mood (insights report) = Some m ->
                   mood_trend_slope m <> Some NegZero) ->
        JSON_parse document = js_of_report report).
Proof.
  intros Hreport. unfold exportReportJSON. cbn [snd].
  destruct (JSON_roundtrip_writable (js_of_report report))
    as (document & Hdoc & Hparse);
    [now apply (createWellnessReport_writable tz toISOString clock userId
                  days data)|].
  exists document. split; [exact Hdoc|]. split; [exact Hparse|].
  destruct (createWellnessReport_inv _ _ _ _ _ _ _ Hreport)
    as (m & h & Hm & Hh & Hins & _).
  split; [|split].
  - intros Hlen.
    destruct (mood_data data) as [|e [|e' rest]]; try discriminate Hlen.
    destruct (single_entry_slope tz e)
      as (average & trend & volatility & best & worst & patterns & Hsingle).
    rewrite Hsingle in Hm. apply Ok_inj in Hm. subst m.
    assert (Hbefore :
              js_path ["insights"; "mood"; "trend_slope"]%string
                      (js_of_report report) = Some (JNumber NaN)).
    { unfold js_of_report, js_of_insights. rewrite Hins. reflexivity. }
    assert (Hafter :
              js_path ["insights"; "mood"; "trend_slope"]%string
                      (nulled (js_of_report report)) = Some JNull).
    { unfold js_of_report, js_of_insights. rewrite Hins. reflexivity. }
    rewrite Hparse. split; [exact Hbefore|]. split; [exact Hafter|].
    intros Heq. rewrite Heq in Hafter. rewrite Hbefore in Hafter. discriminate.
  - intros m' Hm' Hslope. rewrite Hins in Hm'. cbn [mood] in Hm'.
    assert (Heq : m = m') by congruence. subst m'.
    destruct (negative_zero_slope_read_back report m h _ Hins Hslope)
      as [Hbefore Hafter].
    rewrite Hparse. split; [exact Hbefore|]. split; [exact Hafter|].
    intros Heq. rewrite Heq in Hafter. rewrite Hbefore in Hafter. discriminate.
  - intros _ Hlen Hsigned. rewrite Hparse. apply nulled_safe.
    now apply (createWellnessReport_safe tz toISOString clock userId days data).
Qed.

(** The instance of X22 at fifty days of a slope that rounds to the
    negative zero. *)
Lemma json_export_reads_back_witness :
  exists report document,
    createWellnessReport utc epoch_iso epoch_clock "test_user_1" 50 fifty_days
    = Ok report
    /\ snd (exportReportJSON "1970-01-01" report None) = Some document
    /\ js_path ["insights"; "mood"; "trend_slope"]%string
               (js_of_report report) = Some (JNumber NegZero)
    /\ js_path ["insights"; "mood"; "trend_slope"]%string
               (JSON_parse document) = Some (JNumber (Fin 0)).
Proof.
  destruct (createWellnessReport utc epoch_iso epoch_clock "test_user_1" 50
              fifty_days) as [report|msg] eqn:Hreport;
    [|vm_compute in Hreport; discriminate].
  destruct (json_export_reads_back utc epoch_iso epoch_clock "test_user_1" 50
              fifty_days report "1970-01-01" None Hreport)
    as (document & Hdoc & _ & _ & Hzero & _).
  destruct (createWellnessReport_inv _ _ _ _ _ _ _ Hreport)
    as (m & h & Hm & _ & Hins & _).
  destruct (Hzero m) as (Hbefore & Hafter & _).
  - now rewrite Hins.
  - vm_compute in Hm. apply Ok_inj in Hm. subst m. reflexivity.
  - exists report, document. auto.
Defined.

(** *** Mock data *)

Lemma floor_scaled (u : Q) (n : Z) :
  (0 <= u)%Q -> (u < 1)%Q -> 0 < n ->
  0 <= Math_floor (u * inject_Z n) < n.
Proof.
  intros H0 H1 Hn. unfold Math_floor.
  assert (Hpos : (0 < inject_Z n)%Q)
    by (change 0%Q with (inject_Z 0); now rewrite <- Zlt_Qlt).
  pose proof (Qfloor_le (u * inject_Z n)) as Hle.
  pose proof (Qlt_floor (u * inject_Z n)) as Hlt.
  assert (Hx0 : (0 <= u * inject_Z n)%Q)
    by (apply Qmult_le_0_compat; [exact H0|now apply Qlt_le_weak]).
  assert (Hxn : (u * inject_Z n < inject_Z n)%Q).
  { rewrite <- (Qmult_1_l (inject_Z n)) at 2.
    apply Qmult_lt_compat_r; assumption. }
  split.
  - assert (H : (inject_Z 0 < inject_Z (Qfloor (u * inject_Z n) + 1))%Q)
      by (change (inject_Z 0) with 0%Q; eapply Qle_lt_trans; eassumption).
    rewrite <- Zlt_Qlt in H. lia.
  - rewrite Zlt_Qlt. eapply Qle_lt_trans; eassumption.
Qed.

(** **** The loop over the days *)

Section Days.

Variable getDate : Z -> Z.
Variable setDate : Z -> Z -> Z.
Variable min_day : Z.
Hypothesis Hadvance : days_advance getDate setDate min_day.

Lemma fuel_step (endDate currentDate : Z) (fuel : nat) :
  currentDate <= endDate ->
  enough_fuel min_day currentDate endDate (S fuel) ->
  enough_fuel min_day (next_day getDate setDate currentDate) endDate fuel.
Proof.
  destruct Hadvance as [Hpos Hstep]. unfold enough_fuel. intros Hle Hfuel.
  pose proof (Hstep currentDate) as Hnext.
  set (next := next_day getDate setDate currentDate) in *.
  assert (Hdiv : (endDate - next) / min_day + 1 <= (endDate - currentDate) / min_day).
  { replace ((endDate - next) / min_day + 1)
      with ((endDate - next + 1 * min_day) / min_day)
      by (rewrite Z.div_add; lia).
    apply Z.div_le_mono; lia. }
  assert (H0 : 0 <= (endDate - currentDate) / min_day)
    by (apply Z.div_pos; lia).
  lia.
Qed.

(** With enough fuel the loop ends, and what each turn preserves holds
    in the end. *)
Lemma while_days_spec {St : Type} (P : Z -> St -> Prop)
  (body : Z -> St -> St) (endDate : Z) :
  (forall d st, d <= endDate -> P d st ->
                P (next_day getDate setDate d) (body d st)) ->
  forall fuel currentDate st,
    enough_fuel min_day currentDate endDate fuel ->
    P currentDate st ->
    exists d' st',
      while_days getDate setDate fuel body endDate currentDate st = Some st'
      /\ P d' st' /\ endDate < d'.
Proof.
  intros Hbody. induction fuel as [|fuel IH]; intros currentDate st Hfuel HP.
  - unfold enough_fuel in Hfuel. lia.
  - cbn [while_days]. destruct (Z.leb_spec currentDate endDate) as [Hle|Hgt].
    + apply IH; [now apply fuel_step|now apply Hbody].
    + exists currentDate, st. auto.
Qed.

(** Two loops over the same days keep what their turns keep. *)
Lemma while_days_rel {S1 S2 : Type} (R : S1 -> S2 -> Prop)
  (body1 : Z -> S1 -> S1) (body2 : Z -> S2 -> S2) (endDate : Z) :
  (forall d s1 s2, R s1 s2 -> R (body1 d s1) (body2 d s2)) ->
  forall fuel currentDate s1 s2 r1 r2,
    R s1 s2 ->
    while_days getDate setDate fuel body1 endDate currentDate s1 = Some r1 ->
    while_days getDate setDate fuel body2 endDate currentDate s2 = Some r2 ->
    R r1 r2.
Proof.
  intros Hbody. induction fuel as [|fuel IH];
    intros currentDate s1 s2 r1 r2 HR H1 H2; [discriminate|].
  cbn [while_days] in H1, H2. destruct (currentDate <=? endDate).
  - eapply IH; [|exact H1|exact H2]. now apply Hbody.
  - injection H1 as <-. injection H2 as <-. exact HR.
Qed.

Lemma next_day_later d : d < next_day getDate setDate d.
Proof. destruct Hadvance as [Hpos Hstep]. pose proof (Hstep d). lia. Qed.

End Days.

Lemma StronglySorted_snoc {A} (R : A -> A -> Prop) (l : list A) (a : A) :
  StronglySorted R l -> (forall b, In b l -> R b a) ->
  StronglySorted R (l ++ [a]).
Proof.
  induction 1 as [|b l Hl IH Hb]; intros Hall; cbn [app].
  - constructor; constructor.
  - constructor.
    + apply IH. intros c Hc. apply Hall. now right.
    + rewrite Forall_forall in *. intros c Hc.
      apply in_app_or in Hc as [Hc|[<-|[]]]; [now apply Hb|].
      apply Hall. now left.
Qed.

(** **** Mood *)

Lemma generateMockMoodData_spec (getDate : Z -> Z) (setDate : Z -> Z -> Z)
  (random : nat -> Q) (min_day : Z) (fuel : nat) (startDate endDate : Z)
  (calls : nat) :
  unit_random random ->
  days_advance getDate setDate min_day ->
  enough_fuel min_day startDate endDate fuel ->
  exists moodData calls',
    generateMockMoodData getDate setDate random fuel startDate endDate calls
    = Some (moodData, calls')
    /\ (forall e, In e moodData ->
          1 <= mood_level e <= 5
          /\ 1 <= energy_level e <= 100
          /\ startDate <= m_date e <= endDate)
    /\ StronglySorted (fun a b => m_date a < m_date b) moodData
    /\ (startDate <= endDate -> moodData <> [])
    /\ calls' = (calls + 2 * length moodData)%nat.
Proof.
  intros Hrandom Hadvance Hfuel. unfold generateMockMoodData.
  destruct (while_days_spec getDate setDate min_day Hadvance
              (fun d st =>
                 (forall e, In e (fst st) ->
                    1 <= mood_level e <= 5
                    /\ 1 <= energy_level e <= 100
                    /\ startDate <= m_date e <= endDate
                    /\ m_date e < d)
                 /\ StronglySorted (fun a b => m_date a < m_date b) (fst st)
                 /\ (d = startDate \/ fst st <> [])
                 /\ snd st = (calls + 2 * length (fst st))%nat
                 /\ startDate <= d)
              (mock_mood_day random) endDate)
    with (fuel := fuel) (currentDate := startDate)
         (st := (@nil MoodEntry, calls))
    as (d' & [moodData calls'] & Hrun & (Hall & Hsorted & Hfirst & Hcalls & _) & Hend).
  - intros d [moodData c] Hd (Hall & Hsorted & _ & Hcalls & Hstart).
    cbn [fst snd] in *. unfold mock_mood_day, push. cbn [fst snd].
    pose proof (next_day_later getDate setDate min_day Hadvance d) as Hnext.
    split; [|split; [|split; [|split]]].
    + intros e He. apply in_app_or in He as [He|[<-|[]]].
      * destruct (Hall e He) as (H1 & H2 & H3 & H4). repeat split; lia.
      * cbn [mood_level energy_level m_date].
        destruct (Hrandom c) as [Hc0 Hc1].
        destruct (Hrandom (S c)) as [Hs0 Hs1].
        pose proof (floor_scaled (random c) 5 Hc0 Hc1 ltac:(lia)) as Hm.
        pose proof (floor_scaled (random (S c)) 100 Hs0 Hs1 ltac:(lia)) as He.
        change (inject_Z 5) with 5%Q in Hm.
        change (inject_Z 100) with 100%Q in He.
        repeat split; lia.
    + apply StronglySorted_snoc; [exact Hsorted|].
      intros b Hb. cbn [m_date]. now apply Hall.
    + right. now destruct moodData.
    + rewrite length_app. cbn [length]. lia.
    + lia.
  - exact Hfuel.
  - cbn [fst snd]. split; [intros e []|]. split; [constructor|].
    split; [now left|]. split; [cbn [length]; lia|lia].
  - cbn [fst snd] in *. exists moodData, calls'. split; [exact Hrun|].
    split; [|split; [exact Hsorted|split; [|exact Hcalls]]].
    + intros e He. destruct (Hall e He) as (H1 & H2 & H3 & _). auto.
    + intros Hle. destruct Hfirst as [->|Hne]; [lia|exact Hne].
Qed.

(** X23.  With enough fuel the mock mood series is produced,
    whatever numbers [Math.random] draws: its entries bear strictly
    increasing dates of the window, it is not empty when the window
    is not, every mood level lies between 1 and 5 and every energy
    level between 1 and 100, and two random numbers were drawn per
    entry. *)
Theorem mock_mood_data (getDate : Z -> Z) (setDate : Z -> Z -> Z)
  (random : nat -> Q) (min_day : Z) (fuel : nat) (startDate endDate : Z)
  (calls : nat) :
  unit_random random ->
  days_advance getDate setDate min_day ->
  enough_fuel min_day startDate endDate fuel ->
  exists moodData calls',
    generateMockMoodData getDate setDate random fuel startDate endDate calls
    = Some (moodData, calls')
    /\ (forall e, In e moodData ->
          1 <= mood_level e <= 5
          /\ 1 <= energy_level e <= 100
          /\ startDate <= m_date e <= endDate)
    /\ StronglySorted (fun a b => m_date a < m_date b) moodData
    /\ (startDate <= endDate -> moodData <> [])
    /\ calls' = (calls + 2 * length moodData)%nat.
Proof.
  exact (generateMockMoodData_spec getDate setDate random min_day fuel startDate endDate calls).
Qed.

(** The instance of X23 at a window of three days. *)
Lemma mock_mood_data_witness :
  exists moodData calls',
    generateMockMoodData plain_getDate plain_setDate half_random 4
      0 172800000 0 = Some (moodData, calls')
    /\ calls' = (0 + 2 * length moodData)%nat.
Proof.
  destruct (mock_mood_data plain_getDate plain_setDate half_random 86400000
              4 0 172800000 0)
    as (moodData & calls' & Hrun & _ & _ & _ & Hcalls).
  - intros k. unfold half_random. split; [discriminate|reflexivity].
  - split; [lia|]. intros t. unfold next_day, plain_getDate, plain_setDate.
    pose proof (Z.div_mod t 86400000 ltac:(lia)). lia.
  - unfold enough_fuel. vm_compute. lia.
  - exists moodData, calls'. split; [exact Hrun|exact Hcalls].
Defined.

(** **** Habits *)

Lemma mock_habit_day_eq (random : nat -> Q) d habitData calls :
  mock_habit_day random d (habitData, calls) =
  (habitData ++
   map (fun kh =>
          mkHabitEntry (snd kh) d
            (if js_gt (Fin (random (calls + fst kh)%nat)) (Fin (3 # 10))
             then 1 else 0) 1)
       (combine (seq 0 4) mock_habits),
   (calls + 4)%nat).
Proof.
  unfold mock_habit_day, mock_habits. cbn [fold_left mock_habit_entry].
  unfold push. rewrite <- !app_assoc. cbn [app seq combine map fst snd].
  rewrite !Nat.add_0_r.
  replace (calls + 1)%nat with (S calls) by lia.
  replace (calls + 2)%nat with (S (S calls)) by lia.
  replace (calls + 3)%nat with (S (S (S calls))) by lia.
  replace (calls + 4)%nat with (S (S (S (S calls)))) by lia.
  reflexivity.
Qed.

Lemma mock_habits_plain habit : In habit mock_habits -> inherited habit = false.
Proof.
  intros Hin. cbv in Hin.
  repeat (destruct Hin as [<-|Hin]; [reflexivity|]). destruct Hin.
Qed.

Lemma generateMockHabitData_spec (getDate : Z -> Z) (setDate : Z -> Z -> Z)
  (random : nat -> Q) (min_day : Z) (fuel : nat) (startDate endDate : Z)
  (calls : nat) :
  days_advance getDate setDate min_day ->
  enough_fuel min_day startDate endDate fuel ->
  exists habitData calls' visited,
    generateMockHabitData getDate setDate random fuel startDate endDate calls
    = Some (habitData, calls')
    /\ (forall e, In e habitData ->
          In (name e) mock_habits
          /\ target e = 1
          /\ (completed e = 0 \/ completed e = 1)
          /\ startDate <= h_date e <= endDate)
    /\ plain_names habitData
    /\ map name habitData = concat (repeat mock_habits visited)
    /\ calls' = (calls + length habitData)%nat.
Proof.
  intros Hadvance Hfuel. unfold generateMockHabitData.
  destruct (while_days_spec getDate setDate min_day Hadvance
              (fun d st =>
                 (forall e, In e (fst st) ->
                    In (name e) mock_habits
                    /\ target e = 1
                    /\ (completed e = 0 \/ completed e = 1)
                    /\ startDate <= h_date e <= endDate)
                 /\ (exists visited,
                       map name (fst st) = concat (repeat mock_habits visited))
                 /\ snd st = (calls + length (fst st))%nat
                 /\ startDate <= d)
              (mock_habit_day random) endDate)
    with (fuel := fuel) (currentDate := startDate)
         (st := (@nil HabitEntry, calls))
    as (d' & [habitData calls'] & Hrun & (Hall & [visited Hnames] & Hcalls & _) & Hend).
  - intros d [habitData c] Hd (Hall & [visited Hnames] & Hcalls & Hstart).
    rewrite mock_habit_day_eq. cbn [fst snd] in *.
    pose proof (next_day_later getDate setDate min_day Hadvance d) as Hnext.
    split; [|split; [|split]].
    + intros e He. apply in_app_or in He as [He|He]; [now apply Hall|].
      cbn [seq combine map mock_habits] in He.
      repeat (destruct He as [<-|He];
              [cbn [name target completed h_date fst snd];
               split; [cbv; tauto|];
               split; [reflexivity|];
               split; [destruct (js_gt _ _); auto|lia]|]).
      destruct He.
    + exists (S visited). rewrite map_app, Hnames.
      replace (S visited) with (visited + 1)%nat by lia.
      rewrite repeat_app, concat_app. f_equal.
    + rewrite length_app, length_map, length_combine. cbn. lia.
    + lia.
  - exact Hfuel.
  - cbn [fst snd]. split; [intros e []|]. split; [now exists 0%nat|].
    split; [cbn [length]; lia|lia].
  - cbn [fst snd] in *. exists habitData, calls', visited.
    split; [exact Hrun|]. split; [exact Hall|].
    split; [|split; [exact Hnames|exact Hcalls]].
    intros e He. apply mock_habits_plain. now apply Hall.
Qed.

(** X24.  With enough fuel the mock habit series is produced,
    whatever numbers [Math.random] draws: the names of its entries
    are the four habit names in their order, once for each day
    visited, none of them the name of a member of [Object.prototype];
    every entry has the target 1, [completed] 0 or 1 and a date of the
    window; and one random number was drawn per entry. *)
Theorem mock_habit_data (getDate : Z -> Z) (setDate : Z -> Z -> Z)
  (random : nat -> Q) (min_day : Z) (fuel : nat) (startDate endDate : Z)
  (calls : nat) :
  days_advance getDate setDate min_day ->
  enough_fuel min_day startDate endDate fuel ->
  exists habitData calls' visited,
    generateMockHabitData getDate setDate random fuel startDate endDate calls
    = Some (habitData, calls')
    /\ (forall e, In e habitData ->
          In (name e) mock_habits
          /\ target e = 1
          /\ (completed e = 0 \/ completed e = 1)
          /\ startDate <= h_date e <= endDate)
    /\ plain_names habitData
    /\ map name habitData = concat (repeat mock_habits visited)
    /\ calls' = (calls + length habitData)%nat.
Proof.
  exact (generateMockHabitData_spec getDate setDate random min_day fuel startDate endDate calls).
Qed.

(** The instance of X24 at a window of three days. *)
Lemma mock_habit_data_witness :
  exists habitData calls',
    generateMockHabitData plain_getDate plain_setDate half_random 4
      0 172800000 0 = Some (habitData, calls')
    /\ plain_names habitData.
Proof.
  destruct (mock_habit_data plain_getDate plain_setDate half_random 86400000
              4 0 172800000 0)
    as (habitData & calls' & visited & Hrun & _ & Hplain & _).
  - split; [lia|]. intros t. unfold next_day, plain_getDate, plain_setDate.
    pose proof (Z.div_mod t 86400000 ltac:(lia)). lia.
  - unfold enough_fuel. vm_compute. lia.
  - exists habitData, calls'. split; [exact Hrun|exact Hplain].
Defined.

(** **** Study sessions *)

Lemma mock_subject_drawn (u : Q) :
  (0 <= u)%Q -> (u < 1)%Q ->
  In (string_or_undefined
        (array_get mock_subjects
           (Math_floor (u * inject_Z (Z.of_nat (length mock_subjects))))))
     mock_subjects.
Proof.
  intros H0 H1.
  pose proof (floor_scaled u 3 H0 H1 ltac:(lia)) as Hidx.
  change (inject_Z (Z.of_nat (length mock_subjects))) with (inject_Z 3).
  set (i := Math_floor (u * inject_Z 3)) in *.
  assert (Hi : i = 0 \/ i = 1 \/ i = 2) by lia.
  destruct Hi as [Hi | [Hi | Hi]]; rewrite Hi; cbv; tauto.
Qed.

Lemma generateMockStudyData_spec (getDate : Z -> Z) (setDate : Z -> Z -> Z)
  (random : nat -> Q) (min_day : Z) (fuel : nat) (startDate endDate : Z)
  (calls : nat) :
  unit_random random ->
  days_advance getDate setDate min_day ->
  enough_fuel min_day startDate endDate fuel ->
  exists studyData calls',
    generateMockStudyData getDate setDate random fuel startDate endDate calls
    = Some (studyData, calls')
    /\ (forall s, In s studyData ->
          In (subject s) mock_subjects
          /\ 15 <= duration_minutes s <= 74
          /\ timestamp s = s_date s
          /\ startDate <= s_date s <= endDate)
    /\ StronglySorted (fun a b => s_date a < s_date b) studyData.
Proof.
  intros Hrandom Hadvance Hfuel. unfold generateMockStudyData.
  destruct (while_days_spec getDate setDate min_day Hadvance
              (fun d st =>
                 (forall s, In s (fst st) ->
                    In (subject s) mock_subjects
                    /\ 15 <= duration_minutes s <= 74
                    /\ timestamp s = s_date s
                    /\ startDate <= s_date s <= endDate
                    /\ s_date s < d)
                 /\ StronglySorted (fun a b => s_date a < s_date b) (fst st)
                 /\ startDate <= d)
              (mock_study_day random) endDate)
    with (fuel := fuel) (currentDate := startDate)
         (st := (@nil StudySession, calls))
    as (d' & [studyData calls'] & Hrun & (Hall & Hsorted & _) & Hend).
  - intros d [studyData c] Hd (Hall & Hsorted & Hstart).
    cbn [fst snd] in *.
    pose proof (next_day_later getDate setDate min_day Hadvance d) as Hnext.
    assert (Hold : forall s, In s studyData ->
              In (subject s) mock_subjects
              /\ 15 <= duration_minutes s <= 74
              /\ timestamp s = s_date s
              /\ startDate <= s_date s <= endDate
              /\ s_date s < next_day getDate setDate d).
    { intros s Hs. destruct (Hall s Hs) as (H1 & H2 & H3 & H4 & H5).
      repeat split; try assumption; lia. }
    unfold mock_study_day.
    destruct (js_gt (Fin (random c)) (Fin (4 # 10))); cbn [fst snd];
      [|split; [exact Hold|split; [exact Hsorted|lia]]].
    unfold push. split; [|split; [|lia]].
    + intros s Hs. apply in_app_or in Hs as [Hs|[<-|[]]]; [now apply Hold|].
      cbn [subject duration_minutes timestamp s_date].
      destruct (Hrandom (S c)) as [Hs0 Hs1].
      destruct (Hrandom (S (S c))) as [Hd0 Hd1].
      pose proof (floor_scaled (random (S (S c))) 60 Hd0 Hd1 ltac:(lia)) as Hdur.
      change (inject_Z 60) with 60%Q in Hdur.
      split; [now apply mock_subject_drawn|].
      split; [lia|]. split; [reflexivity|lia].
    + apply StronglySorted_snoc; [exact Hsorted|].
      intros b Hb. cbn [s_date]. now apply Hall.
  - exact Hfuel.
  - cbn [fst snd]. split; [intros s []|]. split; [constructor|lia].
  - cbn [fst snd] in *. exists studyData, calls'. split; [exact Hrun|].
    split; [|exact Hsorted].
    intros s Hs. destruct (Hall s Hs) as (H1 & H2 & H3 & H4 & _). auto.
Qed.

(** X25.  With enough fuel the mock study series is produced,
    whatever numbers [Math.random] draws: its sessions bear strictly
    increasing dates of the window, so at most one a day; every
    session is on one of the three subjects, lasts between 15 and 74
    minutes, and bears its date as its timestamp. *)
Theorem mock_study_data (getDate : Z -> Z) (setDate : Z -> Z -> Z)
  (random : nat -> Q) (min_day : Z) (fuel : nat) (startDate endDate : Z)
  (calls : nat) :
  unit_random random ->
  days_advance getDate setDate min_day ->
  enough_fuel min_day startDate endDate fuel ->
  exists studyData calls',
    generateMockStudyData getDate setDate random fuel startDate endDate calls
    = Some (studyData, calls')
    /\ (forall s, In s studyData ->
          In (subject s) mock_subjects
          /\ 15 <= duration_minutes s <= 74
          /\ timestamp s = s_date s
          /\ startDate <= s_date s <= endDate)
    /\ StronglySorted (fun a b => s_date a < s_date b) studyData.
Proof.
  exact (generateMockStudyData_spec getDate setDate random min_day fuel startDate endDate calls).
Qed.

(** The instance of X25 at a window of three days. *)
Lemma mock_study_data_witness :
  exists studyData calls',
    generateMockStudyData plain_getDate plain_setDate half_random 4
      0 172800000 0 = Some (studyData, calls')
    /\ StronglySorted (fun a b => s_date a < s_date b) studyData.
Proof.
  destruct (mock_study_data plain_getDate plain_setDate half_random 86400000
              4 0 172800000 0)
    as (studyData & calls' & Hrun & _ & Hsorted).
  - intros k. unfold half_random. split; [discriminate|reflexivity].
  - split; [lia|]. intros t. unfold next_day, plain_getDate, plain_setDate.
    pose proof (Z.div_mod t 86400000 ltac:(lia)). lia.
  - unfold enough_fuel. vm_compute. lia.
  - exists studyData, calls'. split; [exact Hrun|exact Hsorted].
Defined.

(** **** The report on mock data *)

Lemma createWellnessReport_data_quality
  tz toISOString clock userId days data report :
  createWellnessReport tz toISOString clock userId days data = Ok report ->
  data_quality report =
    mkDataQuality (Z.of_nat (length (mood_data data)))
                  (Z.of_nat (length (habit_data data)))
                  (Z.of_nat (length (study_data data)))
                  (Z.of_nat (length (period_data data))).
Proof.
  unfold createWellnessReport.
  destruct (calculateMoodInsights tz (mood_data data)) as [m|]; [|discriminate].
  destruct (analyzeHabitPatterns (habit_data data)) as [h|]; [|discriminate].
  cbn [bind]. now intros [= <-].
Qed.

Lemma mock_lengths getDate setDate random fuel startDate endDate
  c1 c2 c3 moodData habitData studyData c1' c2' c3' :
  generateMockMoodData getDate setDate random fuel startDate endDate c1
  = Some (moodData, c1') ->
  generateMockHabitData getDate setDate random fuel startDate endDate c2
  = Some (habitData, c2') ->
  generateMockStudyData getDate setDate random fuel startDate endDate c3
  = Some (studyData, c3') ->
  (length habitData = 4 * length moodData)%nat
  /\ (length studyData <= length moodData)%nat.
Proof.
  unfold generateMockMoodData, generateMockHabitData, generateMockStudyData.
  intros Hmood Hhabits Hstudy. split.
  - apply (while_days_rel getDate setDate
             (fun (s1 : list MoodEntry * nat) (s2 : list HabitEntry * nat) =>
                length (fst s2) = 4 * length (fst s1))%nat
             (mock_mood_day random) (mock_habit_day random) endDate)
      with (fuel := fuel) (currentDate := startDate)
           (s1 := ([], c1)) (s2 := ([], c2))
           (r1 := (moodData, c1')) (r2 := (habitData, c2'));
      [|reflexivity|exact Hmood|exact Hhabits].
    intros d [m a] [h b] HR. rewrite mock_habit_day_eq.
    unfold mock_mood_day, push. cbn [fst snd] in *.
    rewrite !length_app, length_map, length_combine. cbn. lia.
  - apply (while_days_rel getDate setDate
             (fun (s1 : list MoodEntry * nat) (s2 : list StudySession * nat) =>
                length (fst s2) <= length (fst s1))%nat
             (mock_mood_day random) (mock_study_day random) endDate)
      with (fuel := fuel) (currentDate := startDate)
           (s1 := ([], c1)) (s2 := ([], c3))
           (r1 := (moodData, c1')) (r2 := (studyData, c3'));
      [|cbn; lia|exact Hmood|exact Hstudy].
    intros d [m a] [s b] HR. unfold mock_mood_day, mock_study_day, push.
    cbn [fst snd] in *.
    destruct (js_gt (Fin (random b)) (Fin (4 # 10))); cbn [fst snd];
      rewrite ?length_app; cbn [length]; lia.
Qed.

Lemma mood_average_between tz (moodData : list MoodEntry) (lo hi : Z) m :
  moodData <> [] ->
  (forall e, In e moodData -> lo <= mood_level e <= hi) ->
  calculateMoodInsights tz moodData = Ok m ->
  (inject_Z lo <= mood_average m)%Q /\ (mood_average m <= inject_Z hi)%Q.
Proof.
  intros Hne Hrange Hcalc.
  destruct (calculateMoodInsights_shape tz moodData Hne)
    as (variance & best & worst & patterns & Hshape & _).
  cbv zeta in Hshape. rewrite Hshape in Hcalc. injection Hcalc as <-.
  cbn [mood_average].
  assert (Hmean : (inject_Z lo <= mean (levels moodData))%Q
                  /\ (mean (levels moodData) <= inject_Z hi)%Q).
  { apply mean_between.
    - unfold levels. destruct moodData; [congruence|discriminate].
    - intros y Hy. apply in_map_iff in Hy as (e & <- & He). now apply Hrange. }
  destruct Hmean as [Hlo Hhi].
  apply (round_to_between 100 lo hi); [lia|exact Hlo|exact Hhi].
Qed.

(** X26.  With enough fuel [loadUserData] returns, whatever numbers
    [Math.random] draws; when the start of the window and the instants
    the report prints are instants a [Date] can hold, the report on
    the data it returns is built: no mock habit name makes the habit
    analyzer throw.  The report counts four habit entries per mood
    entry, at most one study session per mood entry and no period
    entry; and when the window is not empty the mood average lies
    between 1 and 5. *)
Theorem report_on_mock_data
  (getDate : Z -> Z) (setDate : Z -> Z -> Z) (random : nat -> Q)
  (min_day : Z) (fuel : nat) (endNow startNow : Z) (calls : nat)
  (tz : Z -> Z) (toISOString : Z -> string) (clock : Clock)
  (userId : string) (days : Z) :
  unit_random random ->
  days_advance getDate setDate min_day ->
  enough_fuel min_day (setDate startNow (getDate endNow - days)) endNow fuel ->
  valid_time (setDate startNow (getDate endNow - days)) ->
  valid_time endNow ->
  report_times_valid clock days ->
  exists data calls' report,
    loadUserData getDate setDate random fuel endNow startNow userId days calls
    = Some (data, calls')
    /\ createWellnessReport tz toISOString clock userId days data = Ok report
    /\ habit_entries (data_quality report)
       = 4 * mood_entries (data_quality report)
    /\ study_entries (data_quality report)
       <= mood_entries (data_quality report)
    /\ period_entries (data_quality report) = 0
    /\ (setDate startNow (getDate endNow - days) <= endNow ->
        exists m,
          mood (insights report) = Some m
          /\ (1 <= mood_average m)%Q /\ (mood_average m <= 5)%Q).
Proof.
  intros Hrandom Hadvance Hfuel _ _ _. unfold loadUserData. cbv zeta.
  set (startDate := setDate startNow (getDate endNow - days)) in *.
  destruct (generateMockMoodData_spec getDate setDate random min_day fuel
              startDate endNow calls Hrandom Hadvance Hfuel)
    as (moodData & c1 & Hmood & Hlevels & _ & Hfirst & _).
  destruct (generateMockHabitData_spec getDate setDate random min_day fuel
              startDate endNow c1 Hadvance Hfuel)
    as (habitData & c2 & visited & Hhabits & _ & Hplain & _).
  destruct (generateMockStudyData_spec getDate setDate random min_day fuel
              startDate endNow c2 Hrandom Hadvance Hfuel)
    as (studyData & c3 & Hstudy & _).
  rewrite Hmood, Hhabits, Hstudy.
  destruct (mock_lengths _ _ _ _ _ _ _ _ _ _ _ _ _ _ _ Hmood Hhabits Hstudy)
    as [Hfour Hmost].
  set (data := mkUserData moodData habitData studyData
                          (generateMockPeriodData startDate endNow)).
  destruct (createWellnessReport_returns tz toISOString clock userId days data)
    as [report Hreport]; [exact Hplain|].
  exists data, c3, report. split; [reflexivity|]. split; [exact Hreport|].
  rewrite (createWellnessReport_data_quality _ _ _ _ _ _ _ Hreport).
  cbn [habit_entries mood_entries study_entries period_entries
       mood_data habit_data study_data period_data data].
  split; [lia|]. split; [lia|]. split; [reflexivity|].
  intros Hwindow.
  destruct (createWellnessReport_inv _ _ _ _ _ _ _ Hreport)
    as (m & h & Hm & _ & Hins & _).
  exists m. rewrite Hins. split; [reflexivity|].
  apply (mood_average_between tz moodData 1 5 m); [now apply Hfirst| |exact Hm].
  intros e He. now apply Hlevels.
Qed.

(** The instance of X26 at a window of three days. *)
Lemma report_on_mock_data_witness :
  exists data calls' report,
    loadUserData plain_getDate plain_setDate half_random 4 172800000 172800000
      "test_user_1" 2 0 = Some (data, calls')
    /\ createWellnessReport utc epoch_iso epoch_clock "test_user_1" 2 data
       = Ok report.
Proof.
  destruct (report_on_mock_data plain_getDate plain_setDate half_random
              86400000 4 172800000 172800000 0 utc epoch_iso epoch_clock
              "test_user_1" 2)
    as (data & calls' & report & Hload & Hreport & _).
  - intros k. unfold half_random. split; [discriminate|reflexivity].
  - split; [lia|]. intros t. unfold next_day, plain_getDate, plain_setDate.
    pose proof (Z.div_mod t 86400000 ltac:(lia)). lia.
  - unfold enough_fuel. vm_compute. lia.
  - unfold valid_time. vm_compute. split; discriminate.
  - unfold valid_time. lia.
  - unfold report_times_valid, valid_time. cbn. lia.
  - exists data, calls', report. split; [exact Hload|exact Hreport].
Defined.
